(** * ffprobes3: a shallow embedding of [ffprobes3/ffprobes3.py]

    The development follows the Python module top-down:

    - [Py]         the fragment of Python the module relies on: exceptions,
                   [str.strip], [str.split], [int()], [float()], [round(x, 2)],
                   true division and [int * float];
    - [Regex]      the constructs of [re] that the module uses and its
                   backtracking matcher, with [re.match] and [re.search];
    - [Re]         the four patterns of the module;
    - [Direct]     the same patterns written as plain functions, shown below to
                   agree with the matcher;
    - [Attr]       a method called on an instance, where a key of the report
                   can stand in the way of the method;
    - [FFStream]   the per-stream class: its constructor and accessors;
    - [FFProbes3]  the report class: the two scanning loops of [__init__] and the
                   audio/video partition;
    - [Spec]       definitions that follow the words of the specification, kept
                   apart from the code so that the two can be compared;
    - [Tag], [Rate], [Segment], [Shape]
                   vocabulary for stating what the code computes;
    - [Sample], [Case]
                   concrete streams and reports.

    Conventions of the embedding.

    - A Python [str] is a [string]; a character is a code point in
      U+0000..U+00FF (the 8-bit [ascii] of the standard library).  On that range
      the regular-expression class [\d] is exactly ['0'..'9'].
    - A Python [float] is an IEEE 754 binary64 number, given by [spec_float]
      with precision 53 and maximal exponent 1024.
    - A Python [int] is a [Z]; [int()] is taken without the cap that recent
      interpreters put on the number of digits of a literal.
    - A call that can raise returns a [result]: [Ok v] or [Raise e].
      [FFProbeError] comes from [ffprobes3/exceptions.py]; it is taken as a
      plain subclass of [Exception], which [except ValueError] does not catch.
    - [self.__dict__] is a finite map from field names to raw string values.
      The methods are the functions of the class.  A call on an instance,
      [self.m()] inside the class or [a.m()] in the constructor of the report,
      goes through [Attr]: a report key that is spelled like a method shadows
      that method on the instance, since the constructor writes the keys into
      the instance dictionary, and the call raises [TypeError].  ffprobe emits
      no key spelled [is_video], [is_audio], [frames], [get_r_frame_rate] or
      [get_avg_frame_rate], the methods that are called so; it does emit
      [codec_tag] and [bit_rate].
    - All of [FFStream] is embedded: the constructor and the fourteen methods.
    - The constructor of [FFProbes3] is taken from the point where the ffprobe
      process has been started: its input is the lines of the two pipes. *)

From Stdlib Require Import ZArith Ascii String SpecFloat.
From stdpp Require Import base option list gmap strings.

Local Open Scope Z_scope.

(** ** The Python fragment *)
Module Py.

(** The exceptions that the module can raise or let through. *)
Inductive exn : Type :=
| KeyError (key : string)
| ValueError
| ZeroDivisionError
| OverflowError
| TypeError
| FFProbeError (msg : string).

Inductive result (A : Type) : Type :=
| Ok (a : A)
| Raise (e : exn).
Global Arguments Ok {A} a.
Global Arguments Raise {A} e.

Definition bind {A B} (m : result A) (k : A → result B) : result B :=
  match m with
  | Ok a => k a
  | Raise e => Raise e
  end.

(** [try: m except ValueError: h] *)
Definition except_ValueError {A} (m : result A) (h : result A) : result A :=
  match m with
  | Raise ValueError => h
  | r => r
  end.

(** A conversion that signals [ValueError] on failure. *)
Definition or_ValueError {A} (o : option A) : result A :=
  match o with
  | Some a => Ok a
  | None => Raise ValueError
  end.

(** Truth value of a [str]: the empty string is falsy. *)
Definition truthy (s : string) : bool :=
  match s with
  | EmptyString => false
  | String _ _ => true
  end.

Definition code (c : ascii) : N := N_of_ascii c.

Definition is_digit (c : ascii) : bool :=
  ((48 <=? code c) && (code c <=? 57))%N.

Definition digit_value (c : ascii) : Z := Z.of_N (code c) - 48.

(** [str.isspace] on U+0000..U+00FF: TAB, LF, VT, FF, CR, FS, GS, RS, US,
    SPACE, NEL and NBSP. *)
Definition isspace (c : ascii) : bool :=
  (((9 <=? code c) && (code c <=? 13)) || ((28 <=? code c) && (code c <=? 32))
   || (code c =? 133) || (code c =? 160))%N.

(** The white space that [int()] and [float()] skip around a literal: the
    C-locale [isspace] set together with the non-ASCII spaces. *)
Definition isspace_num (c : ascii) : bool :=
  (((9 <=? code c) && (code c <=? 13)) || (code c =? 32)
   || (code c =? 133) || (code c =? 160))%N.

Fixpoint lstrip_by (p : ascii → bool) (s : string) : string :=
  match s with
  | EmptyString => EmptyString
  | String c s' => if p c then lstrip_by p s' else s
  end.

Fixpoint rstrip_by (p : ascii → bool) (s : string) : string :=
  match s with
  | EmptyString => EmptyString
  | String c s' =>
      match rstrip_by p s' with
      | EmptyString => if p c then EmptyString else String c EmptyString
      | r => String c r
      end
  end.

(** [s.strip()] *)
Definition strip (s : string) : string := rstrip_by isspace (lstrip_by isspace s).

(** [s.split(sep)] for a one-character separator: never the empty list. *)
Fixpoint split (sep : ascii) (s : string) : list string :=
  match s with
  | EmptyString => [EmptyString]
  | String c s' =>
      if Ascii.eqb c sep then EmptyString :: split sep s'
      else match split sep s' with
           | h :: t => String c h :: t
           | [] => [String c EmptyString]
           end
  end.

(** [s.count(c)] for a one-character [c]. *)
Fixpoint count (c : ascii) (s : string) : nat :=
  match s with
  | EmptyString => 0%nat
  | String a s' => ((if Ascii.eqb a c then 1 else 0) + count c s')%nat
  end.

(** [s.startswith(p)]; also what [re.match] does with a literal pattern. *)
Fixpoint startswith (p s : string) : bool :=
  match p, s with
  | EmptyString, _ => true
  | String a p', String b s' => Ascii.eqb a b && startswith p' s'
  | String _ _, EmptyString => false
  end.

Definition lower (c : ascii) : ascii :=
  if ((65 <=? code c) && (code c <=? 90))%N then ascii_of_N (code c + 32) else c.

Fixpoint lowercase (s : string) : string :=
  match s with
  | EmptyString => EmptyString
  | String c s' => String (lower c) (lowercase s')
  end.

(** *** Numeric literals *)

(** The digits of a [digitpart] read from the front of [s], most significant
    first, and what follows it.  A [digitpart] is a digit followed by digits,
    each optionally preceded by one underscore. *)
Fixpoint digitpart_tail (s : string) : list ascii * string :=
  match s with
  | String c s' =>
      if is_digit c then
        let '(ds, r) := digitpart_tail s' in (c :: ds, r)
      else if Ascii.eqb c "_" then
        match s' with
        | String d s'' =>
            if is_digit d then
              let '(ds, r) := digitpart_tail s'' in (d :: ds, r)
            else ([], s)
        | EmptyString => ([], s)
        end
      else ([], s)
  | EmptyString => ([], s)
  end.

Definition digitpart (s : string) : list ascii * string :=
  match s with
  | String c s' =>
      if is_digit c then
        let '(ds, r) := digitpart_tail s' in (c :: ds, r)
      else ([], s)
  | EmptyString => ([], s)
  end.

Definition digits_value (ds : list ascii) : Z :=
  fold_left (λ acc c, 10 * acc + digit_value c) ds 0.

(** An optional sign: [true] for a minus. *)
Definition sign (s : string) : bool * string :=
  match s with
  | String "+" s' => (false, s')
  | String "-" s' => (true, s')
  | _ => (false, s)
  end.

Definition strip_num (s : string) : string :=
  rstrip_by isspace_num (lstrip_by isspace_num s).

(** [int(s)] for a [str] in base 10; [None] stands for [ValueError]. *)
Definition int (s : string) : option Z :=
  let '(neg, body) := sign (strip_num s) in
  match digitpart body with
  | ((_ :: _) as ds, EmptyString) =>
      Some (if neg then - digits_value ds else digits_value ds)
  | _ => None
  end.

(** *** Floating point *)

Abbreviation pyfloat := spec_float.
Definition prec : Z := 53.
Definition emax : Z := 1024.

Definition fzero : pyfloat := S754_zero false.
Definition finf : pyfloat := S754_infinity false.

(** The binary64 number nearest to the integer [z] (ties to even); an
    infinity when [z] is out of range. *)
Definition of_Z (z : Z) : pyfloat := binary_normalize prec emax z 0 false.

(** The binary64 number nearest to [n / d] for positive [n] and [d], with the
    sign [neg].  The quotient is taken with at least 64 significant bits and
    one further bit that records whether the division left a remainder, so
    that the final rounding sees on which side of every midpoint the exact
    quotient lies. *)
Definition of_ratio (neg : bool) (n d : Z) : pyfloat :=
  let k := Z.max 0 (65 + Z.log2 d - Z.log2 n) in
  let q := (n * 2 ^ k) / d in
  let r := (n * 2 ^ k) mod d in
  let m := 2 * q + (if r =? 0 then 0 else 1) in
  binary_normalize prec emax (if neg then - m else m) (- k - 1) neg.

(** The binary64 number nearest to [m * 10 ^ e] for [m >= 0], signed. *)
Definition of_decimal (neg : bool) (m e : Z) : pyfloat :=
  if m =? 0 then S754_zero neg
  else if 0 <=? e then
    binary_normalize prec emax ((if neg then - m else m) * 10 ^ e) 0 neg
  else of_ratio neg m (10 ^ (- e)).

(** The exponent part of a float literal, which must reach the end of the
    string: nothing, or [e]/[E], an optional sign and a [digitpart]. *)
Definition exponent (s : string) : option Z :=
  match s with
  | EmptyString => Some 0
  | String c s' =>
      if Ascii.eqb (lower c) "e" then
        let '(neg, body) := sign s' in
        match digitpart body with
        | ((_ :: _) as ds, EmptyString) =>
            Some (if neg then - digits_value ds else digits_value ds)
        | _ => None
        end
      else None
  end.

(** [float(s)] for a [str]; [None] stands for [ValueError]. *)
Definition float (s : string) : option pyfloat :=
  let '(neg, body) := sign (strip_num s) in
  let name := lowercase body in
  if String.eqb name "inf" || String.eqb name "infinity" then
    Some (S754_infinity neg)
  else if String.eqb name "nan" then Some S754_nan
  else
    let '(ip, r1) := digitpart body in
    let '(fp, r2) :=
      match r1 with
      | String "." r => digitpart r
      | _ => ([], r1)
      end in
    match ip ++ fp with
    | [] => None
    | ds =>
        match exponent r2 with
        | Some ex =>
            Some (of_decimal neg (digits_value ds) (ex - Z.of_nat (length fp)))
        | None => None
        end
    end.

(** [round(x, 2)] on a float: the decimal with two fractional digits nearest
    to the exact value of [x] (ties to even), read back as a float. *)
Definition round2 (x : pyfloat) : pyfloat :=
  match x with
  | S754_finite neg m e =>
      if 0 <=? e then x
      else
        let num := Z.pos m * 100 in
        let den := 2 ^ (- e) in
        let q := num / den in
        let r := num mod den in
        let k :=
          match 2 * r ?= den with
          | Lt => q
          | Gt => q + 1
          | Eq => if Z.even q then q else q + 1
          end in
        of_decimal neg k (- 2)
  | _ => x
  end.

Definition is_zero (x : pyfloat) : bool :=
  match x with
  | S754_zero _ => true
  | _ => false
  end.

(** Conversion of an [int] operand of a float operation. *)
Definition int_to_float (z : Z) : result pyfloat :=
  match of_Z z with
  | S754_infinity _ => Raise OverflowError
  | f => Ok f
  end.

(** [a / b] on floats. *)
Definition truediv (a b : pyfloat) : result pyfloat :=
  if is_zero b then Raise ZeroDivisionError else Ok (SFdiv prec emax a b).

(** [a * b] on floats. *)
Definition mul (a b : pyfloat) : pyfloat := SFmul prec emax a b.

End Py.

Export Py (exn(..), result(..)).

Notation "x <- m ;; k" := (Py.bind m (λ x, k))
  (at level 20, m at level 99, k at level 200, only parsing).
Notation "' p <- m ;; k" := (Py.bind m (λ x, match x with p => k end))
  (at level 20, p pattern, m at level 99, k at level 200, only parsing).

(** ** Regular expressions

    The constructs that the patterns of the module use, and the backtracking
    matcher of [re]: alternatives are tried from left to right, [?] and [+]
    are greedy, and the first success is the answer. *)
Module Regex.

Inductive t : Type :=
| Bol                         (* ^ *)
| Chr (c : ascii)             (* a literal character *)
| Digit                       (* \d *)
| Digits                      (* \d+ *)
| Seq (r1 r2 : t)             (* r1 r2 *)
| Alt (r1 r2 : t)             (* r1|r2 *)
| Opt (r : t)                 (* r? *)
| Group (i : nat) (r : t).    (* ( r ), the group numbered i *)

(** A literal string, given by its first character and the rest. *)
Fixpoint literal (c : ascii) (s : string) : t :=
  match s with
  | EmptyString => Chr c
  | String c' s' => Seq (Chr c) (literal c' s')
  end.

(** [\d+] at the front of [s], after the digits [pre] already taken: the
    longer run is tried before the shorter one. *)
Fixpoint run_digits {A} (pre s : string) (k : string → string → option A)
  : option A :=
  match s with
  | String c s' =>
      if Py.is_digit c then
        let pre' := pre +:+ String c EmptyString in
        match run_digits pre' s' k with
        | Some a => Some a
        | None => k pre' s'
        end
      else None
  | EmptyString => None
  end.

(** The matcher.  [bol] says whether the front of [s] is the beginning of the
    subject and [groups] holds the groups set so far; the continuation [k]
    receives the text matched, the rest of the subject and the groups. *)
Fixpoint run {A} (r : t) (bol : bool) (s : string) (groups : gmap nat string)
    (k : string → string → gmap nat string → option A) : option A :=
  match r with
  | Bol => if bol then k EmptyString s groups else None
  | Chr c =>
      match s with
      | String c' s' =>
          if Ascii.eqb c' c then k (String c' EmptyString) s' groups else None
      | EmptyString => None
      end
  | Digit =>
      match s with
      | String c' s' =>
          if Py.is_digit c' then k (String c' EmptyString) s' groups else None
      | EmptyString => None
      end
  | Digits => run_digits EmptyString s (λ text s', k text s' groups)
  | Seq r1 r2 =>
      run r1 bol s groups (λ text1 s1 groups1,
        run r2 (bol && negb (Py.truthy text1)) s1 groups1 (λ text2 s2 groups2,
          k (text1 +:+ text2) s2 groups2))
  | Alt r1 r2 =>
      match run r1 bol s groups k with
      | Some a => Some a
      | None => run r2 bol s groups k
      end
  | Opt r1 =>
      match run r1 bol s groups k with
      | Some a => Some a
      | None => k EmptyString s groups
      end
  | Group i r1 =>
      run r1 bol s groups (λ text s' groups', k text s' (<[i := text]> groups'))
  end.

(** The continuation that ends a match: the groups are the answer. *)
Definition accept : string → string → gmap nat string → option (gmap nat string) :=
  λ _ _ groups, Some groups.

(** [re.match(r, s)]: the groups of the match at the beginning of [s]. *)
Definition match_ (r : t) (s : string) : option (gmap nat string) :=
  run r true s ∅ accept.

(** The leftmost match among those that begin after the beginning of the
    subject. *)
Fixpoint search_from (r : t) (s : string) : option (gmap nat string) :=
  match run r false s ∅ accept with
  | Some groups => Some groups
  | None =>
      match s with
      | String _ s' => search_from r s'
      | EmptyString => None
      end
  end.

(** [re.search(r, s)]: the groups of the leftmost match. *)
Definition search (r : t) (s : string) : option (gmap nat string) :=
  match match_ r s with
  | Some groups => Some groups
  | None =>
      match s with
      | String _ s' => search_from r s'
      | EmptyString => None
      end
  end.

(** The truth value of a match object. *)
Definition found (m : option (gmap nat string)) : bool :=
  match m with
  | Some _ => true
  | None => false
  end.

End Regex.

(** ** The patterns of the module *)
Module Re.

(** [\[STREAM\]] *)
Definition stream_start : Regex.t := Regex.literal "[" "STREAM]".

(** [\[/STREAM\]] *)
Definition stream_end : Regex.t := Regex.literal "[" "/STREAM]".

(** [(\d+)(?:/(\d+))?] *)
Definition rate : Regex.t :=
  Regex.Seq (Regex.Group 1 Regex.Digits)
    (Regex.Opt (Regex.Seq (Regex.Chr "/") (Regex.Group 2 Regex.Digits))).

(** [(?:00|(\d\d))], the group being numbered [i] *)
Definition pair (i : nat) : Regex.t :=
  Regex.Alt (Regex.Seq (Regex.Chr "0") (Regex.Chr "0"))
    (Regex.Group i (Regex.Seq Regex.Digit Regex.Digit)).

(** [^(?:00|(\d\d)):?(?:00|(\d\d)):?(?:00|(\d\d))\.(\d+)] *)
Definition duration : Regex.t :=
  Regex.Seq Regex.Bol
    (Regex.Seq (pair 1)
       (Regex.Seq (Regex.Opt (Regex.Chr ":"))
          (Regex.Seq (pair 2)
             (Regex.Seq (Regex.Opt (Regex.Chr ":"))
                (Regex.Seq (pair 3)
                   (Regex.Seq (Regex.Chr ".") (Regex.Group 4 Regex.Digits))))))).

End Re.

(** ** The patterns as functions

    What the matcher computes for each pattern of [Re], written directly.
    None of the patterns needs backtracking: every [\d+] is followed by
    something that accepts whatever comes next, and in [(?:00|(\d\d))] both
    alternatives consume the same two characters.  The properties below show
    that these functions and the matcher agree. *)
Module Direct.

(** The longest prefix of digits, and the rest: a greedy [\d*]. *)
Fixpoint digits (s : string) : string * string :=
  match s with
  | String c s' =>
      if Py.is_digit c then let '(ds, r) := digits s' in (String c ds, r)
      else (EmptyString, s)
  | EmptyString => (EmptyString, s)
  end.

(** Every character is a digit. *)
Fixpoint all_digits (s : string) : bool :=
  match s with
  | EmptyString => true
  | String c s' => Py.is_digit c && all_digits s'
  end.

(** [Re.rate] at the front of [s]: groups 1 and 2. *)
Definition rate_here (s : string) : option (string * option string) :=
  match digits s with
  | (EmptyString, _) => None
  | (num, String "/" r) =>
      match digits r with
      | (EmptyString, _) => Some (num, None)
      | (den, _) => Some (num, Some den)
      end
  | (num, _) => Some (num, None)
  end.

(** The leftmost match of [Re.rate] in [s]. *)
Fixpoint rate (s : string) : option (string * option string) :=
  match rate_here s with
  | Some g => Some g
  | None =>
      match s with
      | String _ s' => rate s'
      | EmptyString => None
      end
  end.

(** [(?:00|(\d\d))] at the front of [s]: the group (unset for [00]) and the
    rest. *)
Definition two_digits (s : string) : option (option string * string) :=
  match s with
  | String a (String b r) =>
      if Ascii.eqb a "0" && Ascii.eqb b "0" then Some (None, r)
      else if Py.is_digit a && Py.is_digit b then
        Some (Some (String a (String b EmptyString)), r)
      else None
  | _ => None
  end.

(** [:?] *)
Definition colon (s : string) : string :=
  match s with
  | String ":" r => r
  | _ => s
  end.

(** [Re.duration] at the beginning of [s]: groups 1 to 4. *)
Definition duration (s : string)
  : option (option string * option string * option string * string) :=
  match two_digits s with
  | Some (g1, r1) =>
      match two_digits (colon r1) with
      | Some (g2, r2) =>
          match two_digits (colon r2) with
          | Some (g3, String "." r3) =>
              match digits r3 with
              | (EmptyString, _) => None
              | (g4, _) => Some (g1, g2, g3, g4)
              end
          | _ => None
          end
      | None => None
      end
  | None => None
  end.

(** Set a group, or leave it unset. *)
Definition set_group (i : nat) (g : option string) (groups : gmap nat string)
  : gmap nat string :=
  match g with
  | Some text => <[i := text]> groups
  | None => groups
  end.

(** The groups of a match of the rate pattern. *)
Definition rate_groups (g : string * option string) : gmap nat string :=
  set_group 2 g.2 (<[1%nat := g.1]> ∅).

(** The groups of a match of the timestamp pattern. *)
Definition duration_groups
    (g : option string * option string * option string * string)
  : gmap nat string :=
  let '(g1, g2, g3, g4) := g in
  <[4%nat := g4]> (set_group 3 g3 (set_group 2 g2 (set_group 1 g1 ∅))).

(** [\.(\d+)] at the front of [s], at the end of the timestamp pattern. *)
Definition fraction (s : string) (groups : gmap nat string)
  : option (gmap nat string) :=
  match s with
  | String "." r =>
      match digits r with
      | (EmptyString, _) => None
      | (g4, _) => Some (<[4%nat := g4]> groups)
      end
  | _ => None
  end.

(** [(?:00|(\d\d))] with the group numbered [i], then [d]. *)
Definition after_pair (i : nat)
    (d : string → gmap nat string → option (gmap nat string))
    (s : string) (groups : gmap nat string) : option (gmap nat string) :=
  match two_digits s with
  | Some (g, r) => d r (set_group i g groups)
  | None => None
  end.

(** [:?], then [d]. *)
Definition after_colon (d : string → gmap nat string → option (gmap nat string))
    (s : string) (groups : gmap nat string) : option (gmap nat string) :=
  d (colon s) groups.

End Direct.

(** ** Calling a method on an instance

    [stream.m()], and [self.m()] inside the class, look [m] up on the instance
    before they look at the class.  The constructor writes the keys of the
    report into the instance dictionary, so when a key is spelled [m] the
    lookup finds the string that the key holds, and calling a string raises
    [TypeError]. *)
Module Attr.

Inductive outcome (A : Type) : Type :=
| Returns (r : result A)       (* the method of the class ran on the instance *)
| NotCallable (val : string).  (* TypeError: 'str' object is not callable *)
Global Arguments Returns {A} r.
Global Arguments NotCallable {A} val.

(** [self.name()] where the class defines [name] as [method]. *)
Definition call {A} (name : string) (method : gmap string string → result A)
    (self : gmap string string) : outcome A :=
  match self !! name with
  | Some val => NotCallable val
  | None => Returns (method self)
  end.

(** The call as an expression of a method body: what the method returns or
    raises, or [TypeError]. *)
Definition invoke {A} (name : string) (method : gmap string string → result A)
    (self : gmap string string) : result A :=
  match call name method self with
  | Returns r => r
  | NotCallable _ => Raise TypeError
  end.

End Attr.

(** ** class FFStream *)
Module FFStream.

(** What a method may return where Python gives an [int] on one path and a
    [float] on another. *)
Inductive number : Type :=
| Int (z : Z)
| Float (f : Py.pyfloat).

(** [self.__dict__[key]] *)
Definition getitem (self : gmap string string) (key : string) : result string :=
  match self !! key with
  | Some val => Ok val
  | None => Raise (KeyError key)
  end.

(** One turn of the constructor's loop:
    [(key, val) = a.strip().split('='); self.__dict__[key] = val].
    Unpacking anything but two parts raises [ValueError]. *)
Definition set_line (self : gmap string string) (a : string)
  : result (gmap string string) :=
  match Py.split "=" (Py.strip a) with
  | [key; val] => Ok (<[key := val]> self)
  | _ => Raise ValueError
  end.

Fixpoint set_lines (self : gmap string string) (data_lines : list string)
  : result (gmap string string) :=
  match data_lines with
  | [] => Ok self
  | a :: rest => self' <- set_line self a ;; set_lines self' rest
  end.

Definition __init__ (data_lines : list string) : result (gmap string string) :=
  set_lines ∅ data_lines.

Definition is_audio (self : gmap string string) : result bool :=
  c <- getitem self "codec_type" ;;
  if Py.truthy c then
    c' <- getitem self "codec_type" ;;
    Ok (String.eqb c' "audio")
  else Ok false.

Definition is_video (self : gmap string string) : result bool :=
  c <- getitem self "codec_type" ;;
  if Py.truthy c then
    c' <- getitem self "codec_type" ;;
    Ok (String.eqb c' "video")
  else Ok false.

Definition is_subtitle (self : gmap string string) : result bool :=
  c <- getitem self "codec_type" ;;
  if Py.truthy c then
    c' <- getitem self "codec_type" ;;
    Ok (String.eqb c' "subtitle")
  else Ok false.

(** [self.is_video() or self.is_audio()] *)
Definition is_video_or_audio (self : gmap string string) : result bool :=
  v <- Attr.invoke "is_video" is_video self ;;
  if v then Ok true else Attr.invoke "is_audio" is_audio self.

Definition frame_size (self : gmap string string) : result (option (Z * Z)) :=
  v <- Attr.invoke "is_video" is_video self ;;
  if v then
    width <- getitem self "width" ;;
    height <- getitem self "height" ;;
    if Py.truthy width && Py.truthy height then
      Py.except_ValueError
        (w <- Py.or_ValueError (Py.int width) ;;
         h <- Py.or_ValueError (Py.int height) ;;
         Ok (Some (w, h)))
        (Raise (FFProbeError
                  ("None integer size " +:+ width +:+ ":" +:+ height)))
    else Ok None
  else Ok None.

Definition pixel_format (self : gmap string string) : result (option string) :=
  v <- Attr.invoke "is_video" is_video self ;;
  if v then
    f <- getitem self "pix_fmt" ;;
    if Py.truthy f then
      f' <- getitem self "pix_fmt" ;;
      Ok (Some f')
    else Ok None
  else Ok None.

(** The body shared, line for line, by [get_r_frame_rate] and
    [get_avg_frame_rate] once the field is known to be non-empty. *)
Definition rate_of (raw : string) : result Py.pyfloat :=
  match Regex.search Re.rate raw with
  | Some m =>
      match m !! 1%nat with
      | Some g1 =>
          if Py.truthy g1 then
            b <- Py.or_ValueError (Py.float g1) ;;
            match m !! 2%nat with
            | Some den =>
                if Py.truthy den then
                  d <- Py.or_ValueError (Py.float den) ;;
                  q <- Py.truediv b d ;;
                  Ok (Py.round2 q)
                else Ok b
            | None => Ok b
            end
          else Raise ValueError
      | None => Raise ValueError
      end
  | None => Py.or_ValueError (Py.float raw)
  end.

Definition get_r_frame_rate (self : gmap string string) : result Py.pyfloat :=
  Py.except_ValueError
    (raw <- getitem self "r_frame_rate" ;;
     if Py.truthy raw then
       raw' <- getitem self "r_frame_rate" ;; rate_of raw'
     else Ok Py.fzero)
    (Raise (FFProbeError "Nothing useful in r_frame_rate")).

Definition get_avg_frame_rate (self : gmap string string) : result Py.pyfloat :=
  Py.except_ValueError
    (raw <- getitem self "avg_frame_rate" ;;
     if Py.truthy raw then
       raw' <- getitem self "avg_frame_rate" ;; rate_of raw'
     else Raise ValueError)
    (Raise (FFProbeError "Nothing useful in r_frame_rate")).

(** [if match.group(i): frame_count += int(match.group(i)) * unit] *)
Definition add_group (frame_count : Z) (g : option string) (unit : Z)
  : result Z :=
  match g with
  | Some digits =>
      if Py.truthy digits then
        n <- Py.or_ValueError (Py.int digits) ;; Ok (frame_count + n * unit)
      else Ok frame_count
  | None => Ok frame_count
  end.

Definition frames (self : gmap string string) : result number :=
  applicable <- is_video_or_audio self ;;
  if applicable then
    Py.except_ValueError
      (nb <- getitem self "nb_frames" ;;
       if negb (String.eqb nb "N/A") then
         nb' <- getitem self "nb_frames" ;;
         n <- Py.or_ValueError (Py.int nb') ;;
         Ok (Int n)
       else
         tag <- getitem self "TAG:DURATION" ;;
         if Py.truthy tag then
           tag' <- getitem self "TAG:DURATION" ;;
           match Regex.search Re.duration tag' with
           | Some m =>
               c1 <- add_group 0 (m !! 1%nat) (60 * 60) ;;
               c2 <- add_group c1 (m !! 2%nat) 60 ;;
               c3 <- add_group c2 (m !! 3%nat) 1 ;;
               fps <- Attr.invoke "get_r_frame_rate" get_r_frame_rate self ;;
               x <- Py.int_to_float c3 ;;
               Ok (Float (Py.mul x fps))
           | None => Ok (Int 0)
           end
         else Raise ValueError)
      (Raise (FFProbeError "None integer frame count"))
  else Ok (Int 0).

(** The left operand of [framenumbers / fps] as a float. *)
Definition to_float (n : number) : result Py.pyfloat :=
  match n with
  | Int z => Py.int_to_float z
  | Float f => Ok f
  end.

Definition duration_seconds (self : gmap string string) : result Py.pyfloat :=
  applicable <- is_video_or_audio self ;;
  if applicable then
    Py.except_ValueError
      (d <- getitem self "duration" ;;
       if negb (String.eqb d "N/A") then
         d' <- getitem self "duration" ;;
         Py.or_ValueError (Py.float d')
       else
         fps <- Attr.invoke "get_avg_frame_rate" get_avg_frame_rate self ;;
         framenumbers <- Attr.invoke "frames" frames self ;;
         x <- to_float framenumbers ;;
         Py.truediv x fps)
      (Raise (FFProbeError "None numeric duration"))
  else Ok Py.fzero.

(** The body shared by [language], [codec], [codec_description] and
    [codec_tag]: [None] unless the field is a non-empty string. *)
Definition field_or_None (self : gmap string string) (key : string)
  : result (option string) :=
  val <- getitem self key ;;
  if Py.truthy val then
    val' <- getitem self key ;;
    Ok (Some val')
  else Ok None.

Definition language (self : gmap string string) : result (option string) :=
  field_or_None self "TAG:language".

Definition codec (self : gmap string string) : result (option string) :=
  field_or_None self "codec_name".

Definition codec_description (self : gmap string string) : result (option string) :=
  field_or_None self "codec_long_name".

Definition codec_tag (self : gmap string string) : result (option string) :=
  field_or_None self "codec_tag_string".

Definition bit_rate (self : gmap string string) : result Z :=
  b <- getitem self "bit_rate" ;;
  if Py.truthy b then
    Py.except_ValueError
      (b' <- getitem self "bit_rate" ;;
       Py.or_ValueError (Py.int b'))
      (Raise (FFProbeError "None integer bit_rate"))
  else Ok 0.

End FFStream.

(** ** class FFProbes3 *)
Module FFProbes3.

(** The attributes the claims speak of; [format], [created], [duration],
    [start] and [bitrate] are set to [None] and never touched again. *)
Record t : Type := Build {
  streams : list (gmap string string);
  video : list (gmap string string);
  audio : list (gmap string string)
}.

(** [re.match(r'\[STREAM\]', a)] as a condition. *)
Definition is_start (a : string) : bool :=
  Regex.found (Regex.match_ Re.stream_start a).

(** [re.match(r'\[/STREAM\]', a)] as a condition. *)
Definition is_end (a : string) : bool :=
  Regex.found (Regex.match_ Re.stream_end a).

(** One turn of either scanning loop, on the pair [(self.streams,
    data_lines)]. *)
Definition scan_line (st : list (gmap string string) * list string) (a : string)
  : result (list (gmap string string) * list string) :=
  let '(streams, data_lines) := st in
  if is_start a then Ok (streams, [])
  else if is_end a then
    s <- FFStream.__init__ data_lines ;;
    Ok (streams ++ [s], [])
  else Ok (streams, data_lines ++ [a]).

Fixpoint scan (st : list (gmap string string) * list string) (lines : list string)
  : result (list (gmap string string) * list string) :=
  match lines with
  | [] => Ok st
  | a :: rest => st' <- scan_line st a ;; scan st' rest
  end.

(** The last loop: [if a.is_audio(): self.audio.append(a)] and then
    [if a.is_video(): self.video.append(a)], on the pair
    [(self.video, self.audio)]. *)
Fixpoint partition (streams video audio : list (gmap string string))
  : result (list (gmap string string) * list (gmap string string)) :=
  match streams with
  | [] => Ok (video, audio)
  | a :: rest =>
      ia <- Attr.invoke "is_audio" FFStream.is_audio a ;;
      let audio' := if ia then audio ++ [a] else audio in
      iv <- Attr.invoke "is_video" FFStream.is_video a ;;
      let video' := if iv then video ++ [a] else video in
      partition rest video' audio'
  end.

(** The two scanning loops, one after the other: [data_lines] is not reset
    between them. *)
Definition read_streams (stdout stderr : list string)
  : result (list (gmap string string)) :=
  st <- scan ([], []) stdout ;;
  '(streams, _) <- scan st stderr ;;
  Ok streams.

(** The constructor, from the point where the two pipes of the ffprobe
    process are open: [stdout] and [stderr] are the lines read from them,
    decoded. *)
Definition __init__ (stdout stderr : list string) : result t :=
  streams <- read_streams stdout stderr ;;
  '(video, audio) <- partition streams [] [] ;;
  Ok (Build streams video audio).

End FFProbes3.

(** ** The vocabulary of the specification *)
Module Spec.

(** The error names of the specification, as the exceptions that the code
    raises at the corresponding places. *)
Definition InvalidFrameRate : exn := FFProbeError "Nothing useful in r_frame_rate".
Definition MalformedFrameCount : exn := FFProbeError "None integer frame count".
Definition MalformedDuration : exn := FFProbeError "None numeric duration".
Definition MalformedSize (width height : string) : exn :=
  FFProbeError ("None integer size " +:+ width +:+ ":" +:+ height).

(** The float that a decimal literal denotes. *)
Definition lit (s : string) : Py.pyfloat := default S754_nan (Py.float s).

Inductive classification : Type := Audio | Video | Subtitle | Other.

(** Section 4.3: exact match on the [codec_type] field, [Other] for any
    other value and for an absent field. *)
Definition classify (self : gmap string string) : classification :=
  match self !! "codec_type" with
  | Some c =>
      if String.eqb c "audio" then Audio
      else if String.eqb c "video" then Video
      else if String.eqb c "subtitle" then Subtitle
      else Other
  | None => Other
  end.

(** What it means for the code to put a stream in a class: the predicate of
    that class answers [True]; for [Other], all three answer [False]. *)
Definition classified (self : gmap string string) (k : classification) : Prop :=
  match k with
  | Audio => FFStream.is_audio self = Ok true
  | Video => FFStream.is_video self = Ok true
  | Subtitle => FFStream.is_subtitle self = Ok true
  | Other =>
      FFStream.is_audio self = Ok false ∧ FFStream.is_video self = Ok false
      ∧ FFStream.is_subtitle self = Ok false
  end.

(** Section 8, property 1: the number of complete [[STREAM]]...[[/STREAM]]
    pairs.  [opened] says whether a start marker is waiting for its end. *)
Fixpoint complete_pairs_from (opened : bool) (lines : list string) : nat :=
  match lines with
  | [] => 0
  | a :: rest =>
      if FFProbes3.is_start a then complete_pairs_from true rest
      else if FFProbes3.is_end a then
        ((if opened then 1 else 0) + complete_pairs_from false rest)%nat
      else complete_pairs_from opened rest
  end.

Definition complete_pairs (lines : list string) : nat :=
  complete_pairs_from false lines.

(** The text before and after the first [sep] of [s]. *)
Fixpoint cut (sep : ascii) (s : string) : option (string * string) :=
  match s with
  | EmptyString => None
  | String c s' =>
      if Ascii.eqb c sep then Some (EmptyString, s')
      else match cut sep s' with
           | Some (k, v) => Some (String c k, v)
           | None => None
           end
  end.

(** Section 4.1: split on the first [=] into key and value and trim both. *)
Definition key_value (a : string) : option (string * string) :=
  match cut "=" a with
  | Some (k, v) => Some (Py.strip k, Py.strip v)
  | None => None
  end.

(** The end markers that close no open block. *)
Fixpoint stray_ends_from (opened : bool) (lines : list string) : nat :=
  match lines with
  | [] => 0
  | a :: rest =>
      if FFProbes3.is_start a then stray_ends_from true rest
      else if FFProbes3.is_end a then
        ((if opened then 0 else 1) + stray_ends_from false rest)%nat
      else stray_ends_from opened rest
  end.

Definition stray_ends (lines : list string) : nat := stray_ends_from false lines.

(** Section 8, property 2: the value last written for a key, in a sequence of
    writes. *)
Fixpoint last_written (key : string) (writes : list (string * string))
  : option string :=
  match writes with
  | [] => None
  | (k, v) :: rest =>
      match last_written key rest with
      | Some v' => Some v'
      | None => if String.eqb k key then Some v else None
      end
  end.

End Spec.

(** ** The timestamp of [TAG:DURATION] *)
Module Tag.

(** A group of the timestamp pattern, when set, is a non-empty run of
    digits. *)
Definition digit_group (g : option string) : Prop :=
  ∀ ds, g = Some ds → Py.truthy ds = true ∧ Direct.all_digits ds = true.

(** The number that a group of the timestamp stands for: nothing for a group
    that is not set, which is how [00] is matched. *)
Definition group_value (g : option string) : Z :=
  match g with
  | Some ds => Py.digits_value (list_ascii_of_string ds)
  | None => 0
  end.

End Tag.

(** ** What the rate accessors answer *)
Module Rate.

(** The answer [res] of a rate accessor on a non-empty raw value, by what the
    pattern finds in it: a numerator and a denominator, whose quotient is
    rounded to two decimals unless the denominator is zero; a numerator alone;
    or no digit at all, when the whole value goes through [float]. *)
Definition answer (raw : string) (res : result Py.pyfloat) : Prop :=
  match Regex.search Re.rate raw with
  | Some m =>
      ∃ num x, m !! 1%nat = Some num ∧ Py.float num = Some x
        ∧ match m !! 2%nat with
          | Some den =>
              ∃ y, Py.float den = Some y
                ∧ res = if Py.is_zero y then Raise ZeroDivisionError
                        else Ok (Py.round2 (SFdiv Py.prec Py.emax x y))
          | None => res = Ok x
          end
  | None =>
      res = match Py.float raw with
            | Some x => Ok x
            | None => Raise Spec.InvalidFrameRate
            end
  end.

(** The values of section 8, property 3; on [1/0] the failure is that of the
    division. *)
Definition samples (raw : string) (res : result Py.pyfloat) : Prop :=
  (raw = "30000/1001" → res = Ok (Spec.lit "29.97"))
  ∧ (raw = "25/1" → res = Ok (Spec.lit "25.0"))
  ∧ (raw = "25" → res = Ok (Spec.lit "25.0"))
  ∧ (raw = "x" → res = Raise Spec.InvalidFrameRate)
  ∧ (raw = "1/0" → res = Raise ZeroDivisionError).

End Rate.

(** ** What the scanning loops compute, without the loop state *)
Module Segment.

(** The groups of lines that the end markers close, in order: for each end
    marker, the lines read since the marker before it.  [pending] holds the
    lines read since the last marker. *)
Fixpoint blocks_from (pending lines : list string) : list (list string) :=
  match lines with
  | [] => []
  | a :: rest =>
      if FFProbes3.is_start a then blocks_from [] rest
      else if FFProbes3.is_end a then pending :: blocks_from [] rest
      else blocks_from (pending ++ [a]) rest
  end.

Definition blocks (lines : list string) : list (list string) :=
  blocks_from [] lines.

(** The lines left pending at the end of the input. *)
Fixpoint pending_after (pending lines : list string) : list string :=
  match lines with
  | [] => pending
  | a :: rest =>
      if FFProbes3.is_start a then pending_after [] rest
      else if FFProbes3.is_end a then pending_after [] rest
      else pending_after (pending ++ [a]) rest
  end.

(** Apply [f] along a list, stopping at the first exception. *)
Fixpoint traverse {A B} (f : A → result B) (l : list A) : result (list B) :=
  match l with
  | [] => Ok []
  | x :: rest => y <- f x ;; ys <- traverse f rest ;; Ok (y :: ys)
  end.

(** A line that the constructor of [FFStream] accepts: stripped, it has one
    [=]. *)
Definition one_equals (a : string) : Prop := Py.count "=" (Py.strip a) = 1%nat.

(** The key and the value that the constructor takes from a line. *)
Definition write_of (a : string) : string * string :=
  default (EmptyString, EmptyString) (Spec.cut "=" (Py.strip a)).

(** The truth of an answer: [True] was returned. *)
Definition affirmed (r : result bool) : bool :=
  match r with
  | Ok true => true
  | _ => false
  end.

End Segment.

(** ** Shapes of text

    Vocabulary for the values and lines on which the further properties are
    stated. *)
Module Shape.

(** What [language], [codec], [codec_description] and [codec_tag] hand out
    for the value of their field, or for a field that is not there. *)
Definition handed_out (key : string) (raw : option string)
  : result (option string) :=
  match raw with
  | Some val => Ok (if Py.truthy val then Some val else None)
  | None => Raise (KeyError key)
  end.

(** What the call of the accessor [name], which reads the field [key], comes
    to on a stream built from the [writes] of a block: the string that the
    last write to [name] left on the instance is not callable; without such a
    write the accessor hands out the last value written to [key]. *)
Definition called (name key : string) (writes : list (string * string))
  : Attr.outcome (option string) :=
  match Spec.last_written name writes with
  | Some val => Attr.NotCallable val
  | None => Attr.Returns (handed_out key (Spec.last_written key writes))
  end.

(** No field of the store is spelled like one of [names]: the methods so
    named can be called on the instance. *)
Definition unshadowed (names : list string) (self : gmap string string) : bool :=
  forallb (λ name, match self !! name with
                   | Some _ => false
                   | None => true
                   end) names.

(** What the last loop of the report's constructor raises on a stream, if
    anything: it calls [is_audio] and then [is_video] on the instance. *)
Definition fault (a : gmap string string) : option exn :=
  match a !! "is_audio", a !! "codec_type", a !! "is_video" with
  | Some _, _, _ => Some TypeError
  | None, None, _ => Some (KeyError "codec_type")
  | None, Some _, Some _ => Some TypeError
  | None, Some _, None => None
  end.

(** The fault of the first stream that has one. *)
Fixpoint first_fault (streams : list (gmap string string)) : option exn :=
  match streams with
  | [] => None
  | a :: rest =>
      match fault a with
      | Some e => Some e
      | None => first_fault rest
      end
  end.

(** No character of [s] is a digit. *)
Fixpoint no_digit (s : string) : bool :=
  match s with
  | EmptyString => true
  | String c s' => negb (Py.is_digit c) && no_digit s'
  end.

(** [s] begins with a digit. *)
Definition leading_digit (s : string) : bool :=
  match s with
  | String c _ => Py.is_digit c
  | EmptyString => false
  end.

(** [s] begins neither with a digit nor with a [/] and a digit: what may
    follow a number that stands alone. *)
Definition ends_number (s : string) : bool :=
  match s with
  | String c s' => negb (Py.is_digit c) && negb (Ascii.eqb c "/" && leading_digit s')
  | EmptyString => true
  end.

(** Every character of [s] is [0]. *)
Fixpoint all_zeros (s : string) : bool :=
  match s with
  | EmptyString => true
  | String c s' => Ascii.eqb c "0" && all_zeros s'
  end.

(** Two digits. *)
Definition pair (s : string) : bool :=
  match s with
  | String a (String b EmptyString) => Py.is_digit a && Py.is_digit b
  | _ => false
  end.

(** A colon, or nothing. *)
Definition colon (s : string) : bool := String.eqb s "" || String.eqb s ":".

(** The number that a run of digits denotes. *)
Definition value (s : string) : Z := Py.digits_value (list_ascii_of_string s).

(** Every character of [s] is white space. *)
Fixpoint all_space (s : string) : bool :=
  match s with
  | EmptyString => true
  | String c s' => Py.isspace c && all_space s'
  end.

(** No character of [s] is white space. *)
Fixpoint no_space (s : string) : bool :=
  match s with
  | EmptyString => true
  | String c s' => negb (Py.isspace c) && no_space s'
  end.

End Shape.

(** ** Sample streams *)
Module Sample.

Definition line_feed : string := String (ascii_of_N 10) EmptyString.

(** [s] with the line feed that [readline] leaves at its end. *)
Definition ln (s : string) : string := s +:+ line_feed.

(** A video stream with its pixel dimensions. *)
Definition sized : gmap string string :=
  {[ "codec_type" := "video"; "width" := "1920"; "height" := "1080" ]}.

(** A video stream that reports its width only. *)
Definition no_height : gmap string string :=
  {[ "codec_type" := "video"; "width" := "640" ]}.

(** Pixel dimensions without a [codec_type]. *)
Definition untyped : gmap string string :=
  {[ "width" := "640"; "height" := "480" ]}.



(** The stream of section 8, properties 5 and 6. *)
Definition tagged : gmap string string :=
  {[ "codec_type" := "video"; "nb_frames" := "N/A";
     "TAG:DURATION" := "00:03:50.070000000"; "r_frame_rate" := "25/1";
     "avg_frame_rate" := "25/1"; "duration" := "N/A" ]}.

(** One second of NTSC video. *)
Definition ntsc_second : gmap string string :=
  {[ "codec_type" := "video"; "nb_frames" := "N/A";
     "TAG:DURATION" := "00:00:01.000000000"; "r_frame_rate" := "30000/1001" ]}.



(** The two pipes of a run: the second stream block begins on the first pipe
    and ends on the second, and a last block is left open. *)
Definition stdout : list string :=
  [ ln "[STREAM]"; ln "codec_type=audio"; ln "nb_frames=120"; ln "[/STREAM]";
    ln "[STREAM]"; ln "codec_type=video" ].
Definition stderr : list string :=
  [ ln "width=640"; ln "[/STREAM]"; ln "[STREAM]"; ln "codec_type=subtitle" ].

Definition first_stream : gmap string string :=
  {[ "codec_type" := "audio"; "nb_frames" := "120" ]}.
Definition second_stream : gmap string string :=
  {[ "codec_type" := "video"; "width" := "640" ]}.

(** An end marker that no start marker opened. *)
Definition unopened : list string := [ ln "codec_type=audio"; ln "[/STREAM]" ].

(** A complete block with an empty line in it. *)
Definition spaced : list string :=
  [ ln "[STREAM]"; ln ""; ln "codec_type=audio"; ln "[/STREAM]" ].

(** A block that writes one key twice. *)
Definition rewritten : list string := [ ln "a=1"; ln "b=2"; ln "a=3" ].

(** Rates: NTSC, a zero denominator, the word that [float] reads as infinity,
    and the empty string. *)
Definition ntsc : gmap string string :=
  {[ "r_frame_rate" := "30000/1001"; "avg_frame_rate" := "30000/1001" ]}.
Definition zero_denominator : gmap string string :=
  {[ "r_frame_rate" := "1/0"; "avg_frame_rate" := "1/0" ]}.
Definition infinite : gmap string string :=
  {[ "r_frame_rate" := "inf"; "avg_frame_rate" := "inf" ]}.
Definition empty_rate : gmap string string :=
  {[ "r_frame_rate" := ""; "avg_frame_rate" := "" ]}.

End Sample.

(** ** Further samples *)
Module Case.

(** A video stream with a duration tag and no frame count. *)
Definition uncounted : gmap string string :=
  {[ "codec_type" := "video"; "TAG:DURATION" := "00:00:01.0" ]}.



(** A block with a field named [is_audio]. *)
Definition shadowed_block : list string :=
  [ Sample.ln "[STREAM]"; Sample.ln "codec_type=audio"; Sample.ln "is_audio=1";
    Sample.ln "[/STREAM]" ].

(** The two lines that ffprobe writes about the codec tag. *)
Definition with_codec_tag : list string :=
  [ Sample.ln "codec_tag_string=avc1"; Sample.ln "codec_tag=0x31637661" ].

(** The lines of a block that names its codec twice and has no long name. *)
Definition named : list string :=
  [ Sample.ln "codec_name=aac"; Sample.ln "TAG:language=";
    Sample.ln "codec_name=mp3" ].

End Case.

(** * Properties *)

Local Arguments Ascii.eqb : simpl never.
Local Arguments Attr.invoke : simpl never.
Local Arguments Shape.unshadowed : simpl never.

(** ** Reference values

    The arithmetic of [Py] and the matchers of [Re] on the values that the
    specification and the comments of the module mention, as the interpreter
    gives them. *)

Example float_of_decimal :
  Py.float "29.97" = Some (S754_finite false 8435805052018360 (-48))
  ∧ Py.float " 2.5e-3 " = Some (S754_finite false 5764607523034235 (-61))
  ∧ Py.float "1_000" = Some (S754_finite false 8796093022208000 (-43))
  ∧ Py.float "-Infinity" = Some (S754_infinity true)
  ∧ Py.float "1e400" = Some (S754_infinity false)
  ∧ Py.float "12.5x" = None
  ∧ Py.float "" = None.
Proof. split_and!; by vm_compute. Qed.

Example int_of_decimal :
  Py.int " 120 " = Some 120 ∧ Py.int "-7" = Some (-7) ∧ Py.int "1_0" = Some 10
  ∧ Py.int "1.0" = None ∧ Py.int "N/A" = None ∧ Py.int "" = None.
Proof. split_and!; by vm_compute. Qed.

(** [round(x, 2)] works on the binary value: 2.675 is stored just below the
    tie and goes down, 0.125 is a true tie and goes to the even digit. *)
Example round_to_two_places :
  Py.round2 (Spec.lit "2.675") = Spec.lit "2.67"
  ∧ Py.round2 (Spec.lit "0.125") = Spec.lit "0.12"
  ∧ Py.round2 (Spec.lit "0.375") = Spec.lit "0.38"
  ∧ Py.round2 (SFdiv Py.prec Py.emax (Spec.lit "30000") (Spec.lit "1001"))
    = Spec.lit "29.97".
Proof. split_and!; by vm_compute. Qed.

Example strip_and_split :
  Py.strip (Sample.ln "  width=640 ") = "width=640"
  ∧ Py.split "=" "width=640" = ["width"; "640"]
  ∧ Py.split "=" "a=b=c" = ["a"; "b"; "c"]
  ∧ Py.split "=" "width=" = ["width"; EmptyString]
  ∧ Py.split "=" EmptyString = [EmptyString].
Proof. split_and!; by vm_compute. Qed.

Example rate_pattern :
  Regex.search Re.rate "30000/1001"
  = Some (Direct.rate_groups ("30000", Some "1001"))
  ∧ Regex.search Re.rate "25" = Some (Direct.rate_groups ("25", None))
  ∧ Regex.search Re.rate "25/" = Some (Direct.rate_groups ("25", None))
  ∧ Regex.search Re.rate "about 2.5 fps" = Some (Direct.rate_groups ("2", None))
  ∧ Regex.search Re.rate "x" = None.
Proof. split_and!; by vm_compute. Qed.

Example timestamp_pattern :
  Regex.search Re.duration "00:03:50.070000000"
  = Some (Direct.duration_groups (None, Some "03", Some "50", "070000000"))
  ∧ Regex.search Re.duration "013000.5 s"
    = Some (Direct.duration_groups (Some "01", Some "30", None, "5"))
  ∧ Regex.search Re.duration "0:03:50.07" = None
  ∧ Regex.search Re.duration "00:03:50" = None
  ∧ Regex.search Re.duration "at 00:03:50.07" = None.
Proof. split_and!; by vm_compute. Qed.

Example marker_patterns :
  FFProbes3.is_start (Sample.ln "[STREAM]") = true
  ∧ FFProbes3.is_end (Sample.ln "[/STREAM]") = true
  ∧ FFProbes3.is_start "[STREAM] and more" = true
  ∧ FFProbes3.is_start " [STREAM]" = false
  ∧ FFProbes3.is_start (Sample.ln "[/STREAM]") = false.
Proof. split_and!; by vm_compute. Qed.

(** ** The result monad *)

Lemma bind_Ok_r {A} (m : result A) : Py.bind m Ok = m.
Proof. by destruct m. Qed.

Lemma bind_assoc {A B C} (m : result A) (f : A → result B) (g : B → result C) :
  Py.bind (Py.bind m f) g = Py.bind m (λ a, Py.bind (f a) g).
Proof. by destruct m. Qed.

Lemma bind_inv {A B} (m : result A) (f : A → result B) b :
  Py.bind m f = Ok b → ∃ a, m = Ok a ∧ f a = Ok b.
Proof. destruct m; [eauto | done]. Qed.

(** ** Calls on the instance *)

Lemma invoke_free {A} name (method : gmap string string → result A) self :
  self !! name = None → Attr.invoke name method self = method self.
Proof. unfold Attr.invoke, Attr.call. by intros ->. Qed.

Lemma invoke_shadowed {A} name (method : gmap string string → result A) self val :
  self !! name = Some val → Attr.invoke name method self = Raise TypeError.
Proof. unfold Attr.invoke, Attr.call. by intros ->. Qed.

Lemma invoke_Ok {A} name (method : gmap string string → result A) self a :
  Attr.invoke name method self = Ok a → self !! name = None ∧ method self = Ok a.
Proof. unfold Attr.invoke, Attr.call. by destruct (self !! name). Qed.

Lemma invoke_no_ValueError {A} name (method : gmap string string → result A) self :
  method self ≠ Raise ValueError → Attr.invoke name method self ≠ Raise ValueError.
Proof. unfold Attr.invoke, Attr.call. by destruct (self !! name). Qed.

Lemma unshadowed_cons name names self :
  Shape.unshadowed (name :: names) self = true ↔
  self !! name = None ∧ Shape.unshadowed names self = true.
Proof.
  unfold Shape.unshadowed. simpl. rewrite andb_true_iff.
  destruct (self !! name); simpl.
  - split; [by intros [? _] | by intros [? _]].
  - split; [by intros [_ ?] | by intros [_ ?]].
Qed.

(** ** Lookups and the three predicates *)
Section Lookup.
Variable self : gmap string string.

Lemma getitem_Some key val :
  self !! key = Some val → FFStream.getitem self key = Ok val.
Proof. unfold FFStream.getitem. by intros ->. Qed.

Lemma getitem_None key :
  self !! key = None → FFStream.getitem self key = Raise (KeyError key).
Proof. unfold FFStream.getitem. by intros ->. Qed.

Lemma getitem_Ok key val :
  FFStream.getitem self key = Ok val → self !! key = Some val.
Proof. unfold FFStream.getitem. destruct (self !! key); by inversion 1. Qed.

(** A predicate compares the field with its word; the truth test before the
    comparison only singles out the empty string, which equals no word. *)
Lemma is_audio_Some c :
  self !! "codec_type" = Some c → FFStream.is_audio self = Ok (String.eqb c "audio").
Proof.
  intros H. unfold FFStream.is_audio. rewrite (getitem_Some _ _ H). simpl.
  by destruct c.
Qed.

Lemma is_video_Some c :
  self !! "codec_type" = Some c → FFStream.is_video self = Ok (String.eqb c "video").
Proof.
  intros H. unfold FFStream.is_video. rewrite (getitem_Some _ _ H). simpl.
  by destruct c.
Qed.

Lemma is_subtitle_Some c :
  self !! "codec_type" = Some c →
  FFStream.is_subtitle self = Ok (String.eqb c "subtitle").
Proof.
  intros H. unfold FFStream.is_subtitle. rewrite (getitem_Some _ _ H). simpl.
  by destruct c.
Qed.

Lemma is_audio_None :
  self !! "codec_type" = None → FFStream.is_audio self = Raise (KeyError "codec_type").
Proof. intros H. unfold FFStream.is_audio. by rewrite (getitem_None _ H). Qed.

Lemma is_video_None :
  self !! "codec_type" = None → FFStream.is_video self = Raise (KeyError "codec_type").
Proof. intros H. unfold FFStream.is_video. by rewrite (getitem_None _ H). Qed.

Lemma is_subtitle_None :
  self !! "codec_type" = None →
  FFStream.is_subtitle self = Raise (KeyError "codec_type").
Proof. intros H. unfold FFStream.is_subtitle. by rewrite (getitem_None _ H). Qed.

(** A predicate that answers at all has found the field. *)
Lemma is_video_Ok b :
  FFStream.is_video self = Ok b →
  ∃ c, self !! "codec_type" = Some c ∧ b = String.eqb c "video".
Proof.
  destruct (self !! "codec_type") as [c|] eqn:H.
  - rewrite (is_video_Some _ H). inversion 1. eauto.
  - by rewrite (is_video_None H).
Qed.

Lemma is_audio_Ok b :
  FFStream.is_audio self = Ok b →
  ∃ c, self !! "codec_type" = Some c ∧ b = String.eqb c "audio".
Proof.
  destruct (self !! "codec_type") as [c|] eqn:H.
  - rewrite (is_audio_Some _ H). inversion 1. eauto.
  - by rewrite (is_audio_None H).
Qed.

(** An audio or video stream passes the guard of [frames] and
    [duration_seconds]. *)
Lemma applicable_audio_video :
  Shape.unshadowed ["is_video"; "is_audio"] self = true →
  FFStream.is_video self = Ok true ∨ FFStream.is_audio self = Ok true →
  FFStream.is_video_or_audio self = Ok true.
Proof.
  intros (Hiv & (Hia & _)%unshadowed_cons)%unshadowed_cons.
  unfold FFStream.is_video_or_audio.
  rewrite (invoke_free _ _ _ Hiv), (invoke_free _ _ _ Hia).
  intros [Hv | Ha].
  - by rewrite Hv.
  - destruct (is_audio_Ok _ Ha) as (c & Hc & _).
    rewrite (is_video_Some _ Hc), Ha. simpl.
    by destruct (String.eqb c "video").
Qed.

End Lookup.

Lemma eqb_false_ne (a b : string) : a ≠ b → String.eqb a b = false.
Proof. intros H. by apply String.eqb_neq. Qed.

(** ** Classification *)

(** C4, as the code has it: when the [codec_type] field is present the three
    predicates compare it with ["audio"], ["video"] and ["subtitle"] and with
    nothing else, exactly one of the classes Audio, Video, Subtitle, Other holds
    and it is the one the specification names; when the field is absent
    every predicate raises [KeyError] instead of answering. *)
Theorem C4_classification (self : gmap string string) :
  match self !! "codec_type" with
  | Some c =>
      FFStream.is_audio self = Ok (String.eqb c "audio")
      ∧ FFStream.is_video self = Ok (String.eqb c "video")
      ∧ FFStream.is_subtitle self = Ok (String.eqb c "subtitle")
      ∧ Spec.classified self (Spec.classify self)
      ∧ (∀ k, Spec.classified self k → k = Spec.classify self)
  | None =>
      FFStream.is_audio self = Raise (KeyError "codec_type")
      ∧ FFStream.is_video self = Raise (KeyError "codec_type")
      ∧ FFStream.is_subtitle self = Raise (KeyError "codec_type")
  end.
Proof.
  destruct (self !! "codec_type") as [c|] eqn:H.
  - pose proof (is_audio_Some self c H) as Ha.
    pose proof (is_video_Some self c H) as Hv.
    pose proof (is_subtitle_Some self c H) as Ht.
    split_and!; [done..| |].
    + unfold Spec.classify, Spec.classified. rewrite H, Ha, Hv, Ht.
      destruct (String.eqb c "audio") eqn:Ea; [done|].
      destruct (String.eqb c "video") eqn:Ev; [done|].
      by destruct (String.eqb c "subtitle") eqn:Et.
    + intros k. unfold Spec.classify, Spec.classified. rewrite H, Ha, Hv, Ht.
      destruct (String.eqb_spec c "audio") as [->|_];
        [|destruct (String.eqb_spec c "video") as [->|_];
          [|destruct (String.eqb_spec c "subtitle") as [->|_]]];
        destruct k; simpl; intros; destruct_and?; congruence.
  - split_and!; [by apply is_audio_None | by apply is_video_None
                 | by apply is_subtitle_None].
Qed.

(** C4 as stated fails on a stream without a [codec_type] field: the
    specification puts it in Other, the code raises and puts it in no class. *)
Lemma C4_absent_codec_type_raises :
  Spec.classify ∅ = Spec.Other
  ∧ FFStream.is_audio ∅ = Raise (KeyError "codec_type")
  ∧ FFStream.is_video ∅ = Raise (KeyError "codec_type")
  ∧ FFStream.is_subtitle ∅ = Raise (KeyError "codec_type")
  ∧ ¬ Spec.classified ∅ Spec.Other.
Proof. split_and!; [done..|]. by intros (? & _). Qed.

(** ** Frame size *)

(** C8, as the code has it.  On a stream that has no field named [is_video],
    so that [self.is_video()] reaches the method: a stream whose [is_video]
    answers [False] has no frame size, whatever its [width] and [height] hold;
    for a video stream the two fields are looked up, [width] first, and a
    missing one raises [KeyError]; when both are there the size is absent if
    either is the empty string, the pair of integers if both parse, and the
    error of the specification otherwise; without a [codec_type] field the
    call raises.  On a stream that has a field named [is_video] the call
    raises [TypeError]. *)
Theorem C8_frame_size (self : gmap string string) :
  (self !! "is_video" = None →
   (FFStream.is_video self = Ok false → FFStream.frame_size self = Ok None)
   ∧ (FFStream.is_video self = Ok true →
      FFStream.frame_size self =
        match self !! "width", self !! "height" with
        | Some w, Some h =>
            if Py.truthy w && Py.truthy h then
              match Py.int w, Py.int h with
              | Some a, Some b => Ok (Some (a, b))
              | _, _ => Raise (Spec.MalformedSize w h)
              end
            else Ok None
        | None, _ => Raise (KeyError "width")
        | Some _, None => Raise (KeyError "height")
        end)
   ∧ (self !! "codec_type" = None →
      FFStream.frame_size self = Raise (KeyError "codec_type")))
  ∧ (∀ val, self !! "is_video" = Some val →
       FFStream.frame_size self = Raise TypeError).
Proof.
  unfold FFStream.frame_size. split.
  - intros Hfree. rewrite (invoke_free _ _ _ Hfree). split_and!.
    + by intros ->.
    + intros ->. simpl. unfold FFStream.getitem.
      destruct (self !! "width") as [w|]; [|done]. simpl.
      destruct (self !! "height") as [h|]; [|done]. simpl.
      destruct (Py.truthy w && Py.truthy h); [|done].
      destruct (Py.int w); [|done]. simpl. by destruct (Py.int h).
    + intros H. by rewrite (is_video_None _ H).
  - intros val H. by rewrite (invoke_shadowed _ _ _ _ H).
Qed.

(** C8 on a video stream with both dimensions. *)
Lemma C8_frame_size_example :
  Sample.sized !! "is_video" = None
  ∧ FFStream.is_video Sample.sized = Ok true
  ∧ FFStream.frame_size Sample.sized = Ok (Some (1920, 1080)).
Proof.
  split_and!; [reflexivity | reflexivity |].
  exact (proj1 (proj2 (proj1 (C8_frame_size Sample.sized) eq_refl)) eq_refl).
Defined.

(** C8 as stated fails on a video stream that lacks one of the two fields: it has
    no "absent" answer, the lookup raises. *)
Lemma C8_missing_height_raises :
  FFStream.is_video Sample.no_height = Ok true
  ∧ FFStream.frame_size Sample.no_height = Raise (KeyError "height")
  ∧ FFStream.frame_size Sample.untyped = Raise (KeyError "codec_type").
Proof. split_and!; reflexivity. Qed.

(** ** Runs of digits *)

Lemma digits_all_digits s : Direct.all_digits (Direct.digits s).1 = true.
Proof.
  induction s as [|c s IH]; simpl; [done|].
  destruct (Py.is_digit c) eqn:Hc; [|done].
  destruct (Direct.digits s) as [ds r]. simpl in *. by rewrite Hc.
Qed.

Lemma rate_here_digits s n g2 :
  Direct.rate_here s = Some (n, g2) →
  (Py.truthy n = true ∧ Direct.all_digits n = true)
  ∧ ∀ d, g2 = Some d → Py.truthy d = true ∧ Direct.all_digits d = true.
Proof.
  unfold Direct.rate_here.
  pose proof (digits_all_digits s) as Hn.
  destruct (Direct.digits s) as [[|c num] r]; [done|]. simpl in Hn.
  assert (∀ g, Some (String c num, g) = Some (n, g2) →
               Py.truthy n = true ∧ Direct.all_digits n = true) as Hfst.
  { intros g. inversion 1; subst. done. }
  destruct r as [|c' r].
  { intros H. split; [by eapply Hfst|]. inversion H; by subst. }
  destruct (Ascii.eqb_spec c' "/") as [->|Hne].
  - pose proof (digits_all_digits r) as Hd.
    destruct (Direct.digits r) as [[|c'' den] r']; simpl in Hd.
    + intros H. split; [by eapply Hfst|]. inversion H; by subst.
    + intros H. split; [by eapply Hfst|]. inversion H; subst.
      intros d. inversion 1; by subst.
  - intros H.
    assert (Some (String c num, @None string) = Some (n, g2)) as H'.
    { destruct c' as [[] [] [] [] [] [] [] []]; try exact H; by destruct Hne. }
    split; [by eapply Hfst|]. inversion H'; by subst.
Qed.

Lemma rate_unfold s :
  Direct.rate s =
    match Direct.rate_here s with
    | Some g => Some g
    | None => match s with String _ s' => Direct.rate s' | EmptyString => None end
    end.
Proof. by destruct s. Qed.

Lemma rate_digits s n g2 :
  Direct.rate s = Some (n, g2) →
  (Py.truthy n = true ∧ Direct.all_digits n = true)
  ∧ ∀ d, g2 = Some d → Py.truthy d = true ∧ Direct.all_digits d = true.
Proof.
  induction s as [|c s IH]; rewrite rate_unfold;
    destruct (Direct.rate_here _) eqn:E; try done;
    intros H; simplify_eq; by apply rate_here_digits in E.
Qed.

(** ** The matcher and the patterns *)

(** *** Greedy runs of digits *)

Lemma run_digits_none {A} pre s (k : string → string → option A) :
  (Direct.digits s).1 = EmptyString → Regex.run_digits pre s k = None.
Proof.
  destruct s as [|c s]; simpl; [done|].
  destruct (Py.is_digit c); [|done]. by destruct (Direct.digits s).
Qed.

Lemma digits_none s r : Direct.digits s = (EmptyString, r) → r = s.
Proof.
  destruct s as [|c s]; simpl; [by inversion 1|].
  destruct (Py.is_digit c); [|by inversion 1]. by destruct (Direct.digits s).
Qed.

Lemma append_nil_r s : s +:+ EmptyString = s.
Proof.
  induction s as [|a s IH]; [done|].
  change (String a (s +:+ EmptyString) = String a s). by rewrite IH.
Qed.

Lemma append_assoc s1 s2 s3 : (s1 +:+ s2) +:+ s3 = s1 +:+ (s2 +:+ s3).
Proof.
  induction s1 as [|a s1 IH]; [done|].
  change (String a ((s1 +:+ s2) +:+ s3) = String a (s1 +:+ (s2 +:+ s3))).
  by rewrite IH.
Qed.

(** When the continuation accepts the longest run, that is the answer. *)
Lemma run_digits_longest {A} s : ∀ pre (k : string → string → option A),
  Py.truthy (Direct.digits s).1 = true →
  is_Some (k (pre +:+ (Direct.digits s).1) (Direct.digits s).2) →
  Regex.run_digits pre s k = k (pre +:+ (Direct.digits s).1) (Direct.digits s).2.
Proof.
  induction s as [|c s IH]; intros pre k; simpl; [done|].
  destruct (Py.is_digit c) eqn:Hc; [|done].
  destruct (Direct.digits s) as [ds r] eqn:E. simpl. intros _ Hk.
  change (String c ds) with (String c EmptyString +:+ ds) in Hk |- *.
  rewrite <- append_assoc in Hk |- *.
  destruct ds as [|d ds].
  - rewrite run_digits_none by (by rewrite E).
    rewrite append_nil_r in Hk |- *. by rewrite (digits_none _ _ E).
  - specialize (IH (pre +:+ String c EmptyString) k). simpl in IH.
    rewrite IH by done. by destruct Hk as [a ->].
Qed.

(** *** The matcher and its continuation *)

Lemma run_digits_ext {A} s : ∀ pre (k k' : string → string → option A),
  (∀ t s', k t s' = k' t s') → Regex.run_digits pre s k = Regex.run_digits pre s k'.
Proof.
  induction s as [|c s IH]; intros pre k k' H; simpl; [done|].
  destruct (Py.is_digit c); [|done]. by rewrite (IH _ k k' H), H.
Qed.

Lemma run_ext {A} r : ∀ bol s groups (k k' : string → string → gmap nat string → option A),
  (∀ t s' h, k t s' h = k' t s' h) →
  Regex.run r bol s groups k = Regex.run r bol s groups k'.
Proof.
  induction r as [|c| | |r1 IH1 r2 IH2|r1 IH1 r2 IH2|r1 IH1|i r1 IH1];
    intros bol s groups k k' H; simpl.
  - by rewrite H.
  - destruct s as [|c' s]; [done|]. by rewrite H.
  - destruct s as [|c' s]; [done|]. by rewrite H.
  - apply run_digits_ext. intros. apply H.
  - apply IH1. intros. apply IH2. intros. apply H.
  - by rewrite (IH1 _ _ _ k k' H), (IH2 _ _ _ k k' H).
  - by rewrite (IH1 _ _ _ k k' H), H.
  - apply IH1. intros. apply H.
Qed.

(** A literal character, then [d]. *)
Lemma run_chr {A} c bol s groups (d : string → gmap nat string → option A) :
  Regex.run (Regex.Chr c) bol s groups (λ _ s' h, d s' h) =
    match s with
    | String c' s' => if Ascii.eqb c' c then d s' groups else None
    | EmptyString => None
    end.
Proof. done. Qed.

(** A group of digits, then a [d] that accepts whatever follows. *)
Lemma run_group_digits {A} i bol s groups (d : string → gmap nat string → option A) :
  (∀ s' h, is_Some (d s' h)) →
  Regex.run (Regex.Group i Regex.Digits) bol s groups (λ _ s' h, d s' h) =
    match Direct.digits s with
    | (EmptyString, _) => None
    | (ds, r) => d r (<[i := ds]> groups)
    end.
Proof.
  intros Hd. simpl.
  destruct (Direct.digits s) as [[|c ds] r] eqn:E.
  - apply run_digits_none. by rewrite E.
  - rewrite run_digits_longest; rewrite E; simpl; [done..|]. apply Hd.
Qed.

(** [(?:00|(\d\d))], then a [d] whose failure does not depend on the groups:
    when [00] is not followed by a match, reading it as two digits does not
    help. *)
Lemma run_pair {A} i bol s groups (d : string → gmap nat string → option A) :
  (∀ s' h h', d s' h = None → d s' h' = None) →
  Regex.run (Re.pair i) bol s groups (λ _ s' h, d s' h) =
    match Direct.two_digits s with
    | Some (g, r) => d r (Direct.set_group i g groups)
    | None => None
    end.
Proof.
  intros Hd. unfold Re.pair, Direct.two_digits. simpl.
  destruct s as [|a [|b r]]; simpl.
  - done.
  - destruct (Ascii.eqb a "0"); simpl; by destruct (Py.is_digit a).
  - destruct (Ascii.eqb_spec a "0") as [->|Ha]; simpl.
    + destruct (Ascii.eqb_spec b "0") as [->|Hb]; simpl.
      * destruct (d r groups) eqn:E; [done|].
        by rewrite (Hd _ _ _ E).
      * by destruct (Py.is_digit b).
    + by destruct (Py.is_digit a), (Py.is_digit b).
Qed.

(** [:?], then a [d] that rejects a colon. *)
Lemma run_colon {A} bol s groups (d : string → gmap nat string → option A) :
  (∀ r h, d (String ":" r) h = None) →
  Regex.run (Regex.Opt (Regex.Chr ":")) bol s groups (λ _ s' h, d s' h)
  = d (Direct.colon s) groups.
Proof.
  intros Hd. simpl. destruct s as [|c r]; [done|].
  destruct (Ascii.eqb_spec c ":") as [->|Hne]; simpl.
  - destruct (d r groups); [done|]. apply Hd.
  - by destruct c as [[] [] [] [] [] [] [] []].
Qed.

(** *** The rate pattern *)

Lemma run_rate bol s :
  Regex.run Re.rate bol s ∅ Regex.accept = Direct.rate_groups <$> Direct.rate_here s.
Proof.
  unfold Re.rate.
  change (Regex.run (Regex.Seq ?r1 ?r2) bol s ∅ Regex.accept)
    with (Regex.run r1 bol s ∅ (λ t1 s1 g1,
            Regex.run r2 (bol && negb (Py.truthy t1)) s1 g1 Regex.accept)).
  erewrite run_ext; last first.
  { intros t s' h.
    change (Regex.run (Regex.Opt ?r) ?b s' h Regex.accept)
      with (match Regex.run r b s' h Regex.accept with
            | Some a => Some a
            | None => Some h
            end).
    change (Regex.run (Regex.Seq ?r1 ?r2) ?b s' h Regex.accept)
      with (Regex.run r1 b s' h (λ t1 s1 g1,
              Regex.run r2 (b && negb (Py.truthy t1)) s1 g1 Regex.accept)).
    erewrite run_ext; last first.
    { intros t1 s1 g1. apply (run_group_digits 2 _ s1 g1 (λ _ h', Some h')).
      intros; by eexists. }
    rewrite (run_chr "/" _ s' h
               (λ s1 g1, match Direct.digits s1 with
                         | (EmptyString, _) => None
                         | (ds, r) => Some (<[2%nat := ds]> g1)
                         end)).
    reflexivity. }
  rewrite (run_group_digits 1 bol s ∅
             (λ s' h,
                match
                  match s' with
                  | String c' s1 =>
                      if Ascii.eqb c' "/" then
                        match Direct.digits s1 with
                        | (EmptyString, _) => None
                        | (ds, _) => Some (<[2%nat := ds]> h)
                        end
                      else None
                  | EmptyString => None
                  end
                with
                | Some a => Some a
                | None => Some h
                end)).
  2:{ intros s' h. destruct s' as [|c' s1]; [by eexists|].
      destruct (Ascii.eqb c' "/"); [|by eexists].
      destruct (Direct.digits s1) as [[|] ?]; by eexists. }
  unfold Direct.rate_here.
  destruct (Direct.digits s) as [[|c num] r]; [done|].
  destruct r as [|c' r]; [done|].
  destruct (Ascii.eqb_spec c' "/") as [->|Hne].
  - by destruct (Direct.digits r) as [[|] ?].
  - by destruct c' as [[] [] [] [] [] [] [] []].
Qed.

Lemma search_from_unfold r s :
  Regex.search_from r s =
    match Regex.run r false s ∅ Regex.accept with
    | Some groups => Some groups
    | None =>
        match s with
        | String _ s' => Regex.search_from r s'
        | EmptyString => None
        end
    end.
Proof. by destruct s. Qed.

Lemma search_from_rate s :
  Regex.search_from Re.rate s = Direct.rate_groups <$> Direct.rate s.
Proof.
  induction s as [|c s IH]; rewrite search_from_unfold, run_rate, rate_unfold;
    destruct (Direct.rate_here _); done.
Qed.

Lemma search_rate s : Regex.search Re.rate s = Direct.rate_groups <$> Direct.rate s.
Proof.
  unfold Regex.search, Regex.match_.
  change (Regex.run Re.rate true s ∅ _) with (Regex.run Re.rate true s ∅ Regex.accept).
  rewrite run_rate, rate_unfold.
  destruct (Direct.rate_here s); [done|].
  destruct s as [|c s]; [done|]. apply search_from_rate.
Qed.

(** *** The timestamp pattern *)

Ltac seq_step :=
  match goal with
  | |- Regex.run (Regex.Seq ?r1 ?r2) ?bol ?s ?g Regex.accept = _ =>
      change (Regex.run (Regex.Seq r1 r2) bol s g Regex.accept)
        with (Regex.run r1 bol s g
                (λ t1 s1 g1, Regex.run r2 (bol && negb (Py.truthy t1)) s1 g1 Regex.accept))
  end.

Lemma fraction_groups s h h' : Direct.fraction s h = None → Direct.fraction s h' = None.
Proof.
  unfold Direct.fraction. destruct s as [|c r]; [done|].
  destruct c as [[] [] [] [] [] [] [] []]; try done.
  by destruct (Direct.digits r) as [[|] ?].
Qed.

Lemma after_pair_groups i d s h h' :
  (∀ s' g g', d s' g = None → d s' g' = None) →
  Direct.after_pair i d s h = None → Direct.after_pair i d s h' = None.
Proof.
  intros Hd. unfold Direct.after_pair. destruct (Direct.two_digits s) as [[g r]|]; [|done].
  apply Hd.
Qed.

Lemma after_pair_colon i d r h : Direct.after_pair i d (String ":" r) h = None.
Proof. unfold Direct.after_pair, Direct.two_digits. by destruct r. Qed.

Lemma run_fraction bol s groups :
  Regex.run (Regex.Seq (Regex.Chr ".") (Regex.Group 4 Regex.Digits)) bol s groups
    Regex.accept
  = Direct.fraction s groups.
Proof.
  seq_step.
  erewrite run_ext; last first.
  { intros t s1 g1. apply (run_group_digits 4 _ s1 g1 (λ _ h, Some h)).
    intros; by eexists. }
  rewrite (run_chr "." bol s groups
             (λ s1 g1, match Direct.digits s1 with
                       | (EmptyString, _) => None
                       | (ds, _) => Some (<[4%nat := ds]> g1)
                       end)).
  unfold Direct.fraction. destruct s as [|c r]; [done|].
  destruct (Ascii.eqb_spec c ".") as [->|Hne]; [done|].
  by destruct c as [[] [] [] [] [] [] [] []].
Qed.

Section Timestamp.
Variable rest : Regex.t.
Variable d : string → gmap nat string → option (gmap nat string).
Hypothesis run_rest : ∀ bol s groups, Regex.run rest bol s groups Regex.accept = d s groups.

Lemma run_pair_then i bol s groups :
  (∀ s' g g', d s' g = None → d s' g' = None) →
  Regex.run (Regex.Seq (Re.pair i) rest) bol s groups Regex.accept
  = Direct.after_pair i d s groups.
Proof.
  intros Hd. seq_step.
  erewrite run_ext; last by (intros; apply run_rest).
  by apply (run_pair i bol s groups d).
Qed.

Lemma run_colon_then bol s groups :
  (∀ r h, d (String ":" r) h = None) →
  Regex.run (Regex.Seq (Regex.Opt (Regex.Chr ":")) rest) bol s groups Regex.accept
  = Direct.after_colon d s groups.
Proof.
  intros Hd. seq_step.
  erewrite run_ext; last by (intros; apply run_rest).
  by apply (run_colon bol s groups d).
Qed.

End Timestamp.

(** The timestamp pattern without its anchor. *)
Lemma run_timestamp bol s groups :
  Regex.run
    (Regex.Seq (Re.pair 1)
       (Regex.Seq (Regex.Opt (Regex.Chr ":"))
          (Regex.Seq (Re.pair 2)
             (Regex.Seq (Regex.Opt (Regex.Chr ":"))
                (Regex.Seq (Re.pair 3)
                   (Regex.Seq (Regex.Chr ".") (Regex.Group 4 Regex.Digits)))))))
    bol s groups Regex.accept
  = Direct.after_pair 1 (Direct.after_colon (Direct.after_pair 2 (Direct.after_colon (Direct.after_pair 3 Direct.fraction))))
      s groups.
Proof.
  revert bol s groups.
  pose proof run_fraction as H7.
  pose proof (λ bol s g, run_pair_then _ _ H7 3 bol s g fraction_groups) as H6.
  pose proof (λ bol s g,
                run_colon_then _ _ H6 bol s g (after_pair_colon 3 Direct.fraction)) as H5.
  assert (∀ s' g g',
            Direct.after_colon (Direct.after_pair 3 Direct.fraction) s' g = None →
            Direct.after_colon (Direct.after_pair 3 Direct.fraction) s' g' = None) as G5.
  { intros s' g g'. apply after_pair_groups, fraction_groups. }
  pose proof (λ bol s g, run_pair_then _ _ H5 2 bol s g G5) as H4.
  pose proof (λ bol s g,
                run_colon_then _ _ H4 bol s g (after_pair_colon 2 _)) as H3.
  assert (∀ s' g g',
            Direct.after_colon (Direct.after_pair 2 (Direct.after_colon (Direct.after_pair 3 Direct.fraction))) s' g
            = None →
            Direct.after_colon (Direct.after_pair 2 (Direct.after_colon (Direct.after_pair 3 Direct.fraction))) s' g'
            = None) as G3.
  { intros s' g g'. by apply after_pair_groups. }
  exact (λ bol s g, run_pair_then _ _ H3 1 bol s g G3).
Qed.

Lemma timestamp_direct s :
  Direct.after_pair 1 (Direct.after_colon (Direct.after_pair 2 (Direct.after_colon (Direct.after_pair 3 Direct.fraction))))
    s ∅
  = Direct.duration_groups <$> Direct.duration s.
Proof.
  unfold Direct.after_pair, Direct.after_colon, Direct.duration.
  destruct (Direct.two_digits s) as [[g1 r1]|]; [|done].
  destruct (Direct.two_digits (Direct.colon r1)) as [[g2 r2]|]; [|done].
  destruct (Direct.two_digits (Direct.colon r2)) as [[g3 r3]|]; [|done].
  unfold Direct.fraction. destruct r3 as [|c r3]; [done|].
  destruct (Ascii.eqb_spec c ".") as [->|Hne].
  - by destruct (Direct.digits r3) as [[|] ?].
  - by destruct c as [[] [] [] [] [] [] [] []].
Qed.

Lemma search_from_anchored r s :
  Regex.search_from (Regex.Seq Regex.Bol r) s = None.
Proof. induction s as [|c s IH]; rewrite search_from_unfold; [done | apply IH]. Qed.

Lemma search_duration s :
  Regex.search Re.duration s = Direct.duration_groups <$> Direct.duration s.
Proof.
  unfold Regex.search, Regex.match_, Re.duration.
  change (Regex.run (Regex.Seq Regex.Bol ?r) true s ∅ ?k)
    with (Regex.run r true s ∅ Regex.accept).
  rewrite run_timestamp, timestamp_direct.
  destruct (Direct.duration s); [done|].
  destruct s; [done|]. apply search_from_anchored.
Qed.

(** *** The markers *)

Lemma run_literal p : ∀ c bol s groups,
  Regex.run (Regex.literal c p) bol s groups Regex.accept
  = if Py.startswith (String c p) s then Some groups else None.
Proof.
  induction p as [|c2 p IH]; intros c bol s groups.
  - destruct s as [|c' s]; [done|]. simpl.
    rewrite (Ascii.eqb_sym c c'). by destruct (Ascii.eqb c' c).
  - change (Regex.literal c (String c2 p))
      with (Regex.Seq (Regex.Chr c) (Regex.literal c2 p)).
    seq_step.
    erewrite run_ext; last by (intros; apply IH).
    rewrite (run_chr c bol s groups
               (λ s1 g1, if Py.startswith (String c2 p) s1 then Some g1 else None)).
    destruct s as [|c' s]; [done|].
    change (Py.startswith (String c (String c2 p)) (String c' s))
      with (Ascii.eqb c c' && Py.startswith (String c2 p) s).
    rewrite (Ascii.eqb_sym c c'). by destruct (Ascii.eqb c' c).
Qed.

Lemma match_literal c p a :
  Regex.match_ (Regex.literal c p) a
  = if Py.startswith (String c p) a then Some ∅ else None.
Proof. apply run_literal. Qed.

Lemma is_start_startswith a : FFProbes3.is_start a = Py.startswith "[STREAM]" a.
Proof.
  unfold FFProbes3.is_start, Re.stream_start. rewrite match_literal.
  by destruct (Py.startswith _ a).
Qed.

Lemma is_end_startswith a : FFProbes3.is_end a = Py.startswith "[/STREAM]" a.
Proof.
  unfold FFProbes3.is_end, Re.stream_end. rewrite match_literal.
  by destruct (Py.startswith _ a).
Qed.

(** *** The groups of a match *)

Lemma rate_groups_lookup num g2 :
  Direct.rate_groups (num, g2) !! 1%nat = Some num
  ∧ Direct.rate_groups (num, g2) !! 2%nat = g2.
Proof. by destruct g2. Qed.

Lemma duration_groups_lookup g1 g2 g3 g4 :
  Direct.duration_groups (g1, g2, g3, g4) !! 1%nat = g1
  ∧ Direct.duration_groups (g1, g2, g3, g4) !! 2%nat = g2
  ∧ Direct.duration_groups (g1, g2, g3, g4) !! 3%nat = g3
  ∧ Direct.duration_groups (g1, g2, g3, g4) !! 4%nat = Some g4.
Proof. by destruct g1, g2, g3. Qed.

(** ** [float()] on a run of digits *)

Lemma digit_not_space c : Py.is_digit c = true → Py.isspace_num c = false.
Proof. destruct c as [[] [] [] [] [] [] [] []]; by vm_compute. Qed.

Lemma digit_sign c s :
  Py.is_digit c = true → Py.sign (String c s) = (false, String c s).
Proof. destruct c as [[] [] [] [] [] [] [] []]; by vm_compute. Qed.

Lemma digit_not_name c s :
  Py.is_digit c = true →
  String.eqb (Py.lowercase (String c s)) "inf"
  || String.eqb (Py.lowercase (String c s)) "infinity" = false
  ∧ String.eqb (Py.lowercase (String c s)) "nan" = false.
Proof. destruct c as [[] [] [] [] [] [] [] []]; by vm_compute. Qed.

Lemma rstrip_digits s :
  Direct.all_digits s = true → Py.rstrip_by Py.isspace_num s = s.
Proof.
  induction s as [|c s IH]; simpl; [done|].
  intros [Hc Hs]%andb_true_iff. rewrite (IH Hs), (digit_not_space _ Hc).
  by destruct s.
Qed.

Lemma strip_num_digits s : Direct.all_digits s = true → Py.strip_num s = s.
Proof.
  intros H. unfold Py.strip_num. destruct s as [|c s]; [done|].
  simpl in H. apply andb_true_iff in H as [Hc Hs]. simpl.
  rewrite (digit_not_space _ Hc). apply rstrip_digits. simpl. by rewrite Hc.
Qed.

Lemma digitpart_tail_digits s :
  Direct.all_digits s = true →
  Py.digitpart_tail s = (list_ascii_of_string s, EmptyString).
Proof.
  induction s as [|c s IH]; simpl; [done|].
  intros [Hc Hs]%andb_true_iff. by rewrite Hc, (IH Hs).
Qed.

Lemma digitpart_digits c s :
  Direct.all_digits (String c s) = true →
  Py.digitpart (String c s) = (c :: list_ascii_of_string s, EmptyString).
Proof.
  simpl. intros [Hc Hs]%andb_true_iff.
  by rewrite Hc, (digitpart_tail_digits _ Hs).
Qed.

(** A non-empty run of digits is a float literal: [float] never fails on a
    group of the rate pattern. *)
Lemma float_digits n :
  Py.truthy n = true → Direct.all_digits n = true →
  Py.float n
  = Some (Py.of_decimal false (Py.digits_value (list_ascii_of_string n)) 0).
Proof.
  destruct n as [|c n]; [done|]. intros _ H.
  pose proof H as [Hc Hn]%andb_true_iff.
  unfold Py.float. rewrite (strip_num_digits _ H), (digit_sign _ _ Hc).
  destruct (digit_not_name c n Hc) as [-> ->].
  rewrite (digitpart_digits _ _ H), app_nil_r. reflexivity.
Qed.

Lemma int_digits n :
  Py.truthy n = true → Direct.all_digits n = true →
  Py.int n = Some (Py.digits_value (list_ascii_of_string n)).
Proof.
  destruct n as [|c n]; [done|]. intros _ H.
  pose proof H as [Hc Hn]%andb_true_iff.
  unfold Py.int. rewrite (strip_num_digits _ H), (digit_sign _ _ Hc).
  by rewrite (digitpart_digits _ _ H).
Qed.

(** ** Integers as floats *)

Lemma digits2_pos_iter p k :
  digits2_pos (Pos.iter xO p k) = (digits2_pos p + k)%positive.
Proof.
  induction k as [|k IH] using Pos.peano_ind.
  - simpl. lia.
  - rewrite Pos.iter_succ. simpl. rewrite IH. lia.
Qed.

(** A mantissa of 53 bits is left as it is. *)
Lemma shr_fexp_exact m e :
  Z.pos (digits2_pos m) = 53 → -1074 ≤ e →
  shr_fexp Py.prec Py.emax (Z.pos m) e loc_Exact
  = ({| shr_m := Z.pos m; shr_r := false; shr_s := false |}, e).
Proof.
  intros Hm He. unfold shr_fexp. simpl Zdigits2. rewrite Hm.
  assert (fexp Py.prec Py.emax (53 + e) - e = 0) as ->.
  { unfold fexp, emin, Py.prec, Py.emax. lia. }
  reflexivity.
Qed.

Lemma binary_round_aux_exact m e :
  Z.pos (digits2_pos m) = 53 → -1074 ≤ e ≤ 971 →
  binary_round_aux Py.prec Py.emax false (Z.pos m) e loc_Exact
  = S754_finite false m e.
Proof.
  intros Hm He. unfold binary_round_aux.
  rewrite (shr_fexp_exact m e Hm) by lia. simpl.
  rewrite (shr_fexp_exact m e Hm) by lia. simpl.
  destruct (e <=? Py.emax - Py.prec) eqn:E; [done|].
  unfold Py.emax, Py.prec in E. lia.
Qed.

(** An integer of at most 53 bits converts to a float without rounding: its
    bits are shifted to the top of the mantissa. *)
Lemma of_Z_small p :
  Z.pos (digits2_pos p) ≤ 53 →
  ∃ m e, Py.of_Z (Z.pos p) = S754_finite false m e.
Proof.
  intros Hd. unfold Py.of_Z, binary_normalize, binary_round.
  assert (fexp Py.prec Py.emax (Z.pos (digits2_pos p) + 0)
          = Z.pos (digits2_pos p) - 53) as ->.
  { unfold fexp, emin, Py.prec, Py.emax. lia. }
  unfold shl_align.
  destruct (Z.pos (digits2_pos p) - 53 - 0) as [|k|k] eqn:Ek; [|lia|].
  - eexists _, _. apply binary_round_aux_exact; lia.
  - eexists _, _. apply binary_round_aux_exact; [|lia].
    rewrite digits2_pos_iter. lia.
Qed.

Lemma digits2_pos_bound p n :
  Z.pos p < 2 ^ n → 0 ≤ n → Z.pos (digits2_pos p) ≤ n.
Proof.
  revert n. induction p as [p IH|p IH|]; intros n Hp Hn; simpl.
  - assert (0 < n) by (destruct (decide (n = 0)) as [->|]; [simpl in Hp; lia|lia]).
    replace n with (Z.succ (n - 1)) in Hp by lia. rewrite Z.pow_succ_r in Hp by lia.
    specialize (IH (n - 1)). lia.
  - assert (0 < n) by (destruct (decide (n = 0)) as [->|]; [simpl in Hp; lia|lia]).
    replace n with (Z.succ (n - 1)) in Hp by lia. rewrite Z.pow_succ_r in Hp by lia.
    specialize (IH (n - 1)). lia.
  - destruct (decide (n = 0)) as [->|]; [simpl in Hp; lia|lia].
Qed.

Lemma int_to_float_small z :
  0 ≤ z < 2 ^ 53 → Py.int_to_float z = Ok (Py.of_Z z).
Proof.
  intros Hz. unfold Py.int_to_float. destruct z as [|p|p]; [done| |lia].
  destruct (of_Z_small p) as (m & e & ->); [|done].
  apply digits2_pos_bound; lia.
Qed.

(** ** The rate accessors *)

Lemma get_r_frame_rate_Some self raw :
  self !! "r_frame_rate" = Some raw →
  FFStream.get_r_frame_rate self =
    if Py.truthy raw then
      Py.except_ValueError (FFStream.rate_of raw) (Raise Spec.InvalidFrameRate)
    else Ok Py.fzero.
Proof.
  intros H. unfold FFStream.get_r_frame_rate.
  rewrite (getitem_Some _ _ _ H). simpl. by destruct (Py.truthy raw).
Qed.

Lemma get_avg_frame_rate_Some self raw :
  self !! "avg_frame_rate" = Some raw →
  FFStream.get_avg_frame_rate self =
    if Py.truthy raw then
      Py.except_ValueError (FFStream.rate_of raw) (Raise Spec.InvalidFrameRate)
    else Raise Spec.InvalidFrameRate.
Proof.
  intros H. unfold FFStream.get_avg_frame_rate.
  rewrite (getitem_Some _ _ _ H). simpl. by destruct (Py.truthy raw).
Qed.

Lemma rate_of_answer raw :
  Rate.answer raw
    (Py.except_ValueError (FFStream.rate_of raw) (Raise Spec.InvalidFrameRate)).
Proof.
  unfold Rate.answer, FFStream.rate_of. rewrite search_rate.
  destruct (Direct.rate raw) as [[num g2]|] eqn:E; simpl.
  - destruct (rate_digits _ _ _ E) as [[Tn Dn] Hden].
    destruct (rate_groups_lookup num g2) as [-> ->].
    rewrite Tn, (float_digits _ Tn Dn). simpl.
    eexists num, _. split_and!; [done | by apply float_digits |].
    destruct g2 as [den|]; [|done].
    destruct (Hden den eq_refl) as [Td Dd].
    rewrite Td, (float_digits _ Td Dd). simpl.
    eexists. split; [done|].
    unfold Py.truediv. by destruct (Py.is_zero _).
  - by destruct (Py.float raw).
Qed.

Lemma rate_of_samples raw :
  Rate.samples raw
    (Py.except_ValueError (FFStream.rate_of raw) (Raise Spec.InvalidFrameRate)).
Proof. unfold Rate.samples. split_and!; intros ->; by vm_compute. Qed.

Lemma truthy_nonempty s : s ≠ EmptyString → Py.truthy s = true.
Proof. by destruct s. Qed.

(** C1, as the code has it.  On a non-empty raw value both accessors answer as
    [Rate.answer] says: the groups of the pattern always convert, a quotient is
    rounded to two decimals, a zero denominator raises [ZeroDivisionError], and
    a value without any digit is handed to [float], whose failure becomes the
    frame-rate error.  So ["30000/1001"] gives 29.97, ["25/1"] and ["25"] give
    25.0 and ["x"] gives the frame-rate error.  [get_avg_frame_rate] gives that
    error on the empty string as well.  An absent field raises [KeyError]. *)
Theorem C1_rate_parser (self : gmap string string) :
  (∀ raw, self !! "r_frame_rate" = Some raw → raw ≠ "" →
     Rate.answer raw (FFStream.get_r_frame_rate self)
     ∧ Rate.samples raw (FFStream.get_r_frame_rate self))
  ∧ (∀ raw, self !! "avg_frame_rate" = Some raw → raw ≠ "" →
       Rate.answer raw (FFStream.get_avg_frame_rate self)
       ∧ Rate.samples raw (FFStream.get_avg_frame_rate self))
  ∧ (self !! "avg_frame_rate" = Some "" →
     FFStream.get_avg_frame_rate self = Raise Spec.InvalidFrameRate)
  ∧ (self !! "r_frame_rate" = None →
     FFStream.get_r_frame_rate self = Raise (KeyError "r_frame_rate"))
  ∧ (self !! "avg_frame_rate" = None →
     FFStream.get_avg_frame_rate self = Raise (KeyError "avg_frame_rate")).
Proof.
  split_and!.
  - intros raw H Hne.
    rewrite (get_r_frame_rate_Some _ _ H), (truthy_nonempty _ Hne).
    split; [apply rate_of_answer | apply rate_of_samples].
  - intros raw H Hne.
    rewrite (get_avg_frame_rate_Some _ _ H), (truthy_nonempty _ Hne).
    split; [apply rate_of_answer | apply rate_of_samples].
  - intros H. by rewrite (get_avg_frame_rate_Some _ _ H).
  - intros H. unfold FFStream.get_r_frame_rate. by rewrite (getitem_None _ _ H).
  - intros H. unfold FFStream.get_avg_frame_rate. by rewrite (getitem_None _ _ H).
Qed.

(** C1 on a stream that reports the NTSC rate in both fields. *)
Lemma C1_rate_parser_example :
  Sample.ntsc !! "r_frame_rate" = Some "30000/1001"
  ∧ FFStream.get_r_frame_rate Sample.ntsc = Ok (Spec.lit "29.97")
  ∧ Sample.ntsc !! "avg_frame_rate" = Some "30000/1001"
  ∧ FFStream.get_avg_frame_rate Sample.ntsc = Ok (Spec.lit "29.97").
Proof.
  split_and!; [reflexivity | | reflexivity |].
  - exact (proj1 (proj2 (proj1 (C1_rate_parser Sample.ntsc) "30000/1001" eq_refl
                           ltac:(discriminate))) eq_refl).
  - exact (proj1 (proj2 (proj1 (proj2 (C1_rate_parser Sample.ntsc)) "30000/1001"
                           eq_refl ltac:(discriminate))) eq_refl).
Defined.

(** C1 as stated fails on an absent field ([KeyError], not the frame-rate
    error), on a zero denominator ([ZeroDivisionError], not the frame-rate
    error), on the word [inf] (infinity is returned) and, for
    [get_r_frame_rate], on the empty string (0.0 is returned). *)
Lemma C1_other_errors_and_infinity :
  FFStream.get_r_frame_rate ∅ = Raise (KeyError "r_frame_rate")
  ∧ FFStream.get_avg_frame_rate ∅ = Raise (KeyError "avg_frame_rate")
  ∧ FFStream.get_r_frame_rate Sample.zero_denominator = Raise ZeroDivisionError
  ∧ FFStream.get_avg_frame_rate Sample.zero_denominator = Raise ZeroDivisionError
  ∧ FFStream.get_r_frame_rate Sample.infinite = Ok Py.finf
  ∧ FFStream.get_avg_frame_rate Sample.infinite = Ok Py.finf
  ∧ FFStream.get_r_frame_rate Sample.empty_rate = Ok Py.fzero.
Proof. split_and!; reflexivity. Qed.

(** ** Frame count *)

(** The frame count of a stream that passes the guard, with [nb_frames]
    present. *)
Lemma frames_guarded self nb :
  FFStream.is_video_or_audio self = Ok true →
  self !! "nb_frames" = Some nb →
  FFStream.frames self =
    Py.except_ValueError
      (if negb (String.eqb nb "N/A") then
         n <- Py.or_ValueError (Py.int nb) ;; Ok (FFStream.Int n)
       else
         tag <- FFStream.getitem self "TAG:DURATION" ;;
         if Py.truthy tag then
           match Regex.search Re.duration tag with
           | Some m =>
               c1 <- FFStream.add_group 0 (m !! 1%nat) (60 * 60) ;;
               c2 <- FFStream.add_group c1 (m !! 2%nat) 60 ;;
               c3 <- FFStream.add_group c2 (m !! 3%nat) 1 ;;
               fps <- Attr.invoke "get_r_frame_rate" FFStream.get_r_frame_rate self ;;
               x <- Py.int_to_float c3 ;;
               Ok (FFStream.Float (Py.mul x fps))
           | None => Ok (FFStream.Int 0)
           end
         else Raise ValueError)
      (Raise Spec.MalformedFrameCount).
Proof.
  intros Hg H. unfold FFStream.frames. rewrite Hg. simpl.
  rewrite (getitem_Some _ _ _ H). simpl.
  destruct (negb (String.eqb nb "N/A")); [done|].
  unfold FFStream.getitem. by destruct (self !! "TAG:DURATION").
Qed.

Section Frames.
Variable self : gmap string string.
Hypothesis callable : Shape.unshadowed ["is_video"; "is_audio"] self = true.
Hypothesis audio_or_video :
  FFStream.is_video self = Ok true ∨ FFStream.is_audio self = Ok true.

(** The frame count of an audio or video stream with [nb_frames] present,
    when the two predicates can be called. *)
Lemma frames_unfold nb :
  self !! "nb_frames" = Some nb →
  FFStream.frames self =
    Py.except_ValueError
      (if negb (String.eqb nb "N/A") then
         n <- Py.or_ValueError (Py.int nb) ;; Ok (FFStream.Int n)
       else
         tag <- FFStream.getitem self "TAG:DURATION" ;;
         if Py.truthy tag then
           match Regex.search Re.duration tag with
           | Some m =>
               c1 <- FFStream.add_group 0 (m !! 1%nat) (60 * 60) ;;
               c2 <- FFStream.add_group c1 (m !! 2%nat) 60 ;;
               c3 <- FFStream.add_group c2 (m !! 3%nat) 1 ;;
               fps <- Attr.invoke "get_r_frame_rate" FFStream.get_r_frame_rate self ;;
               x <- Py.int_to_float c3 ;;
               Ok (FFStream.Float (Py.mul x fps))
           | None => Ok (FFStream.Int 0)
           end
         else Raise ValueError)
      (Raise Spec.MalformedFrameCount).
Proof.
  intros H. apply frames_guarded; [|done].
  by apply applicable_audio_video.
Qed.

End Frames.







(** ** The timestamp pattern *)

Lemma two_digits_group s g r :
  Direct.two_digits s = Some (Some g, r) →
  Py.truthy g = true ∧ Direct.all_digits g = true.
Proof.
  unfold Direct.two_digits. destruct s as [|a [|b s]]; [done..|].
  destruct (Ascii.eqb a "0" && Ascii.eqb b "0"); [done|].
  destruct (Py.is_digit a) eqn:Ha; [|done].
  destruct (Py.is_digit b) eqn:Hb; [|done].
  simpl. inversion 1; subst. simpl. by rewrite Ha, Hb.
Qed.

Lemma duration_digit_groups tag g1 g2 g3 g4 :
  Direct.duration tag = Some (g1, g2, g3, g4) →
  Tag.digit_group g1 ∧ Tag.digit_group g2 ∧ Tag.digit_group g3.
Proof.
  unfold Direct.duration, Tag.digit_group.
  destruct (Direct.two_digits tag) as [[h1 r1]|] eqn:E1; [|done].
  destruct (Direct.two_digits (Direct.colon r1)) as [[h2 r2]|] eqn:E2; [|done].
  destruct (Direct.two_digits (Direct.colon r2)) as [[h3 r3]|] eqn:E3; [|done].
  destruct r3 as [|c r3]; [done|].
  destruct (Ascii.eqb_spec c ".") as [->|Hne].
  - destruct (Direct.digits r3) as [[|c4 f] r4]; [done|].
    inversion 1; subst.
    split_and!; intros ds ->; by eapply two_digits_group.
  - intros H. exfalso.
    destruct c as [[] [] [] [] [] [] [] []]; try discriminate H.
    by destruct Hne.
Qed.

Lemma add_group_digits frame_count g unit :
  Tag.digit_group g →
  FFStream.add_group frame_count g unit = Ok (frame_count + Tag.group_value g * unit).
Proof.
  intros H. unfold FFStream.add_group, Tag.group_value. destruct g as [ds|].
  - destruct (H ds eq_refl) as [T D]. by rewrite T, (int_digits _ T D).
  - f_equal. lia.
Qed.

Lemma except_ValueError_other {A} (m : result A) e :
  e ≠ ValueError → Py.except_ValueError m (Raise e) ≠ Raise ValueError.
Proof. intros He. destruct m as [a|[]]; simpl; congruence. Qed.

Lemma get_r_frame_rate_no_ValueError self :
  FFStream.get_r_frame_rate self ≠ Raise ValueError.
Proof. by apply except_ValueError_other. Qed.

Lemma digit_value_bound c : Py.is_digit c = true → 0 ≤ Py.digit_value c ≤ 9.
Proof.
  unfold Py.is_digit, Py.digit_value.
  intros [H1%N.leb_le H2%N.leb_le]%andb_true_iff. lia.
Qed.

Lemma two_digits_value s g r :
  Direct.two_digits s = Some (g, r) → 0 ≤ Tag.group_value g ≤ 99.
Proof.
  unfold Direct.two_digits. destruct s as [|a [|b s]]; [done..|].
  destruct (Ascii.eqb a "0" && Ascii.eqb b "0").
  { inversion 1; subst. simpl. lia. }
  destruct (Py.is_digit a) eqn:Ha; [|done].
  destruct (Py.is_digit b) eqn:Hb; [|done].
  simpl. inversion 1; subst. unfold Tag.group_value, Py.digits_value. simpl.
  pose proof (digit_value_bound _ Ha). pose proof (digit_value_bound _ Hb). lia.
Qed.

Lemma duration_values tag g1 g2 g3 g4 :
  Direct.duration tag = Some (g1, g2, g3, g4) →
  0 ≤ Tag.group_value g1 * 3600 + Tag.group_value g2 * 60 + Tag.group_value g3
    ≤ 362439.
Proof.
  unfold Direct.duration.
  destruct (Direct.two_digits tag) as [[h1 r1]|] eqn:E1; [|done].
  destruct (Direct.two_digits (Direct.colon r1)) as [[h2 r2]|] eqn:E2; [|done].
  destruct (Direct.two_digits (Direct.colon r2)) as [[h3 r3]|] eqn:E3; [|done].
  apply two_digits_value in E1, E2, E3.
  destruct r3 as [|c r3]; [done|].
  destruct (Ascii.eqb_spec c ".") as [->|Hne].
  - destruct (Direct.digits r3) as [[|c4 f] r4]; [done|].
    inversion 1; subst. lia.
  - intros H. exfalso.
    destruct c as [[] [] [] [] [] [] [] []]; try discriminate H.
    by destruct Hne.
Qed.

(** The frame count read from the tag: the whole seconds of the timestamp, as a
    float, times the rate.  The fraction of the timestamp, group 4, plays no
    part, and the product is not converted to an integer. *)
Lemma frames_from_tag self tag m :
  Shape.unshadowed ["is_video"; "is_audio"] self = true →
  FFStream.is_video self = Ok true ∨ FFStream.is_audio self = Ok true →
  self !! "nb_frames" = Some "N/A" →
  self !! "TAG:DURATION" = Some tag →
  Regex.search Re.duration tag = Some m →
  FFStream.frames self =
    (fps <- Attr.invoke "get_r_frame_rate" FFStream.get_r_frame_rate self ;;
     Ok (FFStream.Float
           (Py.mul
              (Py.of_Z (Tag.group_value (m !! 1%nat) * 3600
                        + Tag.group_value (m !! 2%nat) * 60
                        + Tag.group_value (m !! 3%nat)))
              fps))).
Proof.
  intros Hfree Hav Hnb Htag Hre.
  rewrite (frames_unfold self Hfree Hav _ Hnb). simpl.
  rewrite (getitem_Some _ _ _ Htag). simpl.
  assert (Py.truthy tag = true) as -> by (by destruct tag).
  rewrite Hre. rewrite search_duration in Hre.
  destruct (Direct.duration tag) as [[[[g1 g2] g3] g4]|] eqn:E; [|done].
  assert (m = Direct.duration_groups (g1, g2, g3, g4)) as ->
    by (change (Some (Direct.duration_groups (g1, g2, g3, g4)) = Some m) in Hre;
        congruence).
  clear Hre.
  destruct (duration_groups_lookup g1 g2 g3 g4) as (-> & -> & -> & _).
  destruct (duration_digit_groups _ _ _ _ _ E) as (G1 & G2 & G3).
  pose proof (duration_values _ _ _ _ _ E) as Hsecs.
  rewrite (add_group_digits _ _ _ G1). simpl.
  rewrite (add_group_digits _ _ _ G2). simpl.
  rewrite (add_group_digits _ _ _ G3). simpl.
  replace (0 + Tag.group_value g1 * (60 * 60) + Tag.group_value g2 * 60
           + Tag.group_value g3 * 1)
    with (Tag.group_value g1 * 3600 + Tag.group_value g2 * 60 + Tag.group_value g3) by lia.
  rewrite int_to_float_small by lia.
  pose proof (invoke_no_ValueError "get_r_frame_rate" _ self
                (get_r_frame_rate_no_ValueError self)) as Hr.
  by destruct (Attr.invoke _ _ self) as [fps|[]].
Qed.

(** C2, evaluated: the product of the whole seconds and the rate is returned as
    the float it is; nothing converts it to an integer.  One second at
    30000/1001 frames per second gives 29.97 frames, and the stream of the
    specification gives the float 5750.0. *)
Theorem C2_frames_from_tag_is_float :
  FFStream.frames Sample.ntsc_second = Ok (FFStream.Float (Spec.lit "29.97"))
  ∧ FFStream.frames Sample.tagged = Ok (FFStream.Float (Spec.lit "5750.0")).
Proof. split; vm_compute; reflexivity. Qed.

(** ** Duration *)

Section Duration.
Variable self : gmap string string.
Hypothesis callable : Shape.unshadowed ["is_video"; "is_audio"] self = true.
Hypothesis audio_or_video :
  FFStream.is_video self = Ok true ∨ FFStream.is_audio self = Ok true.

Lemma duration_seconds_unfold d :
  self !! "duration" = Some d →
  FFStream.duration_seconds self =
    Py.except_ValueError
      (if negb (String.eqb d "N/A") then Py.or_ValueError (Py.float d)
       else
         fps <- Attr.invoke "get_avg_frame_rate" FFStream.get_avg_frame_rate self ;;
         framenumbers <- Attr.invoke "frames" FFStream.frames self ;;
         x <- FFStream.to_float framenumbers ;;
         Py.truediv x fps)
      (Raise Spec.MalformedDuration).
Proof.
  intros H. unfold FFStream.duration_seconds.
  rewrite (applicable_audio_video _ callable audio_or_video). simpl.
  rewrite (getitem_Some _ _ _ H). simpl.
  by destruct (negb (String.eqb d "N/A")).
Qed.

End Duration.




(** ** Lines and field stores *)

Lemma split_length sep s : length (Py.split sep s) = S (Py.count sep s).
Proof.
  induction s as [|c s IH]; simpl; [done|].
  destruct (Ascii.eqb c sep); simpl; [by rewrite IH|].
  rewrite <- IH. by destruct (Py.split sep s).
Qed.

Lemma split_singleton sep s v : Py.split sep s = [v] → v = s.
Proof.
  revert v. induction s as [|c s IH]; intros v; simpl.
  { by inversion 1. }
  destruct (Ascii.eqb c sep).
  { intros H. pose proof (split_length sep s) as Hl.
    destruct (Py.split sep s); simplify_eq/=. }
  pose proof (split_length sep s) as Hl.
  destruct (Py.split sep s) as [|h [|]] eqn:E; intros H; simplify_eq/=.
  by rewrite (IH h).
Qed.

Lemma split_cut sep s k v :
  Py.split sep s = [k; v] → Spec.cut sep s = Some (k, v).
Proof.
  revert k. induction s as [|c s IH]; intros k; simpl; [done|].
  destruct (Ascii.eqb c sep).
  { intros H. simplify_eq/=. by rewrite (split_singleton sep s v). }
  pose proof (split_length sep s) as Hl.
  destruct (Py.split sep s) as [|h [|v' [|]]] eqn:E; intros H; simplify_eq/=.
  by rewrite (IH h).
Qed.

Lemma split_two sep s :
  Py.count sep s = 1%nat → ∃ k v, Py.split sep s = [k; v].
Proof.
  intros H. pose proof (split_length sep s) as Hl. rewrite H in Hl.
  destruct (Py.split sep s) as [|k [|v [|]]]; simplify_eq/=. eauto.
Qed.

Lemma set_line_one self a :
  Segment.one_equals a →
  FFStream.set_line self a =
    Ok (<[(Segment.write_of a).1 := (Segment.write_of a).2]> self).
Proof.
  unfold Segment.one_equals, Segment.write_of, FFStream.set_line. intros H.
  destruct (split_two _ _ H) as (k & v & E). rewrite E.
  by rewrite (split_cut _ _ _ _ E).
Qed.

Lemma set_line_other self a :
  ¬ Segment.one_equals a → FFStream.set_line self a = Raise ValueError.
Proof.
  unfold Segment.one_equals, FFStream.set_line. intros H.
  pose proof (split_length "=" (Py.strip a)) as Hl.
  destruct (Py.split "=" (Py.strip a)) as [|k [|v [|]]]; simplify_eq/=; done.
Qed.

Lemma set_lines_all data_lines : ∀ self,
  Forall Segment.one_equals data_lines →
  ∃ self', FFStream.set_lines self data_lines = Ok self'
    ∧ ∀ key, self' !! key =
        match Spec.last_written key (Segment.write_of <$> data_lines) with
        | Some v => Some v
        | None => self !! key
        end.
Proof.
  induction data_lines as [|a rest IH]; intros self Hall; simpl.
  { eauto. }
  inversion Hall as [|? ? Ha Hrest]; subst.
  rewrite (set_line_one _ _ Ha). simpl.
  destruct (IH (<[(Segment.write_of a).1 := (Segment.write_of a).2]> self) Hrest)
    as (self' & -> & Hlook).
  exists self'. split; [done|]. intros key. rewrite Hlook.
  destruct (Segment.write_of a) as [k v]. simpl.
  destruct (Spec.last_written key _); [done|].
  destruct (String.eqb_spec k key) as [->|Hne].
  - by rewrite lookup_insert_eq.
  - by rewrite lookup_insert_ne.
Qed.

Lemma set_lines_some data_lines : ∀ self,
  Exists (λ a, ¬ Segment.one_equals a) data_lines →
  FFStream.set_lines self data_lines = Raise ValueError.
Proof.
  induction data_lines as [|a rest IH]; intros self Hex; simpl.
  { by inversion Hex. }
  destruct (decide (Py.count "=" (Py.strip a) = 1%nat)) as [Ha|Ha].
  - rewrite (set_line_one _ _ Ha). simpl. apply IH.
    inversion Hex as [? ? Hbad|? ? Hrest]; subst; [by destruct Hbad | done].
  - by rewrite (set_line_other _ _ Ha).
Qed.

Lemma cut_parts sep s k v :
  Spec.cut sep s = Some (k, v) → s = k +:+ String sep v ∧ Py.count sep k = 0%nat.
Proof.
  revert k. induction s as [|c s IH]; intros k; simpl; [done|].
  destruct (Ascii.eqb_spec c sep) as [->|Hne].
  { inversion 1. by subst. }
  destruct (Spec.cut sep s) as [[k' v']|]; [|done].
  inversion 1; subst. destruct (IH k' eq_refl) as [-> Hc]. split; [done|].
  simpl. rewrite Hc. by destruct (Ascii.eqb_spec c sep).
Qed.

(** C6, as the code has it.  When every line, stripped, has exactly one [=],
    the constructor returns a store in which each key holds the value last
    written for it, key and value being the text before and after the [=] of
    the stripped line, with no further trimming; a line with no [=] or more
    than one makes the constructor raise [ValueError]. *)
Theorem C6_field_store (data_lines : list string) :
  (Forall Segment.one_equals data_lines →
   ∃ self, FFStream.__init__ data_lines = Ok self
     ∧ ∀ key, self !! key = Spec.last_written key (Segment.write_of <$> data_lines))
  ∧ (Exists (λ a, ¬ Segment.one_equals a) data_lines →
     FFStream.__init__ data_lines = Raise ValueError)
  ∧ Forall (λ a, Segment.one_equals a →
              Py.strip a
              = (Segment.write_of a).1 +:+ String "=" (Segment.write_of a).2)
      data_lines.
Proof.
  split_and!.
  - intros Hall. destruct (set_lines_all data_lines ∅ Hall) as (self & E & Hlook).
    exists self. split; [done|]. intros key. rewrite Hlook.
    destruct (Spec.last_written key _); [done | apply lookup_empty].
  - apply set_lines_some.
  - apply Forall_forall. intros a _ Ha.
    unfold Segment.one_equals in Ha. unfold Segment.write_of.
    destruct (split_two _ _ Ha) as (k & v & E).
    rewrite (split_cut _ _ _ _ E). simpl.
    by destruct (cut_parts _ _ _ _ (split_cut _ _ _ _ E)).
Qed.

(** C6 on a block that writes [a] twice. *)
Lemma C6_field_store_example :
  Forall Segment.one_equals Sample.rewritten
  ∧ ∃ self, FFStream.__init__ Sample.rewritten = Ok self
      ∧ self !! "a" = Some "3" ∧ self !! "b" = Some "2" ∧ self !! "c" = None.
Proof.
  assert (Forall Segment.one_equals Sample.rewritten) as Hall
    by (repeat constructor).
  split; [exact Hall|].
  destruct (proj1 (C6_field_store Sample.rewritten) Hall) as (self & E & Hlook).
  exists self. split; [exact E|].
  split_and!; [exact (Hlook "a") | exact (Hlook "b") | exact (Hlook "c")].
Defined.

(** C6 as stated fails on a line with two [=] (the specification splits on the
    first, the code raises) and on a line with spaces around the [=] (the
    specification trims key and value, the code keeps the spaces). *)
Lemma C6_not_first_equals_not_trimmed :
  Spec.key_value "a=b=c" = Some ("a", "b=c")
  ∧ FFStream.__init__ ["a=b=c"] = Raise ValueError
  ∧ Spec.key_value "k = v" = Some ("k", "v")
  ∧ FFStream.__init__ ["k = v"] = Ok {[ "k " := " v" ]}
  ∧ ({[ "k " := " v" ]} : gmap string string) !! "k" = None.
Proof. split_and!; reflexivity. Qed.

(** ** Segmentation *)

Lemma marker_exclusive a : FFProbes3.is_end a = true → FFProbes3.is_start a = false.
Proof.
  rewrite is_start_startswith, is_end_startswith.
  destruct a as [|c [|d a]]; simpl; [done| |].
  - by rewrite andb_false_r.
  - destruct (Ascii.eqb_spec "[" c) as [<-|]; simpl; [|done].
    by destruct (Ascii.eqb_spec "/" d) as [<-|].
Qed.

Lemma scan_app st l1 l2 :
  FFProbes3.scan st (l1 ++ l2) = (st' <- FFProbes3.scan st l1 ;; FFProbes3.scan st' l2).
Proof.
  revert st. induction l1 as [|a l1 IH]; intros st; simpl; [done|].
  destruct (FFProbes3.scan_line st a); simpl; [apply IH | done].
Qed.

Lemma scan_blocks lines : ∀ streams pending,
  FFProbes3.scan (streams, pending) lines =
    (bs <- Segment.traverse FFStream.__init__ (Segment.blocks_from pending lines) ;;
     Ok (streams ++ bs, Segment.pending_after pending lines)).
Proof.
  induction lines as [|a rest IH]; intros streams pending; simpl.
  { by rewrite app_nil_r. }
  destruct (FFProbes3.is_start a); simpl; [apply IH|].
  destruct (FFProbes3.is_end a); simpl; [|apply IH].
  destruct (FFStream.__init__ pending) as [s|e]; simpl; [|done].
  rewrite IH.
  destruct (Segment.traverse _ _) as [bs|e]; simpl; [|done].
  by rewrite <- app_assoc.
Qed.

Lemma read_streams_blocks stdout stderr :
  FFProbes3.read_streams stdout stderr =
    Segment.traverse FFStream.__init__ (Segment.blocks (stdout ++ stderr)).
Proof.
  unfold FFProbes3.read_streams, Segment.blocks.
  transitivity ('(streams, _) <- FFProbes3.scan ([], []) (stdout ++ stderr) ;;
                Ok streams).
  { rewrite scan_app. by destruct (FFProbes3.scan _ stdout). }
  rewrite scan_blocks.
  by destruct (Segment.traverse _ _).
Qed.

Lemma traverse_length {A B} (f : A → result B) l ys :
  Segment.traverse f l = Ok ys → length ys = length l.
Proof.
  revert ys. induction l as [|x l IH]; intros ys; simpl.
  { by inversion 1. }
  destruct (f x); simpl; [|done].
  destruct (Segment.traverse f l) as [ys'|]; simpl; [|done].
  inversion 1. simpl. f_equal. by apply IH.
Qed.

Lemma traverse_total {A B} (f : A → result B) l :
  Forall (λ x, ∃ y, f x = Ok y) l → ∃ ys, Segment.traverse f l = Ok ys.
Proof.
  induction 1 as [|x l [y Hy] _ [ys Hys]]; simpl; [eauto|].
  rewrite Hy, Hys. simpl. eauto.
Qed.

Lemma blocks_from_length lines : ∀ pending,
  length (Segment.blocks_from pending lines) = length (List.filter FFProbes3.is_end lines).
Proof.
  induction lines as [|a rest IH]; intros pending; simpl; [done|].
  destruct (FFProbes3.is_end a) eqn:He.
  - rewrite (marker_exclusive _ He). simpl. by rewrite IH.
  - destruct (FFProbes3.is_start a); apply IH.
Qed.

Lemma blocks_from_pairs lines : ∀ pending opened,
  length (Segment.blocks_from pending lines) =
    (Spec.complete_pairs_from opened lines + Spec.stray_ends_from opened lines)%nat.
Proof.
  induction lines as [|a rest IH]; intros pending opened; simpl; [done|].
  destruct (FFProbes3.is_start a); [apply IH|].
  destruct (FFProbes3.is_end a); [|apply IH].
  simpl. rewrite (IH [] false). destruct opened; lia.
Qed.

Lemma blocks_from_tail lines tail : ∀ pending,
  Forall (λ a, FFProbes3.is_end a = false) tail →
  Segment.blocks_from pending (lines ++ tail) = Segment.blocks_from pending lines.
Proof.
  intros pending Htail. revert pending.
  induction lines as [|a rest IH]; intros pending; simpl.
  - revert pending. induction Htail as [|a tail Ha _ IH]; intros pending; simpl; [done|].
    rewrite Ha. destruct (FFProbes3.is_start a); apply IH.
  - destruct (FFProbes3.is_start a); [apply IH|].
    destruct (FFProbes3.is_end a); [by rewrite IH | apply IH].
Qed.

(** C5, as the code has it.  The two loops return one field store per end
    marker, in order, each built from the lines read since the marker before
    it, over the lines of the first pipe followed by those of the second; that
    is one store per complete pair and one per end marker that closes nothing.
    They return whenever the lines of every such group have exactly one [=].
    A start marker empties the pending lines, and lines after the last end
    marker change nothing. *)
Theorem C5_segmenter (stdout stderr : list string) :
  FFProbes3.read_streams stdout stderr
  = Segment.traverse FFStream.__init__ (Segment.blocks (stdout ++ stderr))
  ∧ length (Segment.blocks (stdout ++ stderr))
    = length (List.filter FFProbes3.is_end (stdout ++ stderr))
  ∧ length (Segment.blocks (stdout ++ stderr))
    = (Spec.complete_pairs (stdout ++ stderr)
       + Spec.stray_ends (stdout ++ stderr))%nat
  ∧ (∀ streams,
       FFProbes3.read_streams stdout stderr = Ok streams →
       length streams = length (List.filter FFProbes3.is_end (stdout ++ stderr)))
  ∧ (Forall (Forall Segment.one_equals) (Segment.blocks (stdout ++ stderr)) →
     ∃ streams, FFProbes3.read_streams stdout stderr = Ok streams)
  ∧ (∀ streams pending a,
       FFProbes3.is_start a = true →
       FFProbes3.scan_line (streams, pending) a = Ok (streams, []))
  ∧ (∀ tail,
       Forall (λ a, FFProbes3.is_end a = false) tail →
       FFProbes3.read_streams stdout (stderr ++ tail)
       = FFProbes3.read_streams stdout stderr).
Proof.
  split_and!.
  - apply read_streams_blocks.
  - apply blocks_from_length.
  - apply blocks_from_pairs.
  - intros streams. rewrite read_streams_blocks. intros H.
    rewrite (traverse_length _ _ _ H). apply blocks_from_length.
  - intros Hall. rewrite read_streams_blocks. apply traverse_total.
    eapply Forall_impl; [exact Hall|]. intros block Hb.
    destruct (set_lines_all block ∅ Hb) as (self & E & _). by exists self.
  - intros streams pending a Ha. unfold FFProbes3.scan_line. by rewrite Ha.
  - intros tail Htail. rewrite !read_streams_blocks, app_assoc.
    unfold Segment.blocks. by rewrite blocks_from_tail.
Qed.

(** C5 on a run whose second block spans the two pipes and whose last block
    is left open. *)
Lemma C5_segmenter_example :
  FFProbes3.read_streams Sample.stdout Sample.stderr
  = Ok [Sample.first_stream; Sample.second_stream]
  ∧ length [Sample.first_stream; Sample.second_stream]
    = length (List.filter FFProbes3.is_end (Sample.stdout ++ Sample.stderr)).
Proof.
  assert (FFProbes3.read_streams Sample.stdout Sample.stderr
          = Ok [Sample.first_stream; Sample.second_stream]) as E by reflexivity.
  split; [exact E|].
  exact (proj1 (proj2 (proj2 (proj2 (C5_segmenter Sample.stdout Sample.stderr))))
           _ E).
Defined.

(** C5 as stated fails on an end marker that no start marker opened (a store
    is made where there is no complete pair) and on a complete block with an
    empty line in it (the constructor raises and no store is made). *)
Lemma C5_unopened_end_makes_a_store :
  Spec.complete_pairs Sample.unopened = 0%nat
  ∧ FFProbes3.read_streams Sample.unopened [] = Ok [{[ "codec_type" := "audio" ]}]
  ∧ Spec.complete_pairs Sample.spaced = 1%nat
  ∧ FFProbes3.read_streams Sample.spaced [] = Raise ValueError.
Proof. split_and!; reflexivity. Qed.

(** ** The partition *)

Lemma filter_sublist {A} (p : A → bool) l : sublist (List.filter p l) l.
Proof.
  induction l as [|x l IH]; simpl; [constructor|].
  destruct (p x); by constructor.
Qed.

Lemma filter_app' {A} (p : A → bool) l x :
  List.filter p (l ++ [x]) = List.filter p l ++ (if p x then [x] else []).
Proof. rewrite List.filter_app. simpl. by destruct (p x). Qed.

Lemma partition_filter streams : ∀ video audio v a,
  FFProbes3.partition streams video audio = Ok (v, a) →
  v = video ++ List.filter (λ s, Segment.affirmed (FFStream.is_video s)) streams
  ∧ a = audio ++ List.filter (λ s, Segment.affirmed (FFStream.is_audio s)) streams.
Proof.
  induction streams as [|s rest IH]; intros video audio v a; simpl.
  { inversion 1. by rewrite !app_nil_r. }
  destruct (Attr.invoke "is_audio" FFStream.is_audio s) as [ia|] eqn:Ea;
    simpl; [|done].
  destruct (Attr.invoke "is_video" FFStream.is_video s) as [iv|] eqn:Ev;
    simpl; [|done].
  apply invoke_Ok in Ea as [_ ->], Ev as [_ ->].
  intros H. apply IH in H as [-> ->].
  destruct ia, iv; simpl; by rewrite <- ?app_assoc.
Qed.

Lemma affirmed_true (r : result bool) : Segment.affirmed r = true → r = Ok true.
Proof. by destruct r as [[]|]. Qed.

(** C9: in a report that the constructor returns, [streams] is what the two
    loops read, [video] and [audio] are [streams] filtered by [is_video] and
    [is_audio], hence subsequences of it whose elements satisfy the predicate
    of their view, and every element of either view is an element of
    [streams].  The three lists are fields of the value returned: no method of
    either class assigns to them. *)
Theorem C9_views (stdout stderr : list string) (report : FFProbes3.t) :
  FFProbes3.__init__ stdout stderr = Ok report →
  FFProbes3.read_streams stdout stderr = Ok (FFProbes3.streams report)
  ∧ FFProbes3.video report
    = List.filter (λ a, Segment.affirmed (FFStream.is_video a))
        (FFProbes3.streams report)
  ∧ FFProbes3.audio report
    = List.filter (λ a, Segment.affirmed (FFStream.is_audio a))
        (FFProbes3.streams report)
  ∧ sublist (FFProbes3.video report) (FFProbes3.streams report)
  ∧ sublist (FFProbes3.audio report) (FFProbes3.streams report)
  ∧ Forall (λ a, FFStream.is_video a = Ok true) (FFProbes3.video report)
  ∧ Forall (λ a, FFStream.is_audio a = Ok true) (FFProbes3.audio report)
  ∧ (∀ a, a ∈ FFProbes3.video report ++ FFProbes3.audio report →
          a ∈ FFProbes3.streams report).
Proof.
  unfold FFProbes3.__init__. intros H.
  apply bind_inv in H as (streams & Hs & H).
  apply bind_inv in H as ([video audio] & Hp & H).
  inversion H; subst; clear H. simpl.
  apply partition_filter in Hp as [-> ->]. simpl.
  assert (∀ p : gmap string string → bool, sublist (List.filter p streams) streams)
    as Hsub by (intros; apply filter_sublist).
  split_and!; try done.
  - apply Forall_forall. intros a [_ Ha]%list_elem_of_In%List.filter_In.
    by apply affirmed_true.
  - apply Forall_forall. intros a [_ Ha]%list_elem_of_In%List.filter_In.
    by apply affirmed_true.
  - intros a [Ha|Ha]%elem_of_app;
      apply list_elem_of_In, List.filter_In in Ha as [Ha _];
      by apply list_elem_of_In.
Qed.

(** C9 on the run of two streams, one audio and one video. *)
Lemma C9_views_example :
  FFProbes3.__init__ Sample.stdout Sample.stderr
  = Ok (FFProbes3.Build [Sample.first_stream; Sample.second_stream]
          [Sample.second_stream] [Sample.first_stream])
  ∧ sublist [Sample.second_stream] [Sample.first_stream; Sample.second_stream]
  ∧ sublist [Sample.first_stream] [Sample.first_stream; Sample.second_stream]
  ∧ FFStream.is_video Sample.second_stream = Ok true
  ∧ FFStream.is_audio Sample.first_stream = Ok true.
Proof.
  assert (FFProbes3.__init__ Sample.stdout Sample.stderr
          = Ok (FFProbes3.Build [Sample.first_stream; Sample.second_stream]
                  [Sample.second_stream] [Sample.first_stream])) as E
    by reflexivity.
  destruct (C9_views Sample.stdout Sample.stderr _ E)
    as (_ & _ & _ & Hv & Ha & Fv & Fa & _).
  split_and!; [exact E | exact Hv | exact Ha | |].
  - exact (Forall_inv Fv).
  - exact (Forall_inv Fa).
Defined.

(** * Further properties *)

Lemma startswith_prefix p a :
  Py.startswith p a = true ↔ ∃ rest, a = p +:+ rest.
Proof.
  revert a. induction p as [|c p IH]; intros a; simpl.
  { split; [eauto | done]. }
  destruct a as [|d a].
  { split; [done | by intros [rest H]]. }
  rewrite andb_true_iff, IH. split.
  - intros [->%Ascii.eqb_eq [rest ->]]. by exists rest.
  - intros [rest H]. change (String d a = String c (p +:+ rest)) in H.
    simplify_eq. split; [apply Ascii.eqb_refl | eauto].
Qed.

(** X1: a line is a start marker exactly when it begins with [[STREAM]], and an
    end marker exactly when it begins with [[/STREAM]], whatever follows on the
    line; white space in front of the bracket makes it an ordinary line.  No
    line is both. *)
Theorem X_marker_lines (a : string) :
  (FFProbes3.is_start a = true ↔ ∃ rest, a = "[STREAM]" +:+ rest)
  ∧ (FFProbes3.is_end a = true ↔ ∃ rest, a = "[/STREAM]" +:+ rest)
  ∧ ¬ (FFProbes3.is_start a = true ∧ FFProbes3.is_end a = true).
Proof.
  rewrite is_start_startswith, is_end_startswith, !startswith_prefix.
  split_and!; [done..|].
  intros [[r1 ->] [r2 H]]. discriminate H.
Qed.

(** X1 on the two markers as [readline] hands them over. *)
Lemma X_marker_lines_example :
  FFProbes3.is_start (Sample.ln "[STREAM]") = true
  ∧ FFProbes3.is_end (Sample.ln "[/STREAM]") = true.
Proof.
  split.
  - exact (proj2 (proj1 (X_marker_lines (Sample.ln "[STREAM]")))
             (ex_intro _ Sample.line_feed eq_refl)).
  - exact (proj2 (proj1 (proj2 (X_marker_lines (Sample.ln "[/STREAM]"))))
             (ex_intro _ Sample.line_feed eq_refl)).
Defined.

(** ** What [strip] leaves *)

Lemma count_app c k v : Py.count c (k +:+ v) = (Py.count c k + Py.count c v)%nat.
Proof.
  induction k as [|a k IH]; [done|].
  change (String a k +:+ v) with (String a (k +:+ v)). simpl. rewrite IH. lia.
Qed.

Lemma lstrip_head p s c r : Py.lstrip_by p s = String c r → p c = false.
Proof.
  induction s as [|a s IH]; simpl; [done|].
  destruct (p a) eqn:E; [done|]. by inversion 1; subst.
Qed.

Lemma rstrip_head p c s :
  p c = false → ∃ r, Py.rstrip_by p (String c s) = String c r.
Proof.
  intros H. simpl. destruct (Py.rstrip_by p s); rewrite ?H; eauto.
Qed.

Lemma strip_head a c r : Py.strip a = String c r → Py.isspace c = false.
Proof.
  unfold Py.strip. destruct (Py.lstrip_by Py.isspace a) as [|d t] eqn:E; [done|].
  pose proof (lstrip_head _ _ _ _ E) as Hd.
  destruct (rstrip_head Py.isspace d t Hd) as [r' ->]. by inversion 1; subst.
Qed.

Lemma rstrip_tail p c v :
  Py.rstrip_by p (String c v) = String c v → Py.rstrip_by p v = v.
Proof.
  simpl. destruct (Py.rstrip_by p v) as [|d r] eqn:E.
  - destruct (p c); inversion 1; by subst.
  - by inversion 1.
Qed.

Lemma rstrip_suffix p x v :
  Py.rstrip_by p (x +:+ v) = x +:+ v → Py.rstrip_by p v = v.
Proof.
  induction x as [|c x IH]; [done|].
  change (String c x +:+ v) with (String c (x +:+ v)).
  intros H. by apply IH, (rstrip_tail p c).
Qed.

Lemma rstrip_idemp p s : Py.rstrip_by p (Py.rstrip_by p s) = Py.rstrip_by p s.
Proof.
  induction s as [|c s IH]; simpl; [done|].
  destruct (Py.rstrip_by p s) as [|d r] eqn:E.
  - destruct (p c) eqn:Hc; simpl; [done|]. by rewrite Hc.
  - simpl in *. by rewrite IH.
Qed.

(** What one line writes: the stripped line is the key, [=], the value;
    neither holds a further [=], the key has no white space in front and the
    value none behind. *)
Lemma set_line_Ok self a self' :
  FFStream.set_line self a = Ok self' →
  ∃ key val, self' = <[key := val]> self
    ∧ Py.strip a = key +:+ String "=" val
    ∧ Py.count "=" key = 0%nat ∧ Py.count "=" val = 0%nat
    ∧ Py.lstrip_by Py.isspace key = key ∧ Py.rstrip_by Py.isspace val = val.
Proof.
  unfold FFStream.set_line.
  pose proof (split_length "=" (Py.strip a)) as Hl.
  destruct (Py.split "=" (Py.strip a)) as [|key [|val [|]]] eqn:E; try done.
  inversion 1; subst. exists key, val. split; [done|].
  destruct (cut_parts _ _ _ _ (split_cut _ _ _ _ E)) as [Hs Hk].
  assert (Py.count "=" val = 0%nat) as Hv.
  { rewrite Hs, count_app, Hk in Hl. simpl in Hl. lia. }
  split_and!; try done.
  - destruct key as [|c key]; [done|].
    change (String c key +:+ String "=" val)
      with (String c (key +:+ String "=" val)) in Hs.
    simpl. by rewrite (strip_head _ _ _ Hs).
  - apply (rstrip_tail _ "="), (rstrip_suffix _ key). rewrite <- Hs.
    apply rstrip_idemp.
Qed.

Lemma set_lines_entries (L : list string) data_lines : ∀ self self',
  data_lines ⊆ L →
  FFStream.set_lines self data_lines = Ok self' →
  ∀ key val, self' !! key = Some val →
    self !! key = Some val
    ∨ (∃ a, a ∈ L ∧ Py.strip a = key +:+ String "=" val)
      ∧ Py.count "=" key = 0%nat ∧ Py.count "=" val = 0%nat
      ∧ Py.lstrip_by Py.isspace key = key ∧ Py.rstrip_by Py.isspace val = val.
Proof.
  induction data_lines as [|a rest IH]; intros self self' Hsub; simpl.
  { inversion 1; subst. eauto. }
  destruct (FFStream.set_line self a) as [self1|] eqn:E; simpl; [|done].
  intros Hrest key val Hlook.
  destruct (IH self1 self' ltac:(set_solver) Hrest key val Hlook) as [H1|H1];
    [|by right].
  destruct (set_line_Ok _ _ _ E) as (k & v & -> & Hs & Hk & Hv & Hlk & Hrv).
  destruct (decide (k = key)) as [->|Hne].
  - rewrite lookup_insert_eq in H1. simplify_eq. right.
    split; [exists a; split; [set_solver | done] | done].
  - rewrite lookup_insert_ne in H1 by done. by left.
Qed.

(** X2: every entry of a store that the constructor returns was written by one
    of the lines, as the text before and after the [=] of the stripped line:
    neither key nor value holds a [=], no key begins with white space and no
    value ends with it (the line feed of the line is gone). *)
Theorem X_store_entries (data_lines : list string) (self : gmap string string)
    (key val : string) :
  FFStream.__init__ data_lines = Ok self →
  self !! key = Some val →
  (∃ a, a ∈ data_lines ∧ Py.strip a = key +:+ String "=" val)
  ∧ Py.count "=" key = 0%nat ∧ Py.count "=" val = 0%nat
  ∧ Py.lstrip_by Py.isspace key = key ∧ Py.rstrip_by Py.isspace val = val.
Proof.
  intros Hinit Hlook.
  destruct (set_lines_entries data_lines data_lines ∅ self ltac:(done) Hinit
              key val Hlook) as [H|H]; [by rewrite lookup_empty in H | done].
Qed.

(** X2 on the block that writes [a] twice. *)
Lemma X_store_entries_example :
  FFStream.__init__ Sample.rewritten = Ok {[ "a" := "3"; "b" := "2" ]}
  ∧ ({[ "a" := "3"; "b" := "2" ]} : gmap string string) !! "a" = Some "3"
  ∧ (∃ a, a ∈ Sample.rewritten ∧ Py.strip a = "a=3").
Proof.
  assert (FFStream.__init__ Sample.rewritten = Ok {[ "a" := "3"; "b" := "2" ]})
    as E by reflexivity.
  assert (({[ "a" := "3"; "b" := "2" ]} : gmap string string) !! "a" = Some "3")
    as L by reflexivity.
  split_and!; [exact E | exact L |].
  exact (proj1 (X_store_entries Sample.rewritten _ "a" "3" E L)).
Defined.

(** ** What the constructor of the report returns *)

Lemma fault_None a :
  Shape.fault a = None →
  a !! "is_audio" = None ∧ a !! "is_video" = None
  ∧ ∃ c, a !! "codec_type" = Some c.
Proof.
  unfold Shape.fault.
  destruct (a !! "is_audio"), (a !! "codec_type"), (a !! "is_video"); try done.
  eauto.
Qed.

Lemma fault_Some a e :
  Shape.fault a = Some e →
  (ia <- Attr.invoke "is_audio" FFStream.is_audio a ;;
   Attr.invoke "is_video" FFStream.is_video a) = Raise e.
Proof.
  unfold Shape.fault.
  destruct (a !! "is_audio") as [x|] eqn:Hia.
  { intros [= <-]. by rewrite (invoke_shadowed _ _ _ _ Hia). }
  rewrite (invoke_free _ _ _ Hia).
  destruct (a !! "codec_type") as [c|] eqn:Hc.
  - rewrite (is_audio_Some _ _ Hc). simpl.
    destruct (a !! "is_video") as [y|] eqn:Hiv; [|done].
    intros [= <-]. by rewrite (invoke_shadowed _ _ _ _ Hiv).
  - intros [= <-]. by rewrite (is_audio_None _ Hc).
Qed.

Lemma partition_outcome streams : ∀ video audio,
  FFProbes3.partition streams video audio =
    match Shape.first_fault streams with
    | Some e => Raise e
    | None =>
        Ok (video
            ++ List.filter (λ a, Segment.affirmed (FFStream.is_video a)) streams,
            audio
            ++ List.filter (λ a, Segment.affirmed (FFStream.is_audio a)) streams)
    end.
Proof.
  induction streams as [|s rest IH]; intros video audio; simpl.
  { by rewrite !app_nil_r. }
  destruct (Shape.fault s) as [e|] eqn:Hf.
  - apply fault_Some in Hf.
    destruct (Attr.invoke "is_audio" FFStream.is_audio s) as [ia|]; simpl in *;
      [by rewrite Hf | by simplify_eq].
  - destruct (fault_None _ Hf) as (Hia & Hiv & c & Hc).
    rewrite (invoke_free _ _ _ Hia), (invoke_free _ _ _ Hiv).
    rewrite (is_audio_Some _ _ Hc), (is_video_Some _ _ Hc). simpl. rewrite IH.
    destruct (Shape.first_fault rest); [done|].
    destruct (String.eqb c "video"), (String.eqb c "audio"); simpl;
      by rewrite <- ?app_assoc.
Qed.

Lemma init_outcome stdout stderr streams :
  FFProbes3.read_streams stdout stderr = Ok streams →
  FFProbes3.__init__ stdout stderr =
    match Shape.first_fault streams with
    | Some e => Raise e
    | None =>
        Ok (FFProbes3.Build streams
              (List.filter (λ a, Segment.affirmed (FFStream.is_video a)) streams)
              (List.filter (λ a, Segment.affirmed (FFStream.is_audio a)) streams))
    end.
Proof.
  intros H. unfold FFProbes3.__init__. rewrite H. simpl.
  rewrite partition_outcome. by destruct (Shape.first_fault streams).
Qed.

(** X3: once the two loops have returned [streams], the constructor returns a
    report exactly when every stream has a [codec_type] and no field named
    [is_audio] or [is_video].  The partition calls [is_audio] and then
    [is_video] on every stream: on the first stream that is not so it raises
    [KeyError] for a missing [codec_type], as on the store of an empty block,
    and [TypeError] for a field that stands in the way of a predicate. *)
Theorem X_report_needs_codec_type (stdout stderr : list string)
    (streams : list (gmap string string)) :
  FFProbes3.read_streams stdout stderr = Ok streams →
  FFProbes3.__init__ stdout stderr =
    match Shape.first_fault streams with
    | Some e => Raise e
    | None =>
        Ok (FFProbes3.Build streams
              (List.filter (λ a, Segment.affirmed (FFStream.is_video a)) streams)
              (List.filter (λ a, Segment.affirmed (FFStream.is_audio a)) streams))
    end.
Proof. apply init_outcome. Qed.

(** X3 on an empty block and on a block that has a field named [is_audio]. *)
Lemma X_report_needs_codec_type_example :
  FFProbes3.read_streams [Sample.ln "[STREAM]"; Sample.ln "[/STREAM]"] [] = Ok [∅]
  ∧ FFProbes3.__init__ [Sample.ln "[STREAM]"; Sample.ln "[/STREAM]"] []
    = Raise (KeyError "codec_type")
  ∧ FFProbes3.read_streams Case.shadowed_block []
    = Ok [{[ "codec_type" := "audio"; "is_audio" := "1" ]}]
  ∧ FFProbes3.__init__ Case.shadowed_block [] = Raise TypeError.
Proof.
  assert (FFProbes3.read_streams [Sample.ln "[STREAM]"; Sample.ln "[/STREAM]"] []
          = Ok [∅]) as E by reflexivity.
  assert (FFProbes3.read_streams Case.shadowed_block []
          = Ok [{[ "codec_type" := "audio"; "is_audio" := "1" ]}]) as E'
    by reflexivity.
  split_and!; [exact E | | exact E' |].
  - exact (X_report_needs_codec_type _ _ _ E).
  - exact (X_report_needs_codec_type _ _ _ E').
Defined.

Lemma first_fault_cases streams e :
  Shape.first_fault streams = Some e → e = KeyError "codec_type" ∨ e = TypeError.
Proof.
  induction streams as [|a rest IH]; simpl; [done|].
  destruct (Shape.fault a) as [e'|] eqn:Hf; [|done].
  intros [= <-]. unfold Shape.fault in Hf.
  destruct (a !! "is_audio"), (a !! "codec_type"), (a !! "is_video");
    simplify_eq; eauto.
Qed.

Lemma first_fault_None streams a :
  Shape.first_fault streams = None → a ∈ streams → Shape.fault a = None.
Proof.
  induction streams as [|b rest IH]; simpl; [by intros _ ?%elem_of_nil|].
  destruct (Shape.fault b) eqn:Hb; [done|].
  intros H [->|Ha]%elem_of_cons; [done | by apply IH].
Qed.

Lemma init_read_failure stdout stderr e :
  FFProbes3.read_streams stdout stderr = Raise e →
  FFProbes3.__init__ stdout stderr = Raise e.
Proof. intros H. unfold FFProbes3.__init__. by rewrite H. Qed.

Lemma one_equals_dec a : Decision (Segment.one_equals a).
Proof. unfold Segment.one_equals. apply _. Defined.

Lemma FFStream_init_outcome data_lines :
  (Forall Segment.one_equals data_lines ∧ ∃ self, FFStream.__init__ data_lines = Ok self)
  ∨ (Exists (λ a, ¬ Segment.one_equals a) data_lines
     ∧ FFStream.__init__ data_lines = Raise ValueError).
Proof.
  destruct (@Forall_Exists_dec _ Segment.one_equals (λ a, ¬ Segment.one_equals a)
              (λ a, match one_equals_dec a with left H => left H | right H => right H end)
              data_lines) as [Hall|Hex].
  - left. split; [done|].
    destruct (set_lines_all data_lines ∅ Hall) as (self & E & _). eauto.
  - right. split; [done|]. by apply set_lines_some.
Qed.

Lemma traverse_init_outcome blocks :
  (Forall (Forall Segment.one_equals) blocks
   ∧ ∃ streams, Segment.traverse FFStream.__init__ blocks = Ok streams)
  ∨ (Exists (Exists (λ a, ¬ Segment.one_equals a)) blocks
     ∧ Segment.traverse FFStream.__init__ blocks = Raise ValueError).
Proof.
  induction blocks as [|b rest IH]; simpl.
  { left. eauto. }
  destruct (FFStream_init_outcome b) as [[Hb [self ->]]|[Hb ->]]; simpl.
  - destruct IH as [[Hrest [streams ->]]|[Hrest ->]]; simpl.
    + left. eauto.
    + right. split; [by apply Exists_cons_tl | done].
  - right. split; [by apply Exists_cons_hd | done].
Qed.

Lemma not_Forall_Exists_one_equals blocks :
  Forall (Forall Segment.one_equals) blocks →
  ¬ Exists (Exists (λ a, ¬ Segment.one_equals a)) blocks.
Proof.
  intros Hall Hex. apply Exists_exists in Hex as (b & Hb & Hex).
  apply Exists_exists in Hex as (a & Ha & Hna).
  rewrite Forall_forall in Hall. specialize (Hall b Hb).
  rewrite Forall_forall in Hall. by apply Hna, Hall.
Qed.

(** X4: the constructor of the report, from the pipes on, raises [ValueError]
    exactly when a group of lines that an end marker closes holds a line that,
    stripped, has no [=] or more than one; the only other exceptions it raises
    are [KeyError] for [codec_type] and [TypeError]. *)
Theorem X_report_failures (stdout stderr : list string) :
  (FFProbes3.__init__ stdout stderr = Raise ValueError
   ↔ Exists (Exists (λ a, ¬ Segment.one_equals a))
       (Segment.blocks (stdout ++ stderr)))
  ∧ (∀ e, FFProbes3.__init__ stdout stderr = Raise e →
          e = ValueError ∨ e = KeyError "codec_type" ∨ e = TypeError).
Proof.
  destruct (traverse_init_outcome (Segment.blocks (stdout ++ stderr)))
    as [[Hall [streams Hs]]|[Hex Hs]]; rewrite <- read_streams_blocks in Hs.
  - rewrite (init_outcome _ _ _ Hs).
    pose proof (first_fault_cases streams) as Hf.
    split.
    + split.
      * destruct (Shape.first_fault streams) as [e|]; [|done].
        intros [= ->]. by destruct (Hf _ eq_refl).
      * intros Hex. by destruct (not_Forall_Exists_one_equals _ Hall).
    + intros e. destruct (Shape.first_fault streams) as [e'|]; [|done].
      intros [= <-]. destruct (Hf _ eq_refl) as [->| ->]; eauto.
  - rewrite (init_read_failure _ _ _ Hs). split; [done|].
    intros e. inversion 1; eauto.
Qed.

(** X4 on the block with an empty line in it. *)
Lemma X_report_failures_example :
  FFProbes3.__init__ Sample.spaced [] = Raise ValueError
  ∧ Exists (Exists (λ a, ¬ Segment.one_equals a))
      (Segment.blocks (Sample.spaced ++ [])).
Proof.
  assert (FFProbes3.__init__ Sample.spaced [] = Raise ValueError) as E
    by reflexivity.
  split; [exact E|].
  exact (proj1 (proj1 (X_report_failures Sample.spaced [])) E).
Defined.

Lemma filter_exclusive_length {A} (p q : A → bool) l :
  (∀ x, p x = true → q x = false) →
  (length (List.filter p l) + length (List.filter q l) ≤ length l)%nat.
Proof.
  intros H. induction l as [|x l IH]; simpl; [done|].
  destruct (p x) eqn:Hp; simpl.
  - rewrite (H x Hp). lia.
  - destruct (q x); simpl; lia.
Qed.

(** X5: in a report that the constructor returns no stream is in both views,
    the two views together are no longer than the list of streams, and a stream
    in neither view has a [codec_type] that is neither [video] nor [audio]. *)
Theorem X_views_disjoint (stdout stderr : list string) (report : FFProbes3.t) :
  FFProbes3.__init__ stdout stderr = Ok report →
  (∀ a, a ∈ FFProbes3.video report → a ∉ FFProbes3.audio report)
  ∧ (length (FFProbes3.video report) + length (FFProbes3.audio report)
     ≤ length (FFProbes3.streams report))%nat
  ∧ (∀ a, a ∈ FFProbes3.streams report →
          a ∉ FFProbes3.video report → a ∉ FFProbes3.audio report →
          ∃ c, a !! "codec_type" = Some c ∧ c ≠ "video" ∧ c ≠ "audio").
Proof.
  intros H.
  destruct (FFProbes3.read_streams stdout stderr) as [streams|e] eqn:Hs;
    [|by rewrite (init_read_failure _ _ _ Hs) in H].
  rewrite (init_outcome _ _ _ Hs) in H.
  destruct (Shape.first_fault streams) eqn:Ht; [done|].
  inversion H; subst; clear H. simpl.
  assert (∀ x : gmap string string,
            Segment.affirmed (FFStream.is_video x) = true →
            Segment.affirmed (FFStream.is_audio x) = false) as Hexcl.
  { intros x Hv. apply affirmed_true in Hv.
    destruct (is_video_Ok _ _ Hv) as (c & Hc & Hb).
    rewrite (is_audio_Some _ _ Hc).
    symmetry in Hb. apply String.eqb_eq in Hb as ->. done. }
  split_and!.
  - intros a [_ Hv]%list_elem_of_In%List.filter_In
             [_ Ha]%list_elem_of_In%List.filter_In.
    by rewrite (Hexcl a Hv) in Ha.
  - by apply filter_exclusive_length.
  - intros a Ha Hnv Hna.
    destruct (fault_None _ (first_fault_None _ _ Ht Ha)) as (_ & _ & c & Hc).
    exists c. split; [done|].
    split; intros ->.
    + apply Hnv, list_elem_of_In, List.filter_In. split; [by apply list_elem_of_In|].
      by rewrite (is_video_Some _ _ Hc).
    + apply Hna, list_elem_of_In, List.filter_In. split; [by apply list_elem_of_In|].
      by rewrite (is_audio_Some _ _ Hc).
Qed.

(** X5 on the run of two streams, one audio and one video. *)
Lemma X_views_disjoint_example :
  FFProbes3.__init__ Sample.stdout Sample.stderr
  = Ok (FFProbes3.Build [Sample.first_stream; Sample.second_stream]
          [Sample.second_stream] [Sample.first_stream])
  ∧ (length [Sample.second_stream] + length [Sample.first_stream]
     ≤ length [Sample.first_stream; Sample.second_stream])%nat.
Proof.
  assert (FFProbes3.__init__ Sample.stdout Sample.stderr
          = Ok (FFProbes3.Build [Sample.first_stream; Sample.second_stream]
                  [Sample.second_stream] [Sample.first_stream])) as E
    by reflexivity.
  split; [exact E|].
  exact (proj1 (proj2 (X_views_disjoint Sample.stdout Sample.stderr _ E))).
Defined.

(** ** The loops over consecutive inputs *)

Lemma blocks_from_app l1 l2 : ∀ pending,
  Segment.blocks_from pending (l1 ++ l2)
  = Segment.blocks_from pending l1
    ++ Segment.blocks_from (Segment.pending_after pending l1) l2.
Proof.
  induction l1 as [|a l1 IH]; intros pending; simpl; [done|].
  destruct (FFProbes3.is_start a); [apply IH|].
  destruct (FFProbes3.is_end a); [by rewrite IH | apply IH].
Qed.

Lemma pending_after_end l e : ∀ pending,
  FFProbes3.is_end e = true → Segment.pending_after pending (l ++ [e]) = [].
Proof.
  induction l as [|a l IH]; intros pending He; simpl.
  - rewrite He. by destruct (FFProbes3.is_start e).
  - destruct (FFProbes3.is_start a); [by apply IH|].
    destruct (FFProbes3.is_end a); by apply IH.
Qed.

Lemma traverse_app {A B} (f : A → result B) l1 l2 :
  Segment.traverse f (l1 ++ l2) =
    (ys1 <- Segment.traverse f l1 ;;
     ys2 <- Segment.traverse f l2 ;;
     Ok (ys1 ++ ys2)).
Proof.
  induction l1 as [|x l1 IH]; simpl.
  { by destruct (Segment.traverse f l2). }
  destruct (f x); simpl; [|done]. rewrite IH.
  destruct (Segment.traverse f l1); simpl; [|done].
  by destruct (Segment.traverse f l2).
Qed.

(** X6: input that follows an end marker is read on its own: the streams of the
    whole are the streams of the part up to the marker followed by the streams
    of the rest.  So when the first pipe ends with an end marker, the second is
    read as if it were alone. *)
Theorem X_streams_after_end_marker (stdout stderr : list string) (e : string) :
  FFProbes3.is_end e = true →
  FFProbes3.read_streams (stdout ++ [e]) stderr =
    (streams1 <- FFProbes3.read_streams (stdout ++ [e]) [] ;;
     streams2 <- FFProbes3.read_streams stderr [] ;;
     Ok (streams1 ++ streams2)).
Proof.
  intros He. rewrite !read_streams_blocks, !app_nil_r.
  unfold Segment.blocks. rewrite blocks_from_app, (pending_after_end _ _ _ He).
  apply traverse_app.
Qed.

(** X6 on a block on each pipe, the second without a start marker. *)
Lemma X_streams_after_end_marker_example :
  FFProbes3.is_end (Sample.ln "[/STREAM]") = true
  ∧ FFProbes3.read_streams
      ([Sample.ln "[STREAM]"; Sample.ln "a=1"] ++ [Sample.ln "[/STREAM]"])
      [Sample.ln "b=2"; Sample.ln "[/STREAM]"]
    = Ok [{[ "a" := "1" ]}; {[ "b" := "2" ]}].
Proof.
  split; [reflexivity|].
  rewrite (X_streams_after_end_marker
             [Sample.ln "[STREAM]"; Sample.ln "a=1"]
             [Sample.ln "b=2"; Sample.ln "[/STREAM]"]
             (Sample.ln "[/STREAM]") eq_refl).
  reflexivity.
Defined.

Lemma blocks_from_start junk s rest : ∀ pending,
  Forall (λ a, FFProbes3.is_end a = false) junk →
  FFProbes3.is_start s = true →
  Segment.blocks_from pending (junk ++ s :: rest) = Segment.blocks_from [] rest.
Proof.
  intros pending Hj Hs. revert pending.
  induction Hj as [|a junk Ha _ IH]; intros pending; simpl.
  - by rewrite Hs.
  - rewrite Ha. destruct (FFProbes3.is_start a); apply IH.
Qed.

(** X7: lines in front of a start marker, when none of them is an end marker,
    leave no trace: the start marker throws them away. *)
Theorem X_lines_before_start_marker (junk stdout stderr : list string)
    (s : string) :
  Forall (λ a, FFProbes3.is_end a = false) junk →
  FFProbes3.is_start s = true →
  FFProbes3.read_streams (junk ++ s :: stdout) stderr
  = FFProbes3.read_streams stdout stderr.
Proof.
  intros Hj Hs. rewrite !read_streams_blocks. unfold Segment.blocks.
  by rewrite <- app_assoc, <- app_comm_cons, (blocks_from_start _ _ _ _ Hj Hs).
Qed.

(** X7 on a banner and a stray line in front of a block. *)
Lemma X_lines_before_start_marker_example :
  FFProbes3.read_streams
    ([Sample.ln "ffprobe version 6.0"; Sample.ln "a=1"]
     ++ Sample.ln "[STREAM]" :: [Sample.ln "b=2"; Sample.ln "[/STREAM]"]) []
  = Ok [{[ "b" := "2" ]}].
Proof.
  rewrite (X_lines_before_start_marker
             [Sample.ln "ffprobe version 6.0"; Sample.ln "a=1"]
             [Sample.ln "b=2"; Sample.ln "[/STREAM]"] [] (Sample.ln "[STREAM]")).
  - reflexivity.
  - by repeat constructor.
  - reflexivity.
Defined.

(** ** White space at the end of a line *)

Lemma lstrip_all_space w : Shape.all_space w = true → Py.lstrip_by Py.isspace w = "".
Proof.
  induction w as [|c w IH]; simpl; [done|].
  intros [-> Hw]%andb_true_iff. by apply IH.
Qed.

Lemma rstrip_all_space w : Shape.all_space w = true → Py.rstrip_by Py.isspace w = "".
Proof.
  induction w as [|c w IH]; simpl; [done|].
  intros [-> Hw]%andb_true_iff. by rewrite (IH Hw).
Qed.

Lemma rstrip_app_space s w :
  Shape.all_space w = true →
  Py.rstrip_by Py.isspace (s +:+ w) = Py.rstrip_by Py.isspace s.
Proof.
  intros Hw. induction s as [|c s IH].
  - change ("" +:+ w) with w. by rewrite (rstrip_all_space _ Hw).
  - change (String c s +:+ w) with (String c (s +:+ w)). simpl. by rewrite IH.
Qed.

Lemma strip_app_space a w :
  Shape.all_space w = true → Py.strip (a +:+ w) = Py.strip a.
Proof.
  intros Hw. unfold Py.strip. induction a as [|c a IH].
  - change ("" +:+ w) with w. by rewrite (lstrip_all_space _ Hw).
  - change (String c a +:+ w) with (String c (a +:+ w)). simpl.
    destruct (Py.isspace c); [apply IH|].
    change (String c (a +:+ w)) with (String c a +:+ w).
    by apply rstrip_app_space.
Qed.

Lemma startswith_app_space p a w :
  Shape.no_space p = true → Shape.all_space w = true →
  Py.startswith p (a +:+ w) = Py.startswith p a.
Proof.
  intros Hp Hw. revert a. induction p as [|c p IH]; intros a; [done|].
  simpl in Hp. apply andb_true_iff in Hp as [Hc Hp].
  destruct a as [|d a].
  - change ("" +:+ w) with w. destruct w as [|e w]; [done|]. simpl.
    simpl in Hw. apply andb_true_iff in Hw as [He _].
    destruct (Ascii.eqb_spec c e) as [->|]; [|done].
    by rewrite He in Hc.
  - change (String d a +:+ w) with (String d (a +:+ w)). simpl. by rewrite IH.
Qed.

Section Eol.
Variable eol : string.
Hypothesis eol_space : Shape.all_space eol = true.

Lemma is_start_eol a : FFProbes3.is_start (a +:+ eol) = FFProbes3.is_start a.
Proof. rewrite !is_start_startswith. by apply startswith_app_space. Qed.

Lemma is_end_eol a : FFProbes3.is_end (a +:+ eol) = FFProbes3.is_end a.
Proof. rewrite !is_end_startswith. by apply startswith_app_space. Qed.

Lemma set_line_eol self a :
  FFStream.set_line self (a +:+ eol) = FFStream.set_line self a.
Proof. unfold FFStream.set_line. by rewrite (strip_app_space _ _ eol_space). Qed.

Lemma set_lines_eol data_lines : ∀ self,
  FFStream.set_lines self ((λ a, a +:+ eol) <$> data_lines)
  = FFStream.set_lines self data_lines.
Proof.
  induction data_lines as [|a rest IH]; intros self; [done|].
  rewrite fmap_cons. simpl. rewrite set_line_eol.
  destruct (FFStream.set_line self a); simpl; [apply IH | done].
Qed.

Lemma scan_eol lines : ∀ streams pending,
  FFProbes3.scan (streams, (λ a, a +:+ eol) <$> pending)
    ((λ a, a +:+ eol) <$> lines)
  = (st <- FFProbes3.scan (streams, pending) lines ;;
     Ok (st.1, (λ a, a +:+ eol) <$> st.2)).
Proof.
  induction lines as [|a rest IH]; intros streams pending; [done|].
  rewrite fmap_cons. simpl. rewrite is_start_eol, is_end_eol.
  destruct (FFProbes3.is_start a); simpl; [apply (IH streams [])|].
  destruct (FFProbes3.is_end a); simpl.
  - unfold FFStream.__init__. rewrite set_lines_eol.
    destruct (FFStream.set_lines ∅ pending) as [s|]; simpl; [|done].
    apply (IH (streams ++ [s]) []).
  - rewrite <- (IH streams (pending ++ [a])). by rewrite fmap_app.
Qed.

End Eol.

(** X8: white space at the end of the lines changes nothing: the loops return
    the same streams for lines with their line feed, with a carriage return and
    a line feed, or with none.  Markers are recognised at the front of a line
    and the constructor strips each line. *)
Theorem X_line_ends (eol : string) (stdout stderr : list string) :
  Shape.all_space eol = true →
  FFProbes3.read_streams ((λ a, a +:+ eol) <$> stdout) ((λ a, a +:+ eol) <$> stderr)
  = FFProbes3.read_streams stdout stderr.
Proof.
  intros Heol. unfold FFProbes3.read_streams.
  pose proof (scan_eol eol Heol stdout [] []) as H1.
  change ((λ a : string, a +:+ eol) <$> []) with (@nil string) in H1.
  rewrite H1.
  destruct (FFProbes3.scan ([], []) stdout) as [[streams pending]|]; simpl; [|done].
  rewrite (scan_eol eol Heol stderr streams pending).
  by destruct (FFProbes3.scan (streams, pending) stderr) as [[streams' pending']|].
Qed.

(** X8 on one block, each line with its line feed. *)
Lemma X_line_ends_example :
  FFProbes3.read_streams
    ((λ a, a +:+ Sample.line_feed) <$> ["[STREAM]"; "codec_type=audio"; "[/STREAM]"])
    []
  = Ok [{[ "codec_type" := "audio" ]}].
Proof.
  exact (eq_trans
           (X_line_ends Sample.line_feed
              ["[STREAM]"; "codec_type=audio"; "[/STREAM]"] [] eq_refl)
           eq_refl).
Defined.

(** ** The rate pattern on a value of a known shape *)

Lemma digits_run num rest :
  Direct.all_digits num = true → Shape.leading_digit rest = false →
  Direct.digits (num +:+ rest) = (num, rest).
Proof.
  intros Hn Hr. induction num as [|c num IH].
  - destruct rest as [|c rest]; [done|]. simpl in *. by rewrite Hr.
  - change (String c num +:+ rest) with (String c (num +:+ rest)).
    simpl in *. apply andb_true_iff in Hn as [Hc Hn]. by rewrite Hc, (IH Hn).
Qed.

Lemma rate_skip pre s :
  Shape.no_digit pre = true → Direct.rate (pre +:+ s) = Direct.rate s.
Proof.
  induction pre as [|c pre IH]; [done|].
  change (String c pre +:+ s) with (String c (pre +:+ s)).
  simpl. intros [Hc Hp]%andb_true_iff.
  unfold Direct.rate_here. simpl.
  apply negb_true_iff in Hc. rewrite Hc. by apply IH.
Qed.

Lemma rate_number_alone pre num rest :
  Shape.no_digit pre = true →
  num ≠ EmptyString → Direct.all_digits num = true →
  Shape.ends_number rest = true →
  Direct.rate (pre +:+ num +:+ rest) = Some (num, None).
Proof.
  intros Hp Hne Hn Hr. rewrite (rate_skip _ _ Hp), rate_unfold.
  assert (Shape.leading_digit rest = false) as Hl.
  { destruct rest as [|c rest]; [done|]. simpl in *.
    apply andb_true_iff in Hr as [Hc _]. by apply negb_true_iff. }
  unfold Direct.rate_here. rewrite (digits_run _ _ Hn Hl).
  destruct num as [|c num]; [done|].
  destruct rest as [|d rest]; [done|].
  simpl in Hr. apply andb_true_iff in Hr as [_ Hr].
  destruct (Ascii.eqb_spec d "/") as [->|Hd]; simpl in Hr.
  - apply negb_true_iff in Hr.
    destruct rest as [|d' rest]; [done|]. simpl in Hr. simpl. by rewrite Hr.
  - destruct d as [[] [] [] [] [] [] [] []]; done.
Qed.

Lemma rate_fraction pre num den rest :
  Shape.no_digit pre = true →
  num ≠ EmptyString → Direct.all_digits num = true →
  den ≠ EmptyString → Direct.all_digits den = true →
  Shape.leading_digit rest = false →
  Direct.rate (pre +:+ num +:+ String "/" (den +:+ rest)) = Some (num, Some den).
Proof.
  intros Hp Hne Hn Hde Hd Hr. rewrite (rate_skip _ _ Hp), rate_unfold.
  unfold Direct.rate_here.
  rewrite (digits_run num (String "/" (den +:+ rest)) Hn eq_refl).
  destruct num as [|c num]; [done|].
  rewrite (digits_run _ _ Hd Hr). by destruct den.
Qed.

Lemma lit_digits n :
  n ≠ EmptyString → Direct.all_digits n = true → Py.float n = Some (Spec.lit n).
Proof.
  intros Hne Hn. unfold Spec.lit.
  by rewrite (float_digits n ltac:(by destruct n) Hn).
Qed.

(** What either accessor computes from the groups of the match. *)
Lemma rate_of_groups raw num g2 :
  Direct.rate raw = Some (num, g2) →
  Py.except_ValueError (FFStream.rate_of raw) (Raise Spec.InvalidFrameRate) =
    match g2 with
    | Some den =>
        if Py.is_zero (Spec.lit den) then Raise ZeroDivisionError
        else Ok (Py.round2 (SFdiv Py.prec Py.emax (Spec.lit num) (Spec.lit den)))
    | None => Ok (Spec.lit num)
    end.
Proof.
  intros E. unfold FFStream.rate_of. rewrite search_rate, E. simpl.
  destruct (rate_digits _ _ _ E) as [[Tn Dn] Hden].
  destruct (rate_groups_lookup num g2) as [-> ->].
  rewrite Tn, (lit_digits num ltac:(by destruct num) Dn). simpl.
  destruct g2 as [den|]; [|done].
  destruct (Hden den eq_refl) as [Td Dd].
  rewrite Td, (lit_digits den ltac:(by destruct den) Dd). simpl.
  unfold Py.truediv. by destruct (Py.is_zero _).
Qed.

Lemma truthy_append_digits pre num rest :
  num ≠ EmptyString → Py.truthy (pre +:+ num +:+ rest) = true.
Proof. intros H. destruct pre; [by destruct num | done]. Qed.

(** X9: both accessors read the first run of digits of the value and nothing
    else, when no [/] and digit follow it: text before the digits, a sign, a
    decimal point and what follows it are all passed over, so that ["29.97"]
    gives 29.0 and ["-25"] gives 25.0. *)
Theorem X_rate_first_run_of_digits (self : gmap string string)
    (pre num rest : string) :
  Shape.no_digit pre = true →
  num ≠ "" → Direct.all_digits num = true →
  Shape.ends_number rest = true →
  (self !! "r_frame_rate" = Some (pre +:+ num +:+ rest) →
   FFStream.get_r_frame_rate self = Ok (Spec.lit num))
  ∧ (self !! "avg_frame_rate" = Some (pre +:+ num +:+ rest) →
     FFStream.get_avg_frame_rate self = Ok (Spec.lit num)).
Proof.
  intros Hp Hne Hn Hr.
  pose proof (rate_of_groups _ _ _ (rate_number_alone _ _ _ Hp Hne Hn Hr)) as E.
  split; intros H.
  - by rewrite (get_r_frame_rate_Some _ _ H), (truthy_append_digits _ _ _ Hne).
  - by rewrite (get_avg_frame_rate_Some _ _ H), (truthy_append_digits _ _ _ Hne).
Qed.

(** X9 on a rate written with a decimal point. *)
Lemma X_rate_first_run_of_digits_example :
  FFStream.get_r_frame_rate {[ "r_frame_rate" := "29.97" ]} = Ok (Spec.lit "29.0")
  ∧ FFStream.get_avg_frame_rate {[ "avg_frame_rate" := "29.97" ]}
    = Ok (Spec.lit "29.0").
Proof.
  split.
  - exact (proj1 (X_rate_first_run_of_digits {[ "r_frame_rate" := "29.97" ]}
                    "" "29" ".97" eq_refl ltac:(discriminate) eq_refl eq_refl)
             eq_refl).
  - exact (proj2 (X_rate_first_run_of_digits {[ "avg_frame_rate" := "29.97" ]}
                    "" "29" ".97" eq_refl ltac:(discriminate) eq_refl eq_refl)
             eq_refl).
Defined.

(** X10: both accessors on a value in which a [/] and a second run of digits
    follow the first run: the quotient of the two numbers rounded to two
    decimals, or [ZeroDivisionError] when the second number is zero; text
    before the first run and after the second is passed over. *)
Theorem X_rate_quotient (self : gmap string string)
    (pre num den rest : string) :
  Shape.no_digit pre = true →
  num ≠ "" → Direct.all_digits num = true →
  den ≠ "" → Direct.all_digits den = true →
  Shape.leading_digit rest = false →
  (self !! "r_frame_rate" = Some (pre +:+ num +:+ String "/" (den +:+ rest)) →
   FFStream.get_r_frame_rate self =
     if Py.is_zero (Spec.lit den) then Raise ZeroDivisionError
     else Ok (Py.round2 (SFdiv Py.prec Py.emax (Spec.lit num) (Spec.lit den))))
  ∧ (self !! "avg_frame_rate" = Some (pre +:+ num +:+ String "/" (den +:+ rest)) →
     FFStream.get_avg_frame_rate self =
       if Py.is_zero (Spec.lit den) then Raise ZeroDivisionError
       else Ok (Py.round2 (SFdiv Py.prec Py.emax (Spec.lit num) (Spec.lit den)))).
Proof.
  intros Hp Hne Hn Hde Hd Hr.
  pose proof (rate_of_groups _ _ _ (rate_fraction _ _ _ _ Hp Hne Hn Hde Hd Hr)) as E.
  split; intros H.
  - by rewrite (get_r_frame_rate_Some _ _ H), (truthy_append_digits _ _ _ Hne).
  - by rewrite (get_avg_frame_rate_Some _ _ H), (truthy_append_digits _ _ _ Hne).
Qed.

(** X10 on a rate with text around it. *)
Lemma X_rate_quotient_example :
  FFStream.get_r_frame_rate {[ "r_frame_rate" := "fps 24000/1001 (ntsc film)" ]}
  = Ok (Spec.lit "23.98").
Proof.
  exact (proj1 (X_rate_quotient {[ "r_frame_rate" := "fps 24000/1001 (ntsc film)" ]}
                  "fps " "24000" "1001" " (ntsc film)" eq_refl ltac:(discriminate)
                  eq_refl ltac:(discriminate) eq_refl eq_refl) eq_refl).
Defined.

Lemma all_zeros_digits s : Shape.all_zeros s = true → Direct.all_digits s = true.
Proof.
  induction s as [|c s IH]; simpl; [done|].
  intros [->%Ascii.eqb_eq Hs]%andb_true_iff. by rewrite (IH Hs).
Qed.

Lemma all_zeros_value s :
  Shape.all_zeros s = true → Py.digits_value (list_ascii_of_string s) = 0.
Proof.
  unfold Py.digits_value. induction s as [|c s IH]; simpl; [done|].
  by intros [->%Ascii.eqb_eq Hs]%andb_true_iff; apply IH.
Qed.

Lemma lit_zeros s :
  s ≠ EmptyString → Shape.all_zeros s = true → Spec.lit s = Py.fzero.
Proof.
  intros Hne Hz. unfold Spec.lit.
  rewrite (float_digits s ltac:(by destruct s) (all_zeros_digits _ Hz)).
  by rewrite (all_zeros_value _ Hz).
Qed.

(** X11: a denominator of zeros, as in the [0/0] that the class documentation
    quotes, makes both accessors raise [ZeroDivisionError], and with it
    [duration_seconds] on an audio or video stream whose [duration] is ["N/A"],
    whatever its frame count, when the stream has no field named [is_video],
    [is_audio] or [get_avg_frame_rate]. *)
Theorem X_zero_denominator (self : gmap string string)
    (pre num den rest : string) :
  Shape.no_digit pre = true →
  num ≠ "" → Direct.all_digits num = true →
  den ≠ "" → Shape.all_zeros den = true →
  Shape.leading_digit rest = false →
  (self !! "r_frame_rate" = Some (pre +:+ num +:+ String "/" (den +:+ rest)) →
   FFStream.get_r_frame_rate self = Raise ZeroDivisionError)
  ∧ (self !! "avg_frame_rate" = Some (pre +:+ num +:+ String "/" (den +:+ rest)) →
     FFStream.get_avg_frame_rate self = Raise ZeroDivisionError
     ∧ (Shape.unshadowed ["is_video"; "is_audio"; "get_avg_frame_rate"] self
        = true →
        FFStream.is_video self = Ok true ∨ FFStream.is_audio self = Ok true →
        self !! "duration" = Some "N/A" →
        FFStream.duration_seconds self = Raise ZeroDivisionError)).
Proof.
  intros Hp Hne Hn Hde Hz Hr.
  pose proof (rate_of_groups _ _ _
                (rate_fraction _ _ _ _ Hp Hne Hn Hde (all_zeros_digits _ Hz) Hr)) as E.
  cbv beta iota in E. rewrite (lit_zeros _ Hde Hz) in E. simpl in E.
  split; intros H.
  - by rewrite (get_r_frame_rate_Some _ _ H), (truthy_append_digits _ _ _ Hne).
  - assert (FFStream.get_avg_frame_rate self = Raise ZeroDivisionError) as Havg
      by (by rewrite (get_avg_frame_rate_Some _ _ H),
                     (truthy_append_digits _ _ _ Hne)).
    split; [done|].
    intros (Hiv & (Hia & (Hga & _)%unshadowed_cons)%unshadowed_cons)%unshadowed_cons
           Hav Hd.
    assert (Shape.unshadowed ["is_video"; "is_audio"] self = true) as Hfree
      by (by apply unshadowed_cons; split; [|apply unshadowed_cons]).
    by rewrite (duration_seconds_unfold self Hfree Hav _ Hd),
               (invoke_free _ _ _ Hga), Havg.
Qed.

(** X11 on an audio stream with the rate [0/0]. *)
Lemma X_zero_denominator_example :
  FFStream.get_avg_frame_rate
    {[ "codec_type" := "audio"; "duration" := "N/A"; "avg_frame_rate" := "0/0" ]}
  = Raise ZeroDivisionError
  ∧ FFStream.duration_seconds
      {[ "codec_type" := "audio"; "duration" := "N/A"; "avg_frame_rate" := "0/0" ]}
    = Raise ZeroDivisionError.
Proof.
  pose proof (proj2 (X_zero_denominator
                {[ "codec_type" := "audio"; "duration" := "N/A";
                   "avg_frame_rate" := "0/0" ]}
                "" "0" "0" "" eq_refl ltac:(discriminate) eq_refl
                ltac:(discriminate) eq_refl eq_refl) eq_refl) as [H1 H2].
  split; [exact H1 | exact (H2 eq_refl (or_intror eq_refl) eq_refl)].
Defined.

(** ** The exceptions of the rate accessors *)

Lemma rate_of_exceptions raw e :
  FFStream.rate_of raw = Raise e → e = ValueError ∨ e = ZeroDivisionError.
Proof.
  unfold FFStream.rate_of.
  destruct (Regex.search Re.rate raw) as [m|].
  - destruct (m !! 1%nat) as [g1|]; [|inversion 1; eauto].
    destruct (Py.truthy g1); [|inversion 1; eauto].
    destruct (Py.float g1) as [b|]; simpl; [|inversion 1; eauto].
    destruct (m !! 2%nat) as [den|]; [|done].
    destruct (Py.truthy den); [|done].
    destruct (Py.float den) as [d|]; simpl; [|inversion 1; eauto].
    unfold Py.truediv. destruct (Py.is_zero d); simpl; inversion 1; eauto.
  - destruct (Py.float raw); simpl; inversion 1; eauto.
Qed.

Lemma except_rate_of_exceptions raw e :
  Py.except_ValueError (FFStream.rate_of raw) (Raise Spec.InvalidFrameRate) = Raise e →
  e = ZeroDivisionError ∨ e = Spec.InvalidFrameRate.
Proof.
  destruct (FFStream.rate_of raw) as [x|e'] eqn:E; [done|].
  destruct (rate_of_exceptions _ _ E) as [->| ->]; simpl; inversion 1; eauto.
Qed.

Lemma get_r_frame_rate_exceptions self e :
  FFStream.get_r_frame_rate self = Raise e →
  (e = KeyError "r_frame_rate" ∧ self !! "r_frame_rate" = None)
  ∨ e = ZeroDivisionError ∨ e = Spec.InvalidFrameRate.
Proof.
  destruct (self !! "r_frame_rate") as [raw|] eqn:H.
  - rewrite (get_r_frame_rate_Some _ _ H). destruct (Py.truthy raw); [|done].
    intros [->| ->]%except_rate_of_exceptions; eauto.
  - unfold FFStream.get_r_frame_rate. rewrite (getitem_None _ _ H). simpl.
    inversion 1; eauto.
Qed.

Lemma get_avg_frame_rate_exceptions self e :
  FFStream.get_avg_frame_rate self = Raise e →
  (e = KeyError "avg_frame_rate" ∧ self !! "avg_frame_rate" = None)
  ∨ e = ZeroDivisionError ∨ e = Spec.InvalidFrameRate.
Proof.
  destruct (self !! "avg_frame_rate") as [raw|] eqn:H.
  - rewrite (get_avg_frame_rate_Some _ _ H). destruct (Py.truthy raw).
    + intros [->| ->]%except_rate_of_exceptions; eauto.
    + inversion 1; eauto.
  - unfold FFStream.get_avg_frame_rate. rewrite (getitem_None _ _ H). simpl.
    inversion 1; eauto.
Qed.

(** X12: a rate accessor raises nothing but [KeyError] for its own field, when
    the field is absent, [ZeroDivisionError], and the frame-rate error: no
    [ValueError] of a conversion and no [OverflowError] comes out of it. *)
Theorem X_rate_exceptions (self : gmap string string) (e : exn) :
  (FFStream.get_r_frame_rate self = Raise e →
   (e = KeyError "r_frame_rate" ∧ self !! "r_frame_rate" = None)
   ∨ e = ZeroDivisionError ∨ e = Spec.InvalidFrameRate)
  ∧ (FFStream.get_avg_frame_rate self = Raise e →
     (e = KeyError "avg_frame_rate" ∧ self !! "avg_frame_rate" = None)
     ∨ e = ZeroDivisionError ∨ e = Spec.InvalidFrameRate).
Proof.
  split; [apply get_r_frame_rate_exceptions | apply get_avg_frame_rate_exceptions].
Qed.

(** X12 on a stream without [r_frame_rate]. *)
Lemma X_rate_exceptions_example :
  FFStream.get_r_frame_rate Case.uncounted = Raise (KeyError "r_frame_rate")
  ∧ Case.uncounted !! "r_frame_rate" = None.
Proof.
  assert (FFStream.get_r_frame_rate Case.uncounted = Raise (KeyError "r_frame_rate"))
    as E by reflexivity.
  split; [exact E|].
  destruct (proj1 (X_rate_exceptions Case.uncounted _) E) as [[_ H]|[H|H]];
    [exact H | discriminate H | discriminate H].
Defined.

(** X13: the two accessors are one function of the raw value, the empty string
    apart: on a non-empty value they return or raise the same, and on the empty
    string [get_r_frame_rate] returns 0.0 where [get_avg_frame_rate] raises the
    frame-rate error. *)
Theorem X_rates_agree (self : gmap string string) (raw : string) :
  self !! "r_frame_rate" = Some raw →
  self !! "avg_frame_rate" = Some raw →
  (raw ≠ "" → FFStream.get_r_frame_rate self = FFStream.get_avg_frame_rate self)
  ∧ (raw = "" →
     FFStream.get_r_frame_rate self = Ok Py.fzero
     ∧ FFStream.get_avg_frame_rate self = Raise Spec.InvalidFrameRate).
Proof.
  intros Hr Ha.
  rewrite (get_r_frame_rate_Some _ _ Hr), (get_avg_frame_rate_Some _ _ Ha).
  split.
  - intros Hne. by rewrite (truthy_nonempty _ Hne).
  - by intros ->.
Qed.

(** X13 on the rate [1/0]. *)
Lemma X_rates_agree_example :
  FFStream.get_r_frame_rate Sample.zero_denominator
  = FFStream.get_avg_frame_rate Sample.zero_denominator.
Proof.
  exact (proj1 (X_rates_agree Sample.zero_denominator "1/0" eq_refl eq_refl)
           ltac:(discriminate)).
Defined.

(** ** Streams that are neither audio nor video, and streams without a type *)

Lemma applicable_Some self c :
  Shape.unshadowed ["is_video"; "is_audio"] self = true →
  self !! "codec_type" = Some c →
  FFStream.is_video_or_audio self
  = Ok (String.eqb c "video" || String.eqb c "audio").
Proof.
  intros (Hiv & (Hia & _)%unshadowed_cons)%unshadowed_cons H.
  unfold FFStream.is_video_or_audio.
  rewrite (invoke_free _ _ _ Hiv), (invoke_free _ _ _ Hia).
  rewrite (is_video_Some _ _ H), (is_audio_Some _ _ H). simpl.
  by destruct (String.eqb c "video").
Qed.

Lemma applicable_None self :
  self !! "is_video" = None →
  self !! "codec_type" = None →
  FFStream.is_video_or_audio self = Raise (KeyError "codec_type").
Proof.
  intros Hiv H. unfold FFStream.is_video_or_audio.
  by rewrite (invoke_free _ _ _ Hiv), (is_video_None _ H).
Qed.

Lemma applicable_shadowed self val :
  self !! "is_video" = Some val →
  FFStream.is_video_or_audio self = Raise TypeError.
Proof.
  intros H. unfold FFStream.is_video_or_audio.
  by rewrite (invoke_shadowed _ _ _ _ H).
Qed.

(** X14: on a stream that has no field named [is_video] or [is_audio] and
    whose [codec_type] is neither [video] nor [audio], the accessors that are
    guarded by the type return their defaults and read no other field.  On a
    stream without a [codec_type] the guard itself raises [KeyError], and on a
    stream with a field named [is_video] it raises [TypeError]. *)
Theorem X_guarded_accessors (self : gmap string string) :
  (Shape.unshadowed ["is_video"; "is_audio"] self = true →
   ∀ c, self !! "codec_type" = Some c → c ≠ "video" → c ≠ "audio" →
        FFStream.frames self = Ok (FFStream.Int 0)
        ∧ FFStream.duration_seconds self = Ok Py.fzero
        ∧ FFStream.frame_size self = Ok None
        ∧ FFStream.pixel_format self = Ok None)
  ∧ (self !! "is_video" = None → self !! "codec_type" = None →
     FFStream.frames self = Raise (KeyError "codec_type")
     ∧ FFStream.duration_seconds self = Raise (KeyError "codec_type")
     ∧ FFStream.frame_size self = Raise (KeyError "codec_type")
     ∧ FFStream.pixel_format self = Raise (KeyError "codec_type"))
  ∧ (∀ val, self !! "is_video" = Some val →
       FFStream.frames self = Raise TypeError
       ∧ FFStream.duration_seconds self = Raise TypeError
       ∧ FFStream.frame_size self = Raise TypeError
       ∧ FFStream.pixel_format self = Raise TypeError).
Proof.
  split_and!.
  - intros Hfree c Hc Hv Ha.
    pose proof Hfree as (Hiv & _)%unshadowed_cons.
    unfold FFStream.frames, FFStream.duration_seconds, FFStream.frame_size,
      FFStream.pixel_format.
    rewrite (applicable_Some _ _ Hfree Hc), (invoke_free _ _ _ Hiv),
      (is_video_Some _ _ Hc), (eqb_false_ne _ _ Hv), (eqb_false_ne _ _ Ha).
    done.
  - intros Hiv Hc.
    unfold FFStream.frames, FFStream.duration_seconds, FFStream.frame_size,
      FFStream.pixel_format.
    by rewrite (applicable_None _ Hiv Hc), (invoke_free _ _ _ Hiv),
               (is_video_None _ Hc).
  - intros val H.
    unfold FFStream.frames, FFStream.duration_seconds, FFStream.frame_size,
      FFStream.pixel_format.
    by rewrite (applicable_shadowed _ _ H), (invoke_shadowed _ _ _ _ H).
Qed.

(** X14 on a subtitle stream, the empty store and a subtitle stream with a
    field named [is_video]. *)
Lemma X_guarded_accessors_example :
  FFStream.frames {[ "codec_type" := "subtitle" ]} = Ok (FFStream.Int 0)
  ∧ FFStream.duration_seconds {[ "codec_type" := "subtitle" ]} = Ok Py.fzero
  ∧ FFStream.frames ∅ = Raise (KeyError "codec_type")
  ∧ FFStream.frames {[ "codec_type" := "subtitle"; "is_video" := "x" ]}
    = Raise TypeError.
Proof.
  destruct (proj1 (X_guarded_accessors {[ "codec_type" := "subtitle" ]})
              ltac:(by vm_compute)
              "subtitle" ltac:(by vm_compute) ltac:(discriminate)
              ltac:(discriminate))
    as (H1 & H2 & _).
  split_and!; [exact H1 | exact H2 | |].
  - exact (proj1 (proj1 (proj2 (X_guarded_accessors ∅)) eq_refl eq_refl)).
  - exact (proj1 (proj2 (proj2 (X_guarded_accessors
                                  {[ "codec_type" := "subtitle";
                                     "is_video" := "x" ]}))
                    "x" ltac:(by vm_compute))).
Defined.

(** ** The failures of [frames] *)

Lemma invoke_Raise {A} name (method : gmap string string → result A) self e :
  Attr.invoke name method self = Raise e →
  (e = TypeError ∧ self !! name ≠ None)
  ∨ (self !! name = None ∧ method self = Raise e).
Proof.
  unfold Attr.invoke, Attr.call. destruct (self !! name).
  - intros [= <-]. by left.
  - intros H. by right.
Qed.

Lemma unshadowed_false name names self :
  name ∈ names → self !! name ≠ None → Shape.unshadowed names self = false.
Proof.
  intros Hin Hne. apply not_true_is_false. intros H. apply Hne. clear Hne.
  induction names as [|n names IH]; [by apply elem_of_nil in Hin|].
  apply unshadowed_cons in H as [Hn H].
  apply elem_of_cons in Hin as [->|Hin]; [done | by apply IH].
Qed.

Lemma frames_tag_exceptions self tag e :
  Py.except_ValueError
    (if Py.truthy tag then
       match Regex.search Re.duration tag with
       | Some m =>
           c1 <- FFStream.add_group 0 (m !! 1%nat) (60 * 60) ;;
           c2 <- FFStream.add_group c1 (m !! 2%nat) 60 ;;
           c3 <- FFStream.add_group c2 (m !! 3%nat) 1 ;;
           fps <- Attr.invoke "get_r_frame_rate" FFStream.get_r_frame_rate self ;;
           x <- Py.int_to_float c3 ;;
           Ok (FFStream.Float (Py.mul x fps))
       | None => Ok (FFStream.Int 0)
       end
     else Raise ValueError)
    (Raise Spec.MalformedFrameCount) = Raise e →
  (e = Spec.MalformedFrameCount ∧ tag = EmptyString)
  ∨ (Attr.invoke "get_r_frame_rate" FFStream.get_r_frame_rate self = Raise e
     ∧ Regex.search Re.duration tag ≠ None).
Proof.
  destruct tag as [|c tag]; [inversion 1; eauto|].
  change (Py.truthy (String c tag)) with true. cbv iota.
  rewrite search_duration.
  destruct (Direct.duration (String c tag)) as [[[[g1 g2] g3] g4]|] eqn:E; [|done].
  change (Direct.duration_groups <$> Some (g1, g2, g3, g4))
    with (Some (Direct.duration_groups (g1, g2, g3, g4))). cbv iota.
  destruct (duration_groups_lookup g1 g2 g3 g4) as (-> & -> & -> & _).
  destruct (duration_digit_groups _ _ _ _ _ E) as (G1 & G2 & G3).
  pose proof (duration_values _ _ _ _ _ E) as Hsecs.
  rewrite (add_group_digits _ _ _ G1). simpl Py.bind.
  rewrite (add_group_digits _ _ _ G2). simpl Py.bind.
  rewrite (add_group_digits _ _ _ G3). simpl Py.bind.
  pose proof (invoke_no_ValueError "get_r_frame_rate" _ self
                (get_r_frame_rate_no_ValueError self)) as Hr.
  destruct (Attr.invoke "get_r_frame_rate" FFStream.get_r_frame_rate self)
    as [fps|e'] eqn:Efps.
  - simpl Py.bind. rewrite int_to_float_small by lia. done.
  - simpl. intros H. right. split; [|done].
    destruct e'; simpl in H; congruence.
Qed.

(** Why the guard of [frames] and [duration_seconds] fails on a stream that
    is audio or video. *)
Lemma applicable_raises self e :
  FFStream.is_video self = Ok true ∨ FFStream.is_audio self = Ok true →
  FFStream.is_video_or_audio self = Raise e →
  e = TypeError ∧ Shape.unshadowed ["is_video"; "is_audio"] self = false.
Proof.
  intros Hav. unfold FFStream.is_video_or_audio.
  assert (∃ c, self !! "codec_type" = Some c) as [c Hc].
  { destruct Hav as [H|H].
    - destruct (is_video_Ok _ _ H) as (c & Hc & _). eauto.
    - destruct (is_audio_Ok _ _ H) as (c & Hc & _). eauto. }
  destruct (self !! "is_video") as [x|] eqn:Hiv.
  { rewrite (invoke_shadowed _ _ _ _ Hiv). intros [= <-]. split; [done|].
    apply (unshadowed_false "is_video"); [apply list_elem_of_In; simpl; tauto | by rewrite Hiv]. }
  rewrite (invoke_free _ _ _ Hiv), (is_video_Some _ _ Hc). simpl.
  destruct (String.eqb c "video"); [done|].
  destruct (self !! "is_audio") as [y|] eqn:Hia.
  - rewrite (invoke_shadowed _ _ _ _ Hia). intros [= <-]. split; [done|].
    apply (unshadowed_false "is_audio"); [apply list_elem_of_In; simpl; tauto | by rewrite Hia].
  - by rewrite (invoke_free _ _ _ Hia), (is_audio_Some _ _ Hc).
Qed.

Lemma applicable_Ok_false self :
  FFStream.is_video self = Ok true ∨ FFStream.is_audio self = Ok true →
  FFStream.is_video_or_audio self ≠ Ok false.
Proof.
  intros Hav. unfold FFStream.is_video_or_audio.
  destruct (self !! "is_video") as [x|] eqn:Hiv.
  { by rewrite (invoke_shadowed _ _ _ _ Hiv). }
  rewrite (invoke_free _ _ _ Hiv).
  destruct Hav as [->|Ha]; [done|].
  destruct (FFStream.is_video self) as [[]|]; simpl; [done| |done].
  destruct (self !! "is_audio") as [y|] eqn:Hia.
  - by rewrite (invoke_shadowed _ _ _ _ Hia).
  - by rewrite (invoke_free _ _ _ Hia), Ha.
Qed.

Lemma frames_raises (self : gmap string string) (e : exn) :
  FFStream.is_video self = Ok true ∨ FFStream.is_audio self = Ok true →
  FFStream.frames self = Raise e →
  (e = TypeError
   ∧ Shape.unshadowed ["is_video"; "is_audio"; "get_r_frame_rate"] self = false)
  ∨ (e = KeyError "nb_frames" ∧ self !! "nb_frames" = None)
  ∨ (e = Spec.MalformedFrameCount
     ∧ ∃ nb, self !! "nb_frames" = Some nb ∧ nb ≠ "N/A" ∧ Py.int nb = None)
  ∨ (self !! "nb_frames" = Some "N/A"
     ∧ ((e = KeyError "TAG:DURATION" ∧ self !! "TAG:DURATION" = None)
        ∨ (e = Spec.MalformedFrameCount ∧ self !! "TAG:DURATION" = Some "")
        ∨ (FFStream.get_r_frame_rate self = Raise e
           ∧ ∃ tag, self !! "TAG:DURATION" = Some tag
                    ∧ Regex.search Re.duration tag ≠ None))).
Proof.
  intros Hav.
  destruct (FFStream.is_video_or_audio self) as [[]|e0] eqn:Hg.
  - destruct (self !! "nb_frames") as [nb|] eqn:Hnb.
    + rewrite (frames_guarded self nb Hg Hnb).
      destruct (String.eqb_spec nb "N/A") as [->|Hne]; simpl negb; cbv iota.
      * intros H.
        destruct (self !! "TAG:DURATION") as [tag|] eqn:Htag.
        -- rewrite (getitem_Some _ _ _ Htag) in H. simpl Py.bind in H.
           destruct (frames_tag_exceptions _ _ _ H) as [[-> ->]|[Hr Hm]];
             [eauto 8|].
           destruct (invoke_Raise _ _ _ _ Hr) as [[-> Hk]|[_ Hr']].
           ++ left. split; [done|].
              apply (unshadowed_false "get_r_frame_rate"); [apply list_elem_of_In; simpl; tauto | done].
           ++ right. right. right. eauto 8.
        -- rewrite (getitem_None _ _ Htag) in H. simpl in H.
           inversion H; eauto 8.
      * destruct (Py.int nb) eqn:Hint; simpl; [done|].
        inversion 1; subst. right. right. left. eauto.
    + unfold FFStream.frames. rewrite Hg. simpl.
      rewrite (getitem_None _ _ Hnb). simpl. inversion 1; eauto.
  - by destruct (applicable_Ok_false _ Hav).
  - unfold FFStream.frames. rewrite Hg. simpl. intros [= <-].
    destruct (applicable_raises _ _ Hav Hg) as [-> Hu]. left. split; [done|].
    apply not_true_is_false. intros H.
    apply unshadowed_cons in H as [Hiv [Hia _]%unshadowed_cons].
    assert (Shape.unshadowed ["is_video"; "is_audio"] self = true) as H'
      by (by apply unshadowed_cons; split; [|apply unshadowed_cons]).
    by rewrite H' in Hu.
Qed.

(** X15: what [frames] raises on an audio or video stream, and when:
    [TypeError], only when the stream has a field named [is_video], [is_audio]
    or [get_r_frame_rate]; [KeyError] for [nb_frames] when that field is
    absent, whatever the duration tag holds; the frame-count error when
    [nb_frames] is neither ["N/A"] nor an integer literal; and when [nb_frames]
    is ["N/A"], [KeyError] for an absent [TAG:DURATION], the frame-count error
    for an empty one, and for a tag that the pattern matches whatever
    [get_r_frame_rate] raises.  Nothing else comes out of it: no [ValueError]
    and no [OverflowError]. *)
Theorem X_frames_failures (self : gmap string string) (e : exn) :
  FFStream.is_video self = Ok true ∨ FFStream.is_audio self = Ok true →
  FFStream.frames self = Raise e →
  (e = TypeError
   ∧ Shape.unshadowed ["is_video"; "is_audio"; "get_r_frame_rate"] self = false)
  ∨ (e = KeyError "nb_frames" ∧ self !! "nb_frames" = None)
  ∨ (e = Spec.MalformedFrameCount
     ∧ ∃ nb, self !! "nb_frames" = Some nb ∧ nb ≠ "N/A" ∧ Py.int nb = None)
  ∨ (self !! "nb_frames" = Some "N/A"
     ∧ ((e = KeyError "TAG:DURATION" ∧ self !! "TAG:DURATION" = None)
        ∨ (e = Spec.MalformedFrameCount ∧ self !! "TAG:DURATION" = Some "")
        ∨ (FFStream.get_r_frame_rate self = Raise e
           ∧ ∃ tag, self !! "TAG:DURATION" = Some tag
                    ∧ Regex.search Re.duration tag ≠ None))).
Proof. apply frames_raises. Qed.

(** X15 on a video stream with a duration tag and no [nb_frames]. *)
Lemma X_frames_failures_example :
  FFStream.is_video Case.uncounted = Ok true
  ∧ FFStream.frames Case.uncounted = Raise (KeyError "nb_frames")
  ∧ Case.uncounted !! "nb_frames" = None.
Proof.
  assert (FFStream.frames Case.uncounted = Raise (KeyError "nb_frames")) as E
    by reflexivity.
  split_and!; [reflexivity | exact E |].
  destruct (X_frames_failures Case.uncounted _ (or_introl eq_refl) E)
    as [[H _]|[[_ H]|[[H _]|[H _]]]];
    [discriminate H | exact H | discriminate H | discriminate H].
Defined.

(** ** The timestamp pattern on a timestamp *)

Lemma two_digits_pair p r :
  Shape.pair p = true →
  ∃ g, Direct.two_digits (p +:+ r) = Some (g, r)
       ∧ Tag.group_value g = Shape.value p.
Proof.
  destruct p as [|a [|b [|]]]; try done. simpl.
  intros [Ha Hb]%andb_true_iff.
  change (String a (String b "") +:+ r) with (String a (String b r)).
  unfold Direct.two_digits.
  destruct (Ascii.eqb_spec a "0") as [->|Hna].
  - destruct (Ascii.eqb_spec b "0") as [->|Hnb]; simpl.
    + by exists None.
    + rewrite Hb. by eexists (Some _).
  - simpl. rewrite Ha, Hb. by eexists (Some _).
Qed.

Lemma colon_pair sep p r :
  Shape.colon sep = true → Shape.pair p = true →
  Direct.colon (sep +:+ p +:+ r) = p +:+ r.
Proof.
  intros Hs Hp. destruct p as [|a [|b [|]]]; try done.
  simpl in Hp. apply andb_true_iff in Hp as [Ha _].
  apply orb_true_iff in Hs as [->%String.eqb_eq| ->%String.eqb_eq]; [|done].
  change ("" +:+ String a (String b "") +:+ r) with (String a (String b r)).
  destruct a as [[] [] [] [] [] [] [] []]; done.
Qed.

Lemma digits_nonempty frac rest :
  frac ≠ EmptyString → Direct.all_digits frac = true →
  ∃ c f r, Direct.digits (frac +:+ rest) = (String c f, r).
Proof.
  destruct frac as [|c frac]; [done|]. intros _ [Hc _]%andb_true_iff.
  change (String c frac +:+ rest) with (String c (frac +:+ rest)).
  simpl. rewrite Hc. destruct (Direct.digits (frac +:+ rest)). eauto.
Qed.

Lemma duration_timestamp hh c1 mm c2 ss frac rest :
  Shape.pair hh = true → Shape.colon c1 = true →
  Shape.pair mm = true → Shape.colon c2 = true →
  Shape.pair ss = true →
  frac ≠ EmptyString → Direct.all_digits frac = true →
  ∃ g1 g2 g3 g4,
    Direct.duration (hh +:+ c1 +:+ mm +:+ c2 +:+ ss +:+ String "." (frac +:+ rest))
    = Some (g1, g2, g3, g4)
    ∧ Tag.group_value g1 = Shape.value hh
    ∧ Tag.group_value g2 = Shape.value mm
    ∧ Tag.group_value g3 = Shape.value ss.
Proof.
  intros Hh H1 Hm H2 Hs Hne Hf. unfold Direct.duration.
  destruct (two_digits_pair hh (c1 +:+ mm +:+ c2 +:+ ss +:+ String "." (frac +:+ rest)) Hh)
    as (g1 & -> & V1).
  rewrite (colon_pair _ _ _ H1 Hm).
  destruct (two_digits_pair mm (c2 +:+ ss +:+ String "." (frac +:+ rest)) Hm)
    as (g2 & -> & V2).
  rewrite (colon_pair _ _ _ H2 Hs).
  destruct (two_digits_pair ss (String "." (frac +:+ rest)) Hs) as (g3 & -> & V3).
  destruct (digits_nonempty frac rest Hne Hf) as (c & f & r & ->).
  by exists g1, g2, g3, (String c f).
Qed.

(** X16: the frame count of an audio or video stream whose [nb_frames] is
    ["N/A"] and whose duration tag begins with a timestamp: two digits of
    hours, of minutes and of seconds, each colon optional, a point and at least
    one digit.  When the stream has no field named [is_video], [is_audio] or
    [get_r_frame_rate], it is the whole seconds times [get_r_frame_rate], as a
    float; the digits after the point and what follows them play no part, and
    what [get_r_frame_rate] raises, [frames] raises.  With a field named
    [get_r_frame_rate] it is [TypeError]. *)
Theorem X_frames_from_timestamp (self : gmap string string)
    (hh c1 mm c2 ss frac rest : string) :
  Shape.unshadowed ["is_video"; "is_audio"] self = true →
  FFStream.is_video self = Ok true ∨ FFStream.is_audio self = Ok true →
  self !! "nb_frames" = Some "N/A" →
  Shape.pair hh = true → Shape.colon c1 = true →
  Shape.pair mm = true → Shape.colon c2 = true →
  Shape.pair ss = true →
  frac ≠ "" → Direct.all_digits frac = true →
  self !! "TAG:DURATION"
  = Some (hh +:+ c1 +:+ mm +:+ c2 +:+ ss +:+ String "." (frac +:+ rest)) →
  (self !! "get_r_frame_rate" = None →
   FFStream.frames self =
     (fps <- FFStream.get_r_frame_rate self ;;
      Ok (FFStream.Float
            (Py.mul
               (Py.of_Z (Shape.value hh * 3600 + Shape.value mm * 60
                         + Shape.value ss))
               fps))))
  ∧ (∀ val, self !! "get_r_frame_rate" = Some val →
       FFStream.frames self = Raise TypeError).
Proof.
  intros Hfree Hav Hnb Hh H1 Hm H2 Hs Hne Hf Htag.
  destruct (duration_timestamp hh c1 mm c2 ss frac rest Hh H1 Hm H2 Hs Hne Hf)
    as (g1 & g2 & g3 & g4 & E & <- & <- & <-).
  rewrite (frames_from_tag self _ (Direct.duration_groups (g1, g2, g3, g4))
             Hfree Hav Hnb Htag); [|by rewrite search_duration, E].
  destruct (duration_groups_lookup g1 g2 g3 g4) as (-> & -> & -> & _).
  split.
  - intros Hk. by rewrite (invoke_free _ _ _ Hk).
  - intros val Hk. by rewrite (invoke_shadowed _ _ _ _ Hk).
Qed.

(** X16 on a tag with one colon missing and text after the timestamp. *)
Lemma X_frames_from_timestamp_example :
  FFStream.frames
    {[ "codec_type" := "audio"; "nb_frames" := "N/A"; "r_frame_rate" := "25/1";
       "TAG:DURATION" := "01:0230.5 approx" ]}
  = Ok (FFStream.Float (Spec.lit "93750.0")).
Proof.
  exact (proj1 (X_frames_from_timestamp
           {[ "codec_type" := "audio"; "nb_frames" := "N/A"; "r_frame_rate" := "25/1";
              "TAG:DURATION" := "01:0230.5 approx" ]}
           "01" ":" "02" "" "30" "5" " approx"
           eq_refl (or_intror eq_refl) eq_refl eq_refl eq_refl eq_refl eq_refl
           eq_refl ltac:(discriminate) eq_refl eq_refl) eq_refl).
Defined.

(** ** [bit_rate] *)

Lemma bit_rate_Some self raw :
  self !! "bit_rate" = Some raw →
  FFStream.bit_rate self =
    if Py.truthy raw then
      match Py.int raw with
      | Some n => Ok n
      | None => Raise (FFProbeError "None integer bit_rate")
      end
    else Ok 0.
Proof.
  intros H. unfold FFStream.bit_rate. rewrite (getitem_Some _ _ _ H). simpl.
  destruct (Py.truthy raw); [|done]. by destruct (Py.int raw).
Qed.

(** X17: [stream.bit_rate()] never returns.  The method reads the field of its
    own name: when the stream has the field, the name [bit_rate] on the
    instance is that string and calling it raises [TypeError]; when it has not,
    the method runs and its lookup raises [KeyError].  Only the function taken
    from the class, [FFStream.bit_rate(stream)], can return: the integer that
    the field denotes, and 0 for the empty string. *)
Theorem X_bit_rate_call_never_returns (self : gmap string string) :
  (∀ n, Attr.call "bit_rate" FFStream.bit_rate self ≠ Attr.Returns (Ok n))
  ∧ (self !! "bit_rate" = None →
     Attr.call "bit_rate" FFStream.bit_rate self
     = Attr.Returns (Raise (KeyError "bit_rate")))
  ∧ (∀ raw, self !! "bit_rate" = Some raw →
       Attr.call "bit_rate" FFStream.bit_rate self = Attr.NotCallable raw
       ∧ FFStream.bit_rate self =
           if Py.truthy raw then
             match Py.int raw with
             | Some n => Ok n
             | None => Raise (FFProbeError "None integer bit_rate")
             end
           else Ok 0).
Proof.
  unfold Attr.call.
  destruct (self !! "bit_rate") as [raw|] eqn:H.
  - split_and!; [done | done |].
    intros ? [= <-]. split; [done | by apply bit_rate_Some].
  - split_and!; [|by intros _; unfold FFStream.bit_rate; rewrite (getitem_None _ _ H)|done].
    intros n. unfold FFStream.bit_rate. rewrite (getitem_None _ _ H). done.
Qed.

(** X17 on a stream with a bit rate and the empty store. *)
Lemma X_bit_rate_call_never_returns_example :
  Attr.call "bit_rate" FFStream.bit_rate {[ "bit_rate" := "128000" ]}
  = Attr.NotCallable "128000"
  ∧ FFStream.bit_rate {[ "bit_rate" := "128000" ]} = Ok 128000
  ∧ Attr.call "bit_rate" FFStream.bit_rate ∅
    = Attr.Returns (Raise (KeyError "bit_rate")).
Proof.
  destruct (proj2 (proj2 (X_bit_rate_call_never_returns
                            {[ "bit_rate" := "128000" ]})) "128000"
              ltac:(by vm_compute))
    as [H1 H2].
  split_and!; [exact H1 | exact H2 |].
  exact (proj1 (proj2 (X_bit_rate_call_never_returns ∅)) eq_refl).
Defined.

(** ** The accessors of a stream that the constructor built *)

Lemma field_or_None_lookup self key :
  FFStream.field_or_None self key = Shape.handed_out key (self !! key).
Proof.
  unfold FFStream.field_or_None, FFStream.getitem.
  destruct (self !! key) as [val|]; simpl; [|done]. by destruct (Py.truthy val).
Qed.

Lemma init_Ok_lines data_lines self :
  FFStream.__init__ data_lines = Ok self →
  ∀ key, self !! key = Spec.last_written key (Segment.write_of <$> data_lines).
Proof.
  intros H key.
  destruct (FFStream_init_outcome data_lines) as [[Hall _]|[_ Hex]];
    [|by rewrite Hex in H].
  destruct (set_lines_all data_lines ∅ Hall) as (self' & E & Hlook).
  unfold FFStream.__init__ in H. rewrite E in H. inversion H; subst.
  rewrite Hlook. destruct (Spec.last_written key _); [done | apply lookup_empty].
Qed.

(** X18: from the lines of a block to the four accessors that hand a field
    out, called on the stream that the constructor builds.  When a line of the
    block has the name of the accessor as its key, as the [codec_tag] line of
    ffprobe has, the call raises [TypeError]; otherwise it returns the value
    that the last line with the key of its field wrote, [None] when that value
    is empty, and raises [KeyError] when no line has that key. *)
Theorem X_fields_of_a_block (data_lines : list string)
    (self : gmap string string) :
  FFStream.__init__ data_lines = Ok self →
  Attr.call "language" FFStream.language self
  = Shape.called "language" "TAG:language" (Segment.write_of <$> data_lines)
  ∧ Attr.call "codec" FFStream.codec self
    = Shape.called "codec" "codec_name" (Segment.write_of <$> data_lines)
  ∧ Attr.call "codec_description" FFStream.codec_description self
    = Shape.called "codec_description" "codec_long_name"
        (Segment.write_of <$> data_lines)
  ∧ Attr.call "codec_tag" FFStream.codec_tag self
    = Shape.called "codec_tag" "codec_tag_string"
        (Segment.write_of <$> data_lines).
Proof.
  intros H.
  unfold Attr.call, Shape.called, FFStream.language, FFStream.codec,
    FFStream.codec_description, FFStream.codec_tag.
  by rewrite !field_or_None_lookup, !(init_Ok_lines _ _ H).
Qed.

(** X18 on a block that names its codec twice, and on one that has the
    [codec_tag] line of ffprobe. *)
Lemma X_fields_of_a_block_example :
  FFStream.__init__ Case.named
  = Ok {[ "codec_name" := "mp3"; "TAG:language" := "" ]}
  ∧ Attr.call "language" FFStream.language
      {[ "codec_name" := "mp3"; "TAG:language" := "" ]}
    = Attr.Returns (Ok None)
  ∧ Attr.call "codec" FFStream.codec
      {[ "codec_name" := "mp3"; "TAG:language" := "" ]}
    = Attr.Returns (Ok (Some "mp3"))
  ∧ Attr.call "codec_description" FFStream.codec_description
      {[ "codec_name" := "mp3"; "TAG:language" := "" ]}
    = Attr.Returns (Raise (KeyError "codec_long_name"))
  ∧ FFStream.__init__ Case.with_codec_tag
    = Ok {[ "codec_tag_string" := "avc1"; "codec_tag" := "0x31637661" ]}
  ∧ Attr.call "codec_tag" FFStream.codec_tag
      {[ "codec_tag_string" := "avc1"; "codec_tag" := "0x31637661" ]}
    = Attr.NotCallable "0x31637661".
Proof.
  assert (FFStream.__init__ Case.named
          = Ok {[ "codec_name" := "mp3"; "TAG:language" := "" ]}) as E
    by reflexivity.
  assert (FFStream.__init__ Case.with_codec_tag
          = Ok {[ "codec_tag_string" := "avc1"; "codec_tag" := "0x31637661" ]})
    as E' by reflexivity.
  destruct (X_fields_of_a_block Case.named _ E) as (H1 & H2 & H3 & _).
  destruct (X_fields_of_a_block Case.with_codec_tag _ E') as (_ & _ & _ & H4).
  split_and!; [exact E | exact H1 | exact H2 | exact H3 | exact E' | exact H4].
Defined.

(** ** No [ValueError] *)

Lemma except_FFProbeError {A} (m : result A) msg :
  Py.except_ValueError m (Raise (FFProbeError msg)) ≠ Raise ValueError.
Proof. by apply except_ValueError_other. Qed.

Lemma bind_getitem_no_ValueError {A} self key (k : string → result A) :
  (∀ val, k val ≠ Raise ValueError) →
  Py.bind (FFStream.getitem self key) k ≠ Raise ValueError.
Proof.
  intros H. unfold FFStream.getitem. destruct (self !! key); simpl; [apply H|done].
Qed.

Lemma bind_bool_no_ValueError {A} (m : result bool) (k : bool → result A) :
  m ≠ Raise ValueError → (∀ b, k b ≠ Raise ValueError) →
  Py.bind m k ≠ Raise ValueError.
Proof.
  intros Hm Hk. destruct m as [b|e]; simpl; [apply Hk|].
  intros [= ->]. by apply Hm.
Qed.

Lemma is_video_no_ValueError self : FFStream.is_video self ≠ Raise ValueError.
Proof.
  destruct (self !! "codec_type") as [c|] eqn:H.
  - by rewrite (is_video_Some _ _ H).
  - by rewrite (is_video_None _ H).
Qed.

Lemma is_audio_no_ValueError self : FFStream.is_audio self ≠ Raise ValueError.
Proof.
  destruct (self !! "codec_type") as [c|] eqn:H.
  - by rewrite (is_audio_Some _ _ H).
  - by rewrite (is_audio_None _ H).
Qed.

Lemma is_subtitle_no_ValueError self : FFStream.is_subtitle self ≠ Raise ValueError.
Proof.
  destruct (self !! "codec_type") as [c|] eqn:H.
  - by rewrite (is_subtitle_Some _ _ H).
  - by rewrite (is_subtitle_None _ H).
Qed.

Lemma applicable_no_ValueError self :
  FFStream.is_video_or_audio self ≠ Raise ValueError.
Proof.
  apply bind_bool_no_ValueError;
    [apply invoke_no_ValueError, is_video_no_ValueError|].
  intros [|]; [done|]. apply invoke_no_ValueError, is_audio_no_ValueError.
Qed.

(** X19: no method of a stream lets a [ValueError] out: every conversion by
    [int] or [float] sits in a [try] that turns the [ValueError] into an
    [FFProbeError].  (The constructor does raise it, when it unpacks a line.)
    *)
Theorem X_no_ValueError (self : gmap string string) :
  FFStream.is_audio self ≠ Raise ValueError
  ∧ FFStream.is_video self ≠ Raise ValueError
  ∧ FFStream.is_subtitle self ≠ Raise ValueError
  ∧ FFStream.frame_size self ≠ Raise ValueError
  ∧ FFStream.pixel_format self ≠ Raise ValueError
  ∧ FFStream.frames self ≠ Raise ValueError
  ∧ FFStream.duration_seconds self ≠ Raise ValueError
  ∧ FFStream.language self ≠ Raise ValueError
  ∧ FFStream.codec self ≠ Raise ValueError
  ∧ FFStream.codec_description self ≠ Raise ValueError
  ∧ FFStream.codec_tag self ≠ Raise ValueError
  ∧ FFStream.bit_rate self ≠ Raise ValueError
  ∧ FFStream.get_r_frame_rate self ≠ Raise ValueError
  ∧ FFStream.get_avg_frame_rate self ≠ Raise ValueError.
Proof.
  split_and!.
  - apply is_audio_no_ValueError.
  - apply is_video_no_ValueError.
  - apply is_subtitle_no_ValueError.
  - apply bind_bool_no_ValueError;
      [apply invoke_no_ValueError, is_video_no_ValueError|].
    intros [|]; [|done].
    apply bind_getitem_no_ValueError. intros width.
    apply bind_getitem_no_ValueError. intros height.
    destruct (Py.truthy width && Py.truthy height); [|done].
    apply except_FFProbeError.
  - apply bind_bool_no_ValueError;
      [apply invoke_no_ValueError, is_video_no_ValueError|].
    intros [|]; [|done].
    apply bind_getitem_no_ValueError. intros f.
    destruct (Py.truthy f); [|done].
    by apply bind_getitem_no_ValueError.
  - apply bind_bool_no_ValueError; [apply applicable_no_ValueError|].
    intros [|]; [|done]. apply except_FFProbeError.
  - apply bind_bool_no_ValueError; [apply applicable_no_ValueError|].
    intros [|]; [|done]. apply except_FFProbeError.
  - unfold FFStream.language. rewrite field_or_None_lookup. by destruct (self !! _).
  - unfold FFStream.codec. rewrite field_or_None_lookup. by destruct (self !! _).
  - unfold FFStream.codec_description. rewrite field_or_None_lookup.
    by destruct (self !! _).
  - unfold FFStream.codec_tag. rewrite field_or_None_lookup. by destruct (self !! _).
  - apply bind_getitem_no_ValueError. intros b.
    destruct (Py.truthy b); [|done]. apply except_FFProbeError.
  - apply except_FFProbeError.
  - apply except_FFProbeError.
Qed.

(** ** The second way of [duration_seconds] *)

(** X20: on an audio or video stream whose [duration] is ["N/A"] and that has
    no field named [is_video], [is_audio], [get_avg_frame_rate] or [frames],
    the [try] of [duration_seconds] catches nothing: the average rate, the
    frame count, the conversion of the count and the division are done in that
    order, and what the first of them to fail raises is what
    [duration_seconds] raises; the duration error is not among it. *)
Theorem X_duration_from_frames (self : gmap string string) :
  Shape.unshadowed ["is_video"; "is_audio"; "get_avg_frame_rate"; "frames"] self
  = true →
  FFStream.is_video self = Ok true ∨ FFStream.is_audio self = Ok true →
  self !! "duration" = Some "N/A" →
  FFStream.duration_seconds self =
    (fps <- FFStream.get_avg_frame_rate self ;;
     framenumbers <- FFStream.frames self ;;
     x <- FFStream.to_float framenumbers ;;
     Py.truediv x fps)
  ∧ FFStream.duration_seconds self ≠ Raise Spec.MalformedDuration.
Proof.
  intros (Hiv & (Hia & (Hga & (Hfr & _)%unshadowed_cons)%unshadowed_cons)
                 %unshadowed_cons)%unshadowed_cons Hav Hd.
  assert (Shape.unshadowed ["is_video"; "is_audio"] self = true) as Hfree
    by (by apply unshadowed_cons; split; [|apply unshadowed_cons]).
  rewrite (duration_seconds_unfold self Hfree Hav _ Hd). simpl.
  rewrite (invoke_free _ _ _ Hga), (invoke_free _ _ _ Hfr).
  destruct (FFStream.get_avg_frame_rate self) as [fps|e1] eqn:E1; simpl.
  2:{ destruct (get_avg_frame_rate_exceptions _ _ E1) as [[-> _]|[->| ->]]; done. }
  destruct (FFStream.frames self) as [n|e2] eqn:E2; simpl.
  2:{ destruct (frames_raises _ _ Hav E2)
        as [[-> _]|[[-> _]|[[-> _]|[_ [[-> _]|[[-> _]|[Hr _]]]]]]]; try done.
      destruct (get_r_frame_rate_exceptions _ _ Hr) as [[-> _]|[->| ->]]; done. }
  destruct (FFStream.to_float n) as [x|e3] eqn:E3; simpl.
  2:{ destruct n as [z|f]; [|done]. simpl in E3. unfold Py.int_to_float in E3.
      destruct (Py.of_Z z); by inversion E3. }
  unfold Py.truediv. by destruct (Py.is_zero fps).
Qed.

(** X20 on a video stream whose [nb_frames] is a word. *)
Lemma X_duration_from_frames_example :
  FFStream.duration_seconds
    {[ "codec_type" := "video"; "duration" := "N/A"; "avg_frame_rate" := "25/1";
       "nb_frames" := "many" ]}
  = Raise Spec.MalformedFrameCount.
Proof.
  exact (proj1 (X_duration_from_frames
                  {[ "codec_type" := "video"; "duration" := "N/A";
                     "avg_frame_rate" := "25/1"; "nb_frames" := "many" ]}
                  eq_refl (or_introl eq_refl) eq_refl)).
Defined.
